(** * m365_digital_twin: the telemetry API server

    A shallow embedding of the Node.js API server of the repository
    (the current server, whose first line is [// api/src/index.js], and the
    older [src/index.js]) together with the properties of its ingestion,
    fan-out and query handlers.

    Layout:
    - [JS]       the JavaScript values the handlers manipulate and the
                 language operations the source applies to them
                 ([??], [||], truthiness, [String(..)], [Number(..)],
                 [new Date(..)], property reads);
    - [Influx]   the part of the store client the source calls
                 ([Point], [writePoint], [flush], [collectRows]);
    - [Eff]      the effects of a handler: a state-and-exception monad
                 over the process' world, with a trace of what was done;
    - [Server]   the handlers, written in the order of the source;
    - [Ref]      an executable JavaScript runtime and an in-memory store,
                 used to run the handlers on concrete inputs;
    - the theorems. *)

From Stdlib Require Import ZArith Lia Bool List Ascii String.
From Stdlib Require Import Floats.SpecFloat.
From stdpp Require Import base gmap strings list.

Import ListNotations.
Set Warnings "-register-all,-clear-no-such-hyp".
Local Open Scope string_scope.
Local Open Scope Z_scope.

(* ===================================================================== *)
(** * JavaScript values                                                   *)
(* ===================================================================== *)

Module JS.

(** A JavaScript Number is an IEEE-754 binary64; [spec_float] is its
    inductive description: signed zero, signed infinity, NaN, or a finite
    [(-1)^s * m * 2^e].  The properties below do not depend on the
    mantissa and exponent being those of a binary64. *)
Definition number := spec_float.

Definition NaN : number := S754_nan.
Definition pos_zero : number := S754_zero false.

(** [Number.isFinite(n)] for a value that already is a Number. *)
Definition isFinite (n : number) : bool :=
  match n with
  | S754_zero _ | S754_finite _ _ _ => true
  | S754_infinity _ | S754_nan => false
  end.

(** The binary64 nearest to the integer [z] (ties to even). *)
Definition of_Z (z : Z) : number := binary_normalize 53 1024 z 0 false.

(** The binary64 nearest to [m * 10^k]: the value of the decimal literal
    with digits [m] and exponent [k].  For [k < 0] the quotient of the two
    integers is rounded once, by the division of [SpecFloat]. *)
Definition decimal (m k : Z) : number :=
  match k with
  | Zneg p =>
      let den := S754_finite false (10 ^ p)%positive 0 in
      match m with
      | Z0 => pos_zero
      | Zpos a => SFdiv 53 1024 (S754_finite false a 0) den
      | Zneg a => SFdiv 53 1024 (S754_finite true a 0) den
      end
  | _ => of_Z (m * 10 ^ k)
  end.

(** The integer of least magnitude towards zero from a finite number
    (ToIntegerOrInfinity on finite input). *)
Definition truncate (n : number) : Z :=
  match n with
  | S754_finite s m e =>
      let a := match e with
               | Zneg k => Z.shiftr (Zpos m) (Zpos k)
               | _ => Z.shiftl (Zpos m) e
               end in
      if s then - a else a
  | _ => 0
  end.

(** The values a handler can meet: what [JSON.parse], [req.body] and
    [req.query] produce, plus [undefined] for a property that is absent. *)
Inductive value : Type :=
| VUndefined
| VNull
| VBool (b : bool)
| VNum (n : number)
| VStr (s : string)
| VArr (xs : list value)
| VObj (props : list (string * value)).

(** A thrown JavaScript error: [e.name] and [e.message]. *)
Record exn : Type := Exn { e_name : string; e_message : string }.

Definition TypeError (msg : string) : exn := Exn "TypeError" msg.
Definition Error (msg : string) : exn := Exn "Error" msg.

(** [String(e)] on an Error object: [Error.prototype.toString]. *)
Definition exn_to_string (e : exn) : string :=
  if String.eqb (e_message e) "" then e_name e
  else if String.eqb (e_name e) "" then e_message e
  else e_name e +:+ ": " +:+ e_message e.

(** Own-property lookup in the property list of an object. *)
Fixpoint assoc (k : string) (props : list (string * value)) : option value :=
  match props with
  | [] => None
  | (k', v) :: rest => if String.eqb k k' then Some v else assoc k rest
  end.

(** [o.k] for the property names the handlers read ([device_id], [ts],
    [fw_src] and the channel names).  Reading a property of [undefined] or
    [null] throws; on a primitive or an array these names are not defined
    (none of them is [length], an index, or a member of a built-in
    prototype), so the read gives [undefined]. *)
Definition get (o : value) (k : string) : exn + value :=
  match o with
  | VUndefined =>
      inl (TypeError ("Cannot read properties of undefined (reading '" +:+ k +:+ "')"))
  | VNull =>
      inl (TypeError ("Cannot read properties of null (reading '" +:+ k +:+ "')"))
  | VObj props => inr (default VUndefined (assoc k props))
  | _ => inr VUndefined
  end.

(** [a ?? b]: [b] only when [a] is [null] or [undefined]. *)
Definition nullish (a b : value) : value :=
  match a with
  | VUndefined | VNull => b
  | _ => a
  end.

(** ToBoolean: the falsy values are [undefined], [null], [false], [+0],
    [-0], [NaN] and the empty string. *)
Definition truthy (v : value) : bool :=
  match v with
  | VUndefined | VNull => false
  | VBool b => b
  | VNum (S754_zero _) | VNum S754_nan => false
  | VNum _ => true
  | VStr s => negb (String.eqb s "")
  | VArr _ | VObj _ => true
  end.

(** [a || b]. *)
Definition or_else (a b : value) : value := if truthy a then a else b.

(** [s.toLowerCase()] on the ASCII letters (a string equal to ["true"]
    after lower-casing consists of ASCII letters only). *)
Definition lower_ascii (c : ascii) : ascii :=
  let n := nat_of_ascii c in
  if (Nat.leb 65 n && Nat.leb n 90)%bool then ascii_of_nat (n + 32)%nat else c.

Fixpoint toLowerCase (s : string) : string :=
  match s with
  | EmptyString => EmptyString
  | String c rest => String (lower_ascii c) (toLowerCase rest)
  end.

(** [xs.join(sep)] on strings. *)
Fixpoint join (sep : string) (xs : list string) : string :=
  match xs with
  | [] => ""
  | [x] => x
  | x :: rest => x +:+ sep +:+ join sep rest
  end.

(** [s.split(c)] for a one-character separator: never the empty list. *)
Fixpoint split (c : ascii) (s : string) : list string :=
  match s with
  | EmptyString => [""]
  | String a rest =>
      if Ascii.eqb a c then "" :: split c rest
      else match split c rest with
           | [] => [String a ""]
           | w :: ws => String a w :: ws
           end
  end.

(** White space of [trim]: the WhiteSpace and LineTerminator code points
    of the language.  A string is held as its UTF-8 bytes, so the code
    points of ASCII are one byte (TAB, LF, VT, FF, CR, SP) and the others
    are two or three:
    - U+00A0 is [C2 A0];
    - U+1680 is [E1 9A 80];
    - U+2000 to U+200A are [E2 80 80] to [E2 80 8A];
    - U+2028, U+2029 and U+202F are [E2 80 A8], [E2 80 A9], [E2 80 AF];
    - U+205F is [E2 81 9F];
    - U+3000 is [E3 80 80];
    - U+FEFF is [EF BB BF]. *)
Definition is_space (c : ascii) : bool :=
  let n := nat_of_ascii c in
  ((Nat.leb 9 n && Nat.leb n 13) || Nat.eqb n 32)%bool.

Definition is_space2 (a b : ascii) : bool :=
  (Nat.eqb (nat_of_ascii a) 194 && Nat.eqb (nat_of_ascii b) 160)%bool.

Definition is_space3 (a b c : ascii) : bool :=
  let x := nat_of_ascii a in
  let y := nat_of_ascii b in
  let z := nat_of_ascii c in
  ((Nat.eqb x 225 && Nat.eqb y 154 && Nat.eqb z 128)
   || (Nat.eqb x 226 && Nat.eqb y 128
       && ((Nat.leb 128 z && Nat.leb z 138)
           || Nat.eqb z 168 || Nat.eqb z 169 || Nat.eqb z 175))
   || (Nat.eqb x 226 && Nat.eqb y 129 && Nat.eqb z 159)
   || (Nat.eqb x 227 && Nat.eqb y 128 && Nat.eqb z 128)
   || (Nat.eqb x 239 && Nat.eqb y 187 && Nat.eqb z 191))%bool.

(** What follows a white space code point at the head of a string, if
    the string starts with one. *)
Definition space_head (s : string) : option string :=
  match s with
  | EmptyString => None
  | String a r1 =>
      if is_space a then Some r1
      else match r1 with
           | EmptyString => None
           | String b r2 =>
               if is_space2 a b then Some r2
               else match r2 with
                    | EmptyString => None
                    | String c r3 => if is_space3 a b c then Some r3 else None
                    end
           end
  end.

(** [s.trimStart()]: white space code points are dropped from the head
    for as long as there is one. *)
Fixpoint trimStart (s : string) : string :=
  match s with
  | EmptyString => s
  | String a r1 =>
      if is_space a then trimStart r1
      else match r1 with
           | EmptyString => s
           | String b r2 =>
               if is_space2 a b then trimStart r2
               else match r2 with
                    | EmptyString => s
                    | String c r3 => if is_space3 a b c then trimStart r3 else s
                    end
           end
  end.

(** [s.trimEnd()]: the string is kept up to the point from which only
    white space follows. *)
Fixpoint trimEnd (s : string) : string :=
  match s with
  | EmptyString => EmptyString
  | String c rest =>
      if String.eqb (trimStart s) "" then EmptyString
      else String c (trimEnd rest)
  end.

Definition trim (s : string) : string := trimEnd (trimStart s).

(** ** The runtime

    The conversions between text and values are the engine's: the handlers
    call them, the repository does not define them.  The development is
    parametric in them; [Ref] below gives an executable instance. *)
Class Runtime : Type := {
  (** [JSON.parse(text)]: the value, or the SyntaxError it throws. *)
  JSON_parse : string -> exn + value;
  (** [JSON.stringify(v)] on a value that has a JSON text. *)
  JSON_stringify : value -> string;
  (** [Number(s)] on a string (StringToNumber). *)
  StringToNumber : string -> number;
  (** [String(n)] on a number (Number::toString, radix 10). *)
  NumberToString : number -> string;
  (** [parseFloat(s)] on a string. *)
  parseFloat : string -> number;
  (** [Date.parse(s)]: the time value in milliseconds since the epoch,
      [None] where the engine gives NaN. *)
  Date_parse : string -> option Z
}.

Section Conversions.
Context {R : Runtime}.

(** ** Conversions

    [String(v)], [Number(v)], a template literal and [new Date(v)] first
    bring an object to a primitive (ToPrimitive), through its [valueOf]
    and [toString] methods.  The objects here are plain data: what
    [JSON.parse] or a body or query parser built.  [valueOf] never gives a
    primitive on them, so everything rests on [toString]:
    - a plain object answers ["[object Object]"], unless it has an own
      property named [toString]: that property holds data, is not callable
      and hides the method, and the conversion throws a TypeError;
    - an array joins the strings of its elements, and throws when the
      conversion of an element does.  *)

(** Whether the conversion of [v] to a primitive completes. *)
Fixpoint converts (v : value) : bool :=
  match v with
  | VArr xs => forallb converts xs
  | VObj props =>
      match assoc "toString" props with
      | Some _ => false
      | None => true
      end
  | _ => true
  end.

Definition not_primitive : exn :=
  TypeError "Cannot convert object to primitive value".

(** The string of a value whose conversion completes.  An array joins its
    elements with commas, [null] and [undefined] elements as the empty
    string; a plain object is ["[object Object]"]. *)
Fixpoint string_of (v : value) : string :=
  match v with
  | VUndefined => "undefined"
  | VNull => "null"
  | VBool true => "true"
  | VBool false => "false"
  | VNum n => NumberToString n
  | VStr s => s
  | VArr xs =>
      join "," (List.map (fun x => match x with
                                   | VUndefined | VNull => ""
                                   | _ => string_of x
                                   end) xs)
  | VObj _ => "[object Object]"
  end.

(** The number of a value whose conversion completes.  Arrays and objects
    go through their string. *)
Definition number_of (v : value) : number :=
  match v with
  | VUndefined => NaN
  | VNull => pos_zero
  | VBool true => S754_finite false 1 0
  | VBool false => pos_zero
  | VNum n => n
  | VStr s => StringToNumber s
  | VArr _ | VObj _ => StringToNumber (string_of v)
  end.

(** [String(v)] and [`${v}`]: ToString. *)
Definition ToString (v : value) : exn + string :=
  if converts v then inr (string_of v) else inl not_primitive.

(** [Number(v)]: ToNumber. *)
Definition ToNumber (v : value) : exn + number :=
  if converts v then inr (number_of v) else inl not_primitive.

(** A Date object is its time value: [Some ms], or [None] for an
    Invalid Date. *)
Definition Date := option Z.

(** TimeClip: a finite number within 8.64e15 ms of the epoch, truncated
    to an integer. *)
Definition TimeClip (n : number) : Date :=
  if isFinite n
  then let t := truncate n in
       if Z.leb (Z.abs t) 8640000000000000 then Some t else None
  else None.

(** The date of a value whose conversion completes: a string is parsed,
    anything else is converted to a number; arrays and objects reach the
    parser through their string. *)
Definition date_of (v : value) : Date :=
  match v with
  | VStr s => Date_parse s
  | VArr _ | VObj _ => Date_parse (string_of v)
  | _ => TimeClip (number_of v)
  end.

(** [new Date(v)] with one argument. *)
Definition new_Date (v : value) : exn + Date :=
  if converts v then inr (date_of v) else inl not_primitive.

End Conversions.

End JS.

(* ===================================================================== *)
(** * The store client                                                    *)
(* ===================================================================== *)

(** The calls the source makes on [@influxdata/influxdb-client]: building
    a [Point], [writeApi.writePoint], [writeApi.flush] and
    [queryApi.collectRows]. *)
Module Influx.
Import JS.

Inductive field_value : Type :=
| FloatField (n : number)
| StringField (s : string).

(** A point under construction: [name], the [tags] and [fields] objects,
    and [time] ([None] until [timestamp] is called). *)
Record Point : Type := mkPoint {
  p_name : string;
  p_tags : gmap string value;
  p_fields : gmap string field_value;
  p_time : option Date
}.

Definition new_Point (measurement : string) : Point :=
  mkPoint measurement ∅ ∅ None.

(** [p.tag(k, v)] stores [v] as it is given. *)
Definition tag (k : string) (v : value) (p : Point) : Point :=
  mkPoint (p_name p) (<[k := v]> (p_tags p)) (p_fields p) (p_time p).

(** [p.floatField(k, v)]: a number is taken as it is, anything else goes
    through [parseFloat], which converts it to a string first and throws
    where that conversion does; a value that is not finite is refused with
    an Error. *)
Definition floatField {R : Runtime} (k : string) (v : value) (p : Point)
  : exn + Point :=
  match (match v with
         | VNum n => inr n
         | _ => match ToString v with
                | inl e => inl e
                | inr s => inr (parseFloat s)
                end
         end) with
  | inl e => inl e
  | inr val =>
      if isFinite val
      then inr (mkPoint (p_name p) (p_tags p)
                        (<[k := FloatField val]> (p_fields p)) (p_time p))
      else inl (Error ("invalid float value for field '" +:+ k +:+ "': '"
                       +:+ string_of v +:+ "'!"))
  end.

(** [p.stringField(k, s)] on a string. *)
Definition stringField (k : string) (s : string) (p : Point) : Point :=
  mkPoint (p_name p) (p_tags p) (<[k := StringField s]> (p_fields p)) (p_time p).

(** [p.timestamp(d)] on a Date object. *)
Definition timestamp (d : Date) (p : Point) : Point :=
  mkPoint (p_name p) (p_tags p) (p_fields p) (Some d).

(** The precision a write API was created with: [getWriteApi(org, bucket,
    's')] in the current server, the default (nanoseconds) in the older
    one. *)
Inductive precision : Type := PrecS | PrecNS.

(** The timestamp column of a written line: a count of [precision] units
    since the epoch, or the text [NaN] that an Invalid Date produces. *)
Inductive line_time : Type :=
| Stamp (t : Z)
| StampNaN.

(** The write API's [convertTime]: with no [time] on the point the clock
    is read ([now], in milliseconds); a Date is converted from its time
    value.  At second precision both are [Math.floor(ms / 1000)]; at
    nanosecond precision a Date gives its milliseconds followed by six
    zeros (the digits below the millisecond of the nanosecond clock are
    not modelled). *)
Definition convertTime (prec : precision) (now : Z) (t : option Date) : line_time :=
  match prec, t with
  | PrecS, None => Stamp (now / 1000)
  | PrecS, Some (Some ms) => Stamp (ms / 1000)
  | PrecNS, None => Stamp (now * 1000000)
  | PrecNS, Some (Some ms) => Stamp (ms * 1000000)
  | _, Some None => StampNaN
  end.

(** What [writePoint] hands to the write buffer. *)
Record Line : Type := mkLine { l_point : Point; l_time : line_time }.

(** A row of a query result, by the columns the handlers read: [_field],
    [_value] and [_time]. *)
Record Row : Type := mkRow { r_field : string; r_value : value; r_time : value }.

(** The store as the handlers see it.  [writeLine] is the buffering done
    by [writePoint] and may throw; [flush] resolves or rejects;
    [collectRows] resolves with the rows of a Flux query or rejects. *)
Class Client (S : Type) : Type := {
  writeLine : S -> Line -> exn + S;
  flush : S -> exn + S;
  collectRows : S -> string -> exn + list Row
}.

End Influx.

(* ===================================================================== *)
(** * Effects                                                             *)
(* ===================================================================== *)

Module Eff.
Import JS Influx.

(** A live viewer: a WebSocket of [wss.clients].  [readyState] is 1 when
    the socket is open; [send_result frame] is [Some e] when [ws.send]
    throws [e] on that frame. *)
Record Viewer : Type := mkViewer {
  vid : nat;
  readyState : Z;
  send_result : string -> option exn
}.

(** The body given to [res.json]. *)
Inductive Body : Type :=
| BJson (v : value)
| BObject (o : gmap string value)
| BRows (rows : list Row).

Inductive stream : Type := Stdout | Stderr.

(** What a handler did, in order. *)
Inductive Event : Type :=
| EvSend (viewer : nat) (frame : string)
| EvWrite (l : Line)
| EvFlush
| EvQuery (flux : string)
| EvLog (to : stream) (args : list value)
| EvRespond (status : Z) (body : Body).

(** The process: the connected viewers, the store client, the clock (ms
    since the epoch) and the trace of effects so far. *)
Record World (S : Type) : Type := mkWorld {
  clients : list Viewer;
  store : S;
  now : Z;
  trace : list Event
}.
Arguments mkWorld {S}.
Arguments clients {S}.
Arguments store {S}.
Arguments now {S}.
Arguments trace {S}.

Definition emit {S} (ev : Event) (w : World S) : World S :=
  mkWorld (clients w) (store w) (now w) (trace w ++ [ev]).

Definition set_store {S} (s : S) (w : World S) : World S :=
  mkWorld (clients w) s (now w) (trace w).

(** A computation: it returns or throws, and leaves a world.  A handler
    is followed from its first statement to its last; what other handlers
    do while it awaits the store is not part of its run. *)
Definition M (S A : Type) : Type := World S -> (exn + A) * World S.

Class Monad (m : Type -> Type) : Type := {
  ret : forall {A}, A -> m A;
  bind : forall {A B}, m A -> (A -> m B) -> m B
}.

#[global] Instance Monad_result : Monad (sum exn) := {
  ret A a := inr a;
  bind A B x k := match x with inl e => inl e | inr a => k a end
}.

#[global] Instance Monad_M (S : Type) : Monad (M S) := {
  ret A a := fun w => (inr a, w);
  bind A B x k := fun w =>
    match x w with
    | (inl e, w') => (inl e, w')
    | (inr a, w') => k a w'
    end
}.

Definition lift {S A} (x : exn + A) : M S A := fun w => (x, w).

(** [try { body } catch (e) { handler }]: what [body] did before it threw
    stays done. *)
Definition try_catch {S A} (body : M S A) (handler : exn -> M S A) : M S A :=
  fun w =>
    match body w with
    | (inl e, w') => handler e w'
    | r => r
    end.

Definition tell {S} (ev : Event) : M S unit := fun w => (inr tt, emit ev w).

(** [ws.send(frame)]. *)
Definition ws_send {S} (ws : Viewer) (frame : string) : M S unit :=
  match send_result ws frame with
  | Some e => lift (inl e)
  | None => tell (EvSend (vid ws) frame)
  end.

Definition console_log {S} (args : list value) : M S unit := tell (EvLog Stdout args).
Definition console_error {S} (args : list value) : M S unit := tell (EvLog Stderr args).

(** [res.status(status).json(body)]. *)
Definition res_json {S} (status : Z) (body : Body) : M S unit :=
  tell (EvRespond status body).

Section StoreCalls.
Context {S : Type} {C : Client S}.

(** [writeApi.writePoint(p)]: the line is made at the clock's reading
    and handed to the buffer. *)
Definition writePoint (prec : precision) (p : Point) : M S unit :=
  fun w =>
    let l := mkLine p (convertTime prec (now w) (p_time p)) in
    match writeLine (store w) l with
    | inl e => (inl e, w)
    | inr s' => (inr tt, emit (EvWrite l) (set_store s' w))
    end.

(** [await writeApi.flush()]. *)
Definition await_flush : M S unit :=
  fun w =>
    match flush (store w) with
    | inl e => (inl e, w)
    | inr s' => (inr tt, emit EvFlush (set_store s' w))
    end.

(** [await queryApi.collectRows(flux)]. *)
Definition await_collectRows (flux : string) : M S (list Row) :=
  fun w => (collectRows (store w) flux, emit (EvQuery flux) w).
End StoreCalls.

End Eff.

Declare Scope eff_scope.
Delimit Scope eff_scope with eff.
Notation "x <- c1 ;; c2" := (Eff.bind c1 (fun x => c2))
  (at level 100, c1 at next level, right associativity) : eff_scope.
Notation "c1 ;; c2" := (Eff.bind c1 (fun _ => c2))
  (at level 100, right associativity) : eff_scope.

(* ===================================================================== *)
(** * The server                                                          *)
(* ===================================================================== *)

Module Server.
Import JS Influx Eff.
Local Open Scope eff_scope.

(** The settings read from the environment that the handlers use. *)
Record Config : Type := mkConfig {
  INFLUX_BUCKET : string;
  WRITE_TO_INFLUX : string
}.

(** An HTTP request as the routes read it: [req.params.deviceId],
    [req.query] and [req.body].  A value of [req.query] is what the
    query-string parser made of the text: a string, or (for a repeated or
    bracketed parameter) an array or a plain object of such values. *)
Record Request : Type := mkRequest {
  req_deviceId : string;
  req_query : list (string * value);
  req_body : value
}.

Definition query (req : Request) (k : string) : value :=
  default VUndefined (assoc k (req_query req)).

(** The double quote and the line feed of the Flux templates. *)
Definition dq : string := String (ascii_of_nat 34) "".
Definition nl : string := String (ascii_of_nat 10) "".

(** The number literals of the manual-write defaults. *)
Definition lit_40_1 : number := Eval vm_compute in decimal 401 (-1).
Definition lit_1_1 : number := Eval vm_compute in decimal 11 (-1).
Definition lit_25_0 : number := Eval vm_compute in decimal 25 0.
Definition lit_27_0 : number := Eval vm_compute in decimal 27 0.
Definition lit_18_0 : number := Eval vm_compute in decimal 18 0.
Definition lit_0_1 : number := Eval vm_compute in decimal 1 (-1).
Definition lit_0_0 : number := pos_zero.
Definition lit_9_8 : number := Eval vm_compute in decimal 98 (-1).

(** The channels written as float fields, in the order of the source. *)
Definition channels : list string :=
  ["u_batt_v"; "i_batt_a"; "t_batt_c"; "t_ctrl_c";
   "speed_kmh"; "ax_ms2"; "ay_ms2"; "az_ms2"].

Section Handlers.
Context {R : Runtime} {S : Type} {C : Client S}.
Variable cfg : Config.

(** ** Utils *)

(** [function toNum(v) { const n = Number(v); return Number.isFinite(n) ? n : 0; }] *)
Definition toNum (v : value) : exn + number :=
  n <- ToNumber v ;;
  ret (if isFinite n then n else pos_zero).

(** [function safeSend(ws, obj)] *)
Definition safeSend (ws : Viewer) (obj : value) : M S unit :=
  try_catch
    (if Z.eqb (readyState ws) 1 then ws_send ws (JSON_stringify obj) else ret tt)
    (fun _ => ret tt).

(** The body of the [for (const ws of wss.clients)] loop of [broadcast],
    over the viewers still to visit. *)
Fixpoint broadcast_loop (s : string) (todo : list Viewer) : M S unit :=
  match todo with
  | [] => ret tt
  | ws :: rest =>
      try_catch
        (if Z.eqb (readyState ws) 1 then ws_send ws s else ret tt)
        (fun _ => ret tt) ;;
      broadcast_loop s rest
  end.

(** [function broadcast(obj)] *)
Definition broadcast (obj : value) : M S unit :=
  fun w =>
    let s := JSON_stringify obj in
    broadcast_loop s (clients w) w.

(** ** MQTT: the message handler of the current server *)

(** One link [.floatField(k, toNum(obj.k))] of the point's chain. *)
Definition ingest_field (obj : value) (k : string) (p : Point) : exn + Point :=
  v <- get obj k ;;
  n <- toNum v ;;
  floatField k (VNum n) p.

(** The point of the write branch, with its timestamp. *)
Definition ingest_point (obj : value) : exn + Point :=
  d <- get obj "device_id" ;;
  id <- ToString (nullish d (VStr "unknown")) ;;
  let p := tag "device_id" (VStr id) (new_Point "scooter") in
  p <- ingest_field obj "u_batt_v" p ;;
  p <- ingest_field obj "i_batt_a" p ;;
  p <- ingest_field obj "t_batt_c" p ;;
  p <- ingest_field obj "t_ctrl_c" p ;;
  p <- ingest_field obj "speed_kmh" p ;;
  p <- ingest_field obj "ax_ms2" p ;;
  p <- ingest_field obj "ay_ms2" p ;;
  p <- ingest_field obj "az_ms2" p ;;
  f <- get obj "fw_src" ;;
  fw <- ToString (nullish f (VStr "unknown")) ;;
  let p := stringField "fw_src" fw p in
  ts <- get obj "ts" ;;
  if truthy ts
  then (t <- new_Date ts ;; ret (timestamp t p))
  else ret p.

(** [mqttClient.on('message', (_topic, message) => ...)] *)
Definition on_message (message : string) : M S unit :=
  match JSON_parse message with
  | inl _ => ret tt
  | inr obj =>
      broadcast (VObj [("type", VStr "telemetry"); ("data", obj)]) ;;
      if String.eqb (toLowerCase (WRITE_TO_INFLUX cfg)) "true"
      then try_catch
             (p <- lift (ingest_point obj) ;;
              writePoint PrecS p)
             (fun e => console_error [VStr "[Influx write error]"; VStr (e_message e)])
      else ret tt
  end.

(** ** MQTT: the message handler of the older server, [src/index.js] *)

Definition legacy_field (data : value) (k : string) (p : Point) : exn + Point :=
  v <- get data k ;;
  floatField k v p.

Definition legacy_point (data : value) : exn + Point :=
  d <- get data "device_id" ;;
  let p := tag "device_id" d (new_Point "scooter") in
  p <- legacy_field data "u_batt_v" p ;;
  p <- legacy_field data "i_batt_a" p ;;
  p <- legacy_field data "t_batt_c" p ;;
  p <- legacy_field data "t_ctrl_c" p ;;
  p <- legacy_field data "speed_kmh" p ;;
  p <- legacy_field data "ax_ms2" p ;;
  p <- legacy_field data "ay_ms2" p ;;
  legacy_field data "az_ms2" p.

Definition on_message_legacy (message : string) : M S unit :=
  try_catch
    (data <- lift (JSON_parse message) ;;
     console_log [VStr "[MQTT] Message:"; data] ;;
     point <- lift (legacy_point data) ;;
     writePoint PrecNS point)
    (fun err => console_error [VStr "[MQTT ERROR]"; VStr (e_message err)]).

(** ** REST API *)

(** The Flux text of [/api/latest/:deviceId]: a template literal, which
    converts [range] to a string. *)
Definition latest_flux (range : value) (deviceId : string) : exn + string :=
  r <- ToString range ;;
  ret (nl +:+ "    from(bucket: " +:+ dq +:+ INFLUX_BUCKET cfg +:+ dq +:+ ")"
       +:+ nl +:+ "      |> range(start: -" +:+ r +:+ ")"
       +:+ nl +:+ "      |> filter(fn: (r) => r._measurement == " +:+ dq +:+ "scooter"
       +:+ dq +:+ " and r.device_id == " +:+ dq +:+ deviceId +:+ dq +:+ ")"
       +:+ nl +:+ "      |> last()"
       +:+ nl +:+ "  ").

(** [latest[k] = v] on the plain object [latest].  The key [__proto__]
    reaches the accessor of [Object.prototype] and adds no own property,
    so the JSON of the object does not change. *)
Definition obj_assign (k : string) (v : value) (o : gmap string value)
  : gmap string value :=
  if String.eqb k "__proto__" then o else <[k := v]> o.

(** The [for (const r of rows)] loop of [/api/latest]. *)
Fixpoint latest_loop (rows : list Row) (latest : gmap string value)
  : gmap string value :=
  match rows with
  | [] => latest
  | r :: rest =>
      let latest := obj_assign (r_field r) (r_value r) latest in
      let latest := <["ts" := r_time r]> latest in
      latest_loop rest latest
  end.

(** [app.get('/api/latest/:deviceId', ...)].  The query text is made
    before the [try]: where the conversion of [range] throws, the handler
    itself throws (its promise rejects) and has called nothing. *)
Definition api_latest (req : Request) : M S unit :=
  let deviceId := req_deviceId req in
  let range := or_else (query req "range") (VStr "2h") in
  flux <- lift (latest_flux range deviceId) ;;
  try_catch
    (rows <- await_collectRows flux ;;
     let latest := latest_loop rows {[ "device_id" := VStr deviceId ]} in
     res_json 200 (BObject latest))
    (fun err => res_json 500 (BJson (VObj [("error", VStr (exn_to_string err))]))).

(** [String(req.query.fields || '...').split(',').map((s) => s.trim()).filter(Boolean)] *)
Definition series_fields (req : Request) : exn + list string :=
  s <- ToString (or_else (query req "fields")
                         (VStr "u_batt_v,i_batt_a,speed_kmh")) ;;
  ret (List.filter (fun s => truthy (VStr s))
         (List.map trim (split ","%char s))).

(** [fields.map((f) => `r._field == "${f}"`).join(' or ')] *)
Definition fieldFilter (fields : list string) : string :=
  join " or " (List.map (fun f => "r._field == " +:+ dq +:+ f +:+ dq) fields).

(** The Flux text of [/api/series/:deviceId]: a template literal, which
    converts [range] to a string. *)
Definition series_flux (range : value) (deviceId : string) (fields : list string)
  : exn + string :=
  r <- ToString range ;;
  ret (nl +:+ "    from(bucket: " +:+ dq +:+ INFLUX_BUCKET cfg +:+ dq +:+ ")"
       +:+ nl +:+ "      |> range(start: -" +:+ r +:+ ")"
       +:+ nl +:+ "      |> filter(fn: (r) => r._measurement == " +:+ dq +:+ "scooter"
       +:+ dq +:+ " and r.device_id == " +:+ dq +:+ deviceId +:+ dq
       +:+ " and (" +:+ fieldFilter fields +:+ "))"
       +:+ nl +:+ "      |> keep(columns: [" +:+ dq +:+ "_time" +:+ dq +:+ ","
       +:+ dq +:+ "_value" +:+ dq +:+ "," +:+ dq +:+ "_field" +:+ dq +:+ "])"
       +:+ nl +:+ "      |> sort(columns: [" +:+ dq +:+ "_time" +:+ dq +:+ "])"
       +:+ nl +:+ "  ").

(** [app.get('/api/series/:deviceId', ...)].  The list of fields and the
    query text are made before the [try]. *)
Definition api_series (req : Request) : M S unit :=
  let deviceId := req_deviceId req in
  let range := or_else (query req "range") (VStr "60m") in
  fields <- lift (series_fields req) ;;
  flux <- lift (series_flux range deviceId fields) ;;
  try_catch
    (rows <- await_collectRows flux ;;
     res_json 200 (BRows rows))
    (fun err => res_json 500 (BJson (VObj [("error", VStr (exn_to_string err))]))).

(** One link [.floatField(k, toNum(d.k ?? dflt))] of the manual write. *)
Definition manual_field (d : value) (k : string) (dflt : number) (p : Point)
  : exn + Point :=
  v <- get d k ;;
  n <- toNum (nullish v (VNum dflt)) ;;
  floatField k (VNum n) p.

(** The point of [/api/write], with its timestamp. *)
Definition manual_point (body : value) : exn + Point :=
  let d := or_else body (VObj []) in
  i <- get d "device_id" ;;
  id <- ToString (nullish i (VStr "test")) ;;
  let p := tag "device_id" (VStr id) (new_Point "scooter") in
  p <- manual_field d "u_batt_v" lit_40_1 p ;;
  p <- manual_field d "i_batt_a" lit_1_1 p ;;
  p <- manual_field d "t_batt_c" lit_25_0 p ;;
  p <- manual_field d "t_ctrl_c" lit_27_0 p ;;
  p <- manual_field d "speed_kmh" lit_18_0 p ;;
  p <- manual_field d "ax_ms2" lit_0_1 p ;;
  p <- manual_field d "ay_ms2" lit_0_0 p ;;
  p <- manual_field d "az_ms2" lit_9_8 p ;;
  f <- get d "fw_src" ;;
  fw <- ToString (nullish f (VStr "api")) ;;
  let p := stringField "fw_src" fw p in
  ts <- get d "ts" ;;
  if truthy ts
  then (t <- new_Date ts ;; ret (timestamp t p))
  else ret p.

(** [app.post('/api/write', ...)] *)
Definition api_write (req : Request) : M S unit :=
  try_catch
    (p <- lift (manual_point (req_body req)) ;;
     writePoint PrecS p ;;
     await_flush ;;
     res_json 200 (BJson (VObj [("ok", VBool true)])))
    (fun e => res_json 500 (BJson (VObj [("error", VStr (exn_to_string e))]))).

End Handlers.

End Server.

(* ===================================================================== *)
(** * An executable runtime and store                                     *)
(* ===================================================================== *)

(** The handlers are run on concrete inputs with the instances below: a
    JSON reader and writer, the numeric conversions, a parser of the ISO
    date-time format, and a store held in memory. *)
Module Ref.
Import JS Influx.

(** ** Characters *)

Definition code (c : ascii) : Z := Z.of_nat (nat_of_ascii c).
Definition chr (n : Z) : ascii := ascii_of_nat (Z.to_nat n).

Definition digit (c : ascii) : option Z :=
  let n := code c in
  if (48 <=? n) && (n <=? 57) then Some (n - 48) else None.

Definition hex_digit (c : ascii) : option Z :=
  let n := code c in
  if (48 <=? n) && (n <=? 57) then Some (n - 48)
  else if (97 <=? n) && (n <=? 102) then Some (n - 87)
  else if (65 <=? n) && (n <=? 70) then Some (n - 55)
  else None.

Fixpoint starts_with (p s : string) : option string :=
  match p, s with
  | EmptyString, _ => Some s
  | String a p', String b s' => if Ascii.eqb a b then starts_with p' s' else None
  | _, EmptyString => None
  end.

(** ** Numbers from text *)

(** The digits at the head of [s] in base [base], appended to the digits
    already read in [acc]: the number read, how many digits, the rest. *)
Fixpoint scan_digits (base : Z) (dig : ascii -> option Z) (s : string) (acc n : Z)
  : Z * Z * string :=
  match s with
  | String c rest =>
      match dig c with
      | Some d => scan_digits base dig rest (acc * base + d) (n + 1)
      | None => (acc, n, s)
      end
  | EmptyString => (acc, n, s)
  end.

Definition scan_sign (s : string) : bool * string :=
  match s with
  | String "-" rest => (true, rest)
  | String "+" rest => (false, rest)
  | _ => (false, s)
  end.

Definition signed (neg : bool) (n : number) : number :=
  if neg then SFopp n else n.

(** An exponent part [e[+-]digits] at the head of [s], if complete. *)
Definition scan_exponent (s : string) : option (Z * string) :=
  match s with
  | String c rest =>
      if Ascii.eqb c "e" || Ascii.eqb c "E"
      then let '(neg, r1) := scan_sign rest in
           let '(ex, n, r2) := scan_digits 10 digit r1 0 0 in
           if n =? 0 then None else Some (if neg then - ex else ex, r2)
      else None
  | EmptyString => None
  end.

(** The longest StrDecimalLiteral at the head of [s] and what follows it. *)
Definition scan_decimal (s : string) : option (number * string) :=
  let '(neg, s1) := scan_sign s in
  match starts_with "Infinity" s1 with
  | Some rest => Some (S754_infinity neg, rest)
  | None =>
      let '(i, ni, s2) := scan_digits 10 digit s1 0 0 in
      let '(m, nf, s3) :=
        match s2 with
        | String "." rest => scan_digits 10 digit rest i 0
        | _ => (i, 0, s2)
        end in
      if ni + nf =? 0 then None
      else let '(ex, s4) := default (0, s3) (scan_exponent s3) in
           Some (signed neg (decimal m (ex - nf)), s4)
  end.

(** A literal [0x..], [0o..] or [0b..] that spans the whole of [s]. *)
Definition scan_radix (s : string) : option number :=
  let whole (base : Z) (dig : ascii -> option Z) (body : string) :=
    let '(v, n, rest) := scan_digits base dig body 0 0 in
    if (0 <? n) && String.eqb rest "" then Some (of_Z v) else None in
  let bounded (base : Z) (c : ascii) :=
    match digit c with
    | Some d => if d <? base then Some d else None
    | None => None
    end in
  match s with
  | String "0" (String c body) =>
      if Ascii.eqb c "x" || Ascii.eqb c "X" then whole 16 hex_digit body
      else if Ascii.eqb c "o" || Ascii.eqb c "O" then whole 8 (bounded 8) body
      else if Ascii.eqb c "b" || Ascii.eqb c "B" then whole 2 (bounded 2) body
      else None
  | _ => None
  end.

(** [Number(s)]: StringToNumber. *)
Definition StringToNumber_ref (s : string) : number :=
  let t := trim s in
  if String.eqb t "" then pos_zero
  else match scan_radix t with
       | Some n => n
       | None =>
           match scan_decimal t with
           | Some (n, EmptyString) => n
           | _ => NaN
           end
       end.

(** [parseFloat(s)]: the longest decimal literal after leading white
    space, NaN when there is none. *)
Definition parseFloat_ref (s : string) : number :=
  match scan_decimal (trimStart s) with
  | Some (n, _) => n
  | None => NaN
  end.

(** ** Numbers to text *)

Fixpoint digits_rev (fuel : nat) (z : Z) : list ascii :=
  match fuel with
  | O => []
  | S f => if z <? 10 then [chr (48 + z)]
           else chr (48 + z mod 10) :: digits_rev f (z / 10)
  end.

(** The decimal digits of a natural number. *)
Definition Z_digits (z : Z) : string :=
  string_of_list_ascii (rev (digits_rev (S (Z.to_nat (Z.log2 z))) z)).

Definition Z_to_string (z : Z) : string :=
  if z <? 0 then "-" +:+ Z_digits (- z) else Z_digits z.

Fixpoint zeros (n : nat) : string :=
  match n with
  | O => ""
  | S k => String "0" (zeros k)
  end.

Fixpoint str_take (n : nat) (s : string) : string :=
  match n, s with
  | S k, String c rest => String c (str_take k rest)
  | _, _ => ""
  end.

Fixpoint str_drop (n : nat) (s : string) : string :=
  match n, s with
  | S k, String _ rest => str_drop k rest
  | _, _ => s
  end.

(** A positive finite number as the fraction [num / den]. *)
Definition fraction (m : positive) (e : Z) : Z * Z :=
  match e with
  | Zneg k => (Zpos m, 2 ^ Zpos k)
  | _ => (Zpos m * 2 ^ e, 1)
  end.

(** [num / den < 10^n] *)
Definition below_pow10 (num den n : Z) : bool :=
  if 0 <=? n then num <? den * 10 ^ n else num * 10 ^ (- n) <? den.

(** The least [n], from [lo] upwards, with [num / den < 10^n]. *)
Fixpoint magnitude (fuel : nat) (num den lo : Z) : Z :=
  match fuel with
  | O => lo
  | S f => if below_pow10 num den lo then lo else magnitude f num den (lo + 1)
  end.

(** [floor ((num / den) / 10^q)] *)
Definition scaled_floor (num den q : Z) : Z :=
  if 0 <=? q then num / (den * 10 ^ q) else (num * 10 ^ (- q)) / den.

(** Is [s * 10^q] nearer to [num / den] than [(s + 1) * 10^q], or as near? *)
Definition lower_is_nearer (num den s q : Z) : bool :=
  if 0 <=? q
  then 2 * num <=? (2 * s + 1) * 10 ^ q * den
  else 2 * num * 10 ^ (- q) <=? (2 * s + 1) * den.

(** The shortest digit string [s] of [k] digits and the exponent [n] with
    [s * 10^(n - k)] reading back as [v]; of two such strings of the same
    length, the nearer to [v].  [k] runs from [k] upwards. *)
Fixpoint shortest (fuel : nat) (v : number) (num den n k : Z) : Z * Z * Z :=
  match fuel with
  | O => (0, n, k)
  | S f =>
      let q := n - k in
      let lo := scaled_floor num den q in
      let hi := lo + 1 in
      let ok_lo := (10 ^ (k - 1) <=? lo) && SFeqb v (decimal lo q) in
      let ok_hi := SFeqb v (decimal hi q) in
      let pick (s : Z) := if s =? 10 ^ k then (10 ^ (k - 1), n + 1, k) else (s, n, k) in
      if ok_lo && ok_hi then pick (if lower_is_nearer num den lo q then lo else hi)
      else if ok_lo then pick lo
      else if ok_hi then pick hi
      else shortest f v num den n (k + 1)
  end.

(** The text of a positive finite number with digits [s] (of which there
    are [k]) and decimal exponent [n]. *)
Definition format_digits (s n k : Z) : string :=
  let ds := Z_digits s in
  if (k <=? n) && (n <=? 21) then ds +:+ zeros (Z.to_nat (n - k))
  else if (0 <? n) && (n <=? 21)
       then str_take (Z.to_nat n) ds +:+ "." +:+ str_drop (Z.to_nat n) ds
  else if (-6 <? n) && (n <=? 0) then "0." +:+ zeros (Z.to_nat (- n)) +:+ ds
  else let ex := (if 0 <=? n - 1 then "+" else "-") +:+ Z_digits (Z.abs (n - 1)) in
       if k =? 1 then ds +:+ "e" +:+ ex
       else str_take 1 ds +:+ "." +:+ str_drop 1 ds +:+ "e" +:+ ex.

(** [String(n)]: Number::toString in radix 10. *)
Definition NumberToString_ref (v : number) : string :=
  match v with
  | S754_nan => "NaN"
  | S754_zero _ => "0"
  | S754_infinity neg => if neg then "-Infinity" else "Infinity"
  | S754_finite neg m e =>
      let '(num, den) := fraction m e in
      let b := Z.log2 num - Z.log2 den - 1 in
      let n := magnitude 8 num den (b * 30103 / 100000 - 2) in
      let '(s, n', k) := shortest 17 (S754_finite false m e) num den n 1 in
      (if neg then "-" else "") +:+ format_digits s n' k
  end.

(** ** JSON text from values *)

Definition hex_char (n : Z) : ascii :=
  if n <? 10 then chr (48 + n) else chr (87 + n).

(** QuoteJSONString, on the bytes of the string. *)
Fixpoint quote_body (s : string) : string :=
  match s with
  | EmptyString => ""
  | String c rest =>
      let n := code c in
      let esc (x : string) := String "\" x in
      (if n =? 34 then esc (String c "")
       else if n =? 92 then esc "\"
       else if n =? 8 then esc "b"
       else if n =? 12 then esc "f"
       else if n =? 10 then esc "n"
       else if n =? 13 then esc "r"
       else if n =? 9 then esc "t"
       else if n <? 32
            then esc ("u00" +:+ String (hex_char (n / 16)) (String (hex_char (n mod 16)) ""))
       else String c "") +:+ quote_body rest
  end.

Definition quote (s : string) : string :=
  Server.dq +:+ quote_body s +:+ Server.dq.

(** An array index as a property key: the canonical decimal text of an
    integer below [2^32 - 1].  Such keys are enumerated first, in
    ascending order. *)
Definition index_key (k : string) : option Z :=
  let '(v, n, rest) := scan_digits 10 digit k 0 0 in
  if (0 <? n) && String.eqb rest "" && String.eqb (Z_digits v) k && (v <? 4294967295)
  then Some v else None.

Fixpoint insert_index {A} (i : Z) (x : A) (l : list (Z * A)) : list (Z * A) :=
  match l with
  | [] => [(i, x)]
  | (j, y) :: rest => if i <? j then (i, x) :: l else (j, y) :: insert_index i x rest
  end.

(** The own properties in the order of enumeration. *)
Definition ordered_props {A} (props : list (string * A)) : list (string * A) :=
  let idx := List.fold_left
               (fun acc kv => match index_key (fst kv) with
                              | Some i => insert_index i kv acc
                              | None => acc
                              end) props [] in
  List.map snd idx
    ++ List.filter (fun kv => match index_key (fst kv) with
                              | Some _ => false
                              | None => true
                              end) props.

(** SerializeJSONProperty: [None] where the value has no JSON text. *)
Fixpoint serialize (v : value) : option string :=
  match v with
  | VUndefined => None
  | VNull => Some "null"
  | VBool true => Some "true"
  | VBool false => Some "false"
  | VNum n => Some (if isFinite n then NumberToString_ref n else "null")
  | VStr s => Some (quote s)
  | VArr xs =>
      Some ("[" +:+ join "," (List.map (fun x => default "null" (serialize x)) xs) +:+ "]")
  | VObj props =>
      let texts :=
        List.map (fun kv => match serialize (snd kv) with
                            | Some t => Some (quote (fst kv) +:+ ":" +:+ t)
                            | None => None
                            end) props in
      Some ("{" +:+ join "," (omap id (List.map snd
                 (ordered_props (combine (List.map fst props) texts)))) +:+ "}")
  end.

(** [JSON.stringify(v)]; a value without a JSON text is not passed by the
    handlers. *)
Definition JSON_stringify_ref (v : value) : string := default "" (serialize v).

(** ** Values from JSON text *)

Definition is_json_ws (c : ascii) : bool :=
  let n := code c in
  (n =? 32) || (n =? 9) || (n =? 10) || (n =? 13).

Fixpoint skip_ws (s : string) : string :=
  match s with
  | String c rest => if is_json_ws c then skip_ws rest else s
  | EmptyString => s
  end.

(** The UTF-8 bytes of a code point (a surrogate that stands alone is
    written in the same three-byte form). *)
Definition utf8 (cp : Z) : string :=
  let bytes := List.fold_right (fun b acc => String (chr b) acc) "" in
  if cp <? 128 then bytes [cp]
  else if cp <? 2048 then bytes [192 + cp / 64; 128 + cp mod 64]
  else if cp <? 65536
       then bytes [224 + cp / 4096; 128 + (cp / 64) mod 64; 128 + cp mod 64]
  else bytes [240 + cp / 262144; 128 + (cp / 4096) mod 64;
              128 + (cp / 64) mod 64; 128 + cp mod 64].

Definition hex4 (a b c d : ascii) : option Z :=
  match hex_digit a, hex_digit b, hex_digit c, hex_digit d with
  | Some x, Some y, Some z, Some w => Some (((x * 16 + y) * 16 + z) * 16 + w)
  | _, _, _, _ => None
  end.

Definition emit_pending (pend : option Z) : string :=
  match pend with
  | Some hi => utf8 hi
  | None => ""
  end.

Definition prepend (p : string) (r : option (string * string)) : option (string * string) :=
  match r with
  | Some (t, rest) => Some (p +:+ t, rest)
  | None => None
  end.

(** The characters of a string literal after its opening quote, and what
    follows the closing quote.  [pend] is a high surrogate read from a
    [\u] escape and not yet paired. *)
Fixpoint scan_string (pend : option Z) (s : string) : option (string * string) :=
  match s with
  | EmptyString => None
  | String c rest =>
      let n := code c in
      if n =? 34 then Some (emit_pending pend, rest)
      else if n <? 32 then None
      else if n =? 92 then
        match rest with
        | String "u" (String a (String b (String x (String y rest')))) =>
            match hex4 a b x y with
            | None => None
            | Some u =>
                let is_hi := (55296 <=? u) && (u <=? 56319) in
                let is_lo := (56320 <=? u) && (u <=? 57343) in
                match pend with
                | Some hi =>
                    if is_lo
                    then prepend (utf8 (65536 + (hi - 55296) * 1024 + (u - 56320)))
                                 (scan_string None rest')
                    else if is_hi then prepend (utf8 hi) (scan_string (Some u) rest')
                    else prepend (utf8 hi +:+ utf8 u) (scan_string None rest')
                | None =>
                    if is_hi then scan_string (Some u) rest'
                    else prepend (utf8 u) (scan_string None rest')
                end
            end
        | String e rest' =>
            let m := code e in
            let plain (b : Z) :=
              prepend (emit_pending pend +:+ String (chr b) "") (scan_string None rest') in
            if (m =? 34) || (m =? 92) || (m =? 47) then plain m
            else if m =? 98 then plain 8
            else if m =? 102 then plain 12
            else if m =? 110 then plain 10
            else if m =? 114 then plain 13
            else if m =? 116 then plain 9
            else None
        | EmptyString => None
        end
      else prepend (emit_pending pend +:+ String c "") (scan_string None rest)
  end.

(** A JSON number at the head of [s]. *)
Definition scan_json_number (s : string) : option (number * string) :=
  let '(neg, s1) := match s with
                    | String "-" rest => (true, rest)
                    | _ => (false, s)
                    end in
  let '(i, ni, s2) := scan_digits 10 digit s1 0 0 in
  let leading_zero := match s1 with
                      | String "0" _ => 1 <? ni
                      | _ => false
                      end in
  if (ni =? 0) || leading_zero then None
  else
    let frac := match s2 with
                | String "." rest =>
                    let '(m, nf, s3) := scan_digits 10 digit rest i 0 in
                    if nf =? 0 then None else Some (m, nf, s3)
                | _ => Some (i, 0, s2)
                end in
    match frac with
    | None => None
    | Some (m, nf, s3) =>
        let has_e := match s3 with
                     | String c _ => Ascii.eqb c "e" || Ascii.eqb c "E"
                     | EmptyString => false
                     end in
        if has_e
        then match scan_exponent s3 with
             | Some (ex, s4) => Some (signed neg (decimal m (ex - nf)), s4)
             | None => None
             end
        else Some (signed neg (decimal m (- nf)), s3)
    end.

(** [o[k] = v] while an object literal is read: a repeated key keeps its
    place and takes the later value. *)
Fixpoint set_prop (k : string) (v : value) (props : list (string * value))
  : list (string * value) :=
  match props with
  | [] => [(k, v)]
  | (k', v') :: rest =>
      if String.eqb k k' then (k, v) :: rest else (k', v') :: set_prop k v rest
  end.

Definition literal (word : string) (v : value) (s : string) : option (value * string) :=
  match starts_with word s with
  | Some rest => Some (v, rest)
  | None => None
  end.

(** A JSON value at the head of [s], the elements of an array after its
    bracket, the members of an object after its brace. *)
Fixpoint pvalue (fuel : nat) (s : string) : option (value * string) :=
  match fuel with
  | O => None
  | S f =>
      match skip_ws s with
      | EmptyString => None
      | String c rest as s' =>
          let n := code c in
          if n =? 123 then
            match skip_ws rest with
            | String "}" r => Some (VObj [], r)
            | _ => pmembers f [] rest
            end
          else if n =? 91 then
            match skip_ws rest with
            | String "]" r => Some (VArr [], r)
            | _ => pelems f [] rest
            end
          else if n =? 34 then
            match scan_string None rest with
            | Some (t, r) => Some (VStr t, r)
            | None => None
            end
          else if n =? 116 then literal "true" (VBool true) s'
          else if n =? 102 then literal "false" (VBool false) s'
          else if n =? 110 then literal "null" VNull s'
          else match scan_json_number s' with
               | Some (x, r) => Some (VNum x, r)
               | None => None
               end
      end
  end
with pelems (fuel : nat) (acc : list value) (s : string) : option (value * string) :=
  match fuel with
  | O => None
  | S f =>
      match pvalue f s with
      | Some (v, r) =>
          match skip_ws r with
          | String "," r' => pelems f (v :: acc) r'
          | String "]" r' => Some (VArr (rev (v :: acc)), r')
          | _ => None
          end
      | None => None
      end
  end
with pmembers (fuel : nat) (acc : list (string * value)) (s : string)
  : option (value * string) :=
  match fuel with
  | O => None
  | S f =>
      match skip_ws s with
      | String c r =>
          if code c =? 34 then
            match scan_string None r with
            | Some (k, r1) =>
                match skip_ws r1 with
                | String ":" r2 =>
                    match pvalue f r2 with
                    | Some (v, r3) =>
                        match skip_ws r3 with
                        | String "," r4 => pmembers f (set_prop k v acc) r4
                        | String "}" r4 => Some (VObj (set_prop k v acc), r4)
                        | _ => None
                        end
                    | None => None
                    end
                | _ => None
                end
            | None => None
            end
          else None
      | EmptyString => None
      end
  end.

(** [JSON.parse(text)]: one value, white space around it, nothing else.
    The message of the SyntaxError is the engine's; a fixed one stands
    for it. *)
Definition JSON_parse_ref (text : string) : exn + value :=
  match pvalue (2 * String.length text + 2) text with
  | Some (v, rest) =>
      if String.eqb (skip_ws rest) "" then inr v
      else inl (Exn "SyntaxError" "Unexpected non-whitespace character after JSON")
  | None => inl (Exn "SyntaxError" "Unexpected token in JSON")
  end.

(** ** Dates from text *)

(** Days from 1970-01-01 to the given day of the proleptic Gregorian
    calendar. *)
Definition days_from_civil (y m d : Z) : Z :=
  let y' := if m <=? 2 then y - 1 else y in
  let era := y' / 400 in
  let yoe := y' - era * 400 in
  let mp := (m + 9) mod 12 in
  let doy := (153 * mp + 2) / 5 + d - 1 in
  let doe := yoe * 365 + yoe / 4 - yoe / 100 + doy in
  era * 146097 + doe - 719468.

Definition is_leap (y : Z) : bool :=
  ((y mod 4 =? 0) && negb (y mod 100 =? 0)) || (y mod 400 =? 0).

Definition days_in_month (y m : Z) : Z :=
  if m =? 2 then (if is_leap y then 29 else 28)
  else if (m =? 4) || (m =? 6) || (m =? 9) || (m =? 11) then 30
  else 31.

(** Exactly [n] digits at the head of [s]. *)
Fixpoint fixed_digits (n : nat) (acc : Z) (s : string) : option (Z * string) :=
  match n with
  | O => Some (acc, s)
  | S k =>
      match s with
      | String c rest =>
          match digit c with
          | Some d => fixed_digits k (acc * 10 + d) rest
          | None => None
          end
      | EmptyString => None
      end
  end.

(** [-MM] and [-DD] after the year, each optional: month, day, rest. *)
Definition scan_month_day (s : string) : option (Z * Z * string) :=
  match s with
  | String "-" r1 =>
      match fixed_digits 2 0 r1 with
      | Some (mo, String "-" r2) =>
          match fixed_digits 2 0 r2 with
          | Some (d, r3) => Some (mo, d, r3)
          | None => None
          end
      | Some (mo, r2) => Some (mo, 1, r2)
      | None => None
      end
  | _ => Some (1, 1, s)
  end.

(** The fraction of a second, to the millisecond. *)
Definition scan_millis (s : string) : option (Z * string) :=
  match s with
  | String "." r =>
      let '(v, n, rest) := scan_digits 10 digit r 0 0 in
      if n =? 0 then None
      else Some (if n <=? 3 then v * 10 ^ (3 - n) else v / 10 ^ (n - 3), rest)
  | _ => Some (0, s)
  end.

(** [THH:mm], [THH:mm:ss] or [THH:mm:ss.sss]: milliseconds into the day. *)
Definition scan_time (s : string) : option (Z * string) :=
  match fixed_digits 2 0 s with
  | Some (h, String ":" r1) =>
      match fixed_digits 2 0 r1 with
      | Some (mi, r2) =>
          let secs := match r2 with
                      | String ":" r3 =>
                          match fixed_digits 2 0 r3 with
                          | Some (sec, r4) =>
                              match scan_millis r4 with
                              | Some (ms, r5) => Some (sec, ms, r5)
                              | None => None
                              end
                          | None => None
                          end
                      | _ => Some (0, 0, r2)
                      end in
          match secs with
          | Some (sec, ms, r) =>
              let day_end := (h =? 24) && (mi =? 0) && (sec =? 0) && (ms =? 0) in
              if ((h <=? 23) || day_end) && (mi <=? 59) && (sec <=? 59)
              then Some (((h * 60 + mi) * 60 + sec) * 1000 + ms, r)
              else None
          | None => None
          end
      | None => None
      end
  | _ => None
  end.

(** [Z] or [+HH:mm] / [-HH:mm] at the end of the text: the offset from
    UTC in milliseconds.  Without one the time is local time; the host is
    taken to be on UTC. *)
Definition scan_zone (s : string) : option Z :=
  match s with
  | EmptyString => Some 0
  | String "Z" EmptyString => Some 0
  | String c r =>
      if Ascii.eqb c "+" || Ascii.eqb c "-"
      then match fixed_digits 2 0 r with
           | Some (h, String ":" r1) =>
               match fixed_digits 2 0 r1 with
               | Some (mi, EmptyString) =>
                   if (h <=? 23) && (mi <=? 59)
                   then Some ((if Ascii.eqb c "-" then -1 else 1) * (h * 60 + mi) * 60000)
                   else None
               | _ => None
               end
           | _ => None
           end
      else None
  end.

(** [Date.parse(s)] on the date-time string format of the language,
    [YYYY-MM-DDTHH:mm:ss.sssZ] and its shorter forms.  Text outside the
    format is reported invalid; what an engine makes of such text is its
    own choice. *)
Definition Date_parse_ref (s : string) : option Z :=
  match fixed_digits 4 0 s with
  | Some (y, r0) =>
      match scan_month_day r0 with
      | Some (mo, d, r1) =>
          if (1 <=? mo) && (mo <=? 12) && (1 <=? d) && (d <=? days_in_month y mo)
          then let day := days_from_civil y mo d * 86400000 in
               match r1 with
               | EmptyString => Some day
               | String "T" r2 =>
                   match scan_time r2 with
                   | Some (t, r3) =>
                       match scan_zone r3 with
                       | Some off => Some (day + t - off)
                       | None => None
                       end
                   | None => None
                   end
               | _ => None
               end
          else None
      | None => None
      end
  | None => None
  end.

#[global] Instance runtime : Runtime := {
  JSON_parse := JSON_parse_ref;
  JSON_stringify := JSON_stringify_ref;
  StringToNumber := StringToNumber_ref;
  NumberToString := NumberToString_ref;
  parseFloat := parseFloat_ref;
  Date_parse := Date_parse_ref
}.

(** ** A store in memory *)

(** A write API that buffers lines and moves them to [written] on flush,
    in front of a server that is reachable or not, and a query API that
    answers from a table of results by Flux text. *)
Record MemStore : Type := mkMemStore {
  closed : bool;
  reachable : bool;
  buffer : list Line;
  written : list Line;
  results : list (string * list Row)
}.

Fixpoint lookup_result (flux : string) (t : list (string * list Row)) : list Row :=
  match t with
  | [] => []
  | (q, rows) :: rest => if String.eqb q flux then rows else lookup_result flux rest
  end.

#[global] Instance mem_client : Client MemStore := {
  writeLine st l :=
    if closed st then inl (Error "writeApi: already closed!")
    else inr (mkMemStore (closed st) (reachable st) (buffer st ++ [l])
                         (written st) (results st));
  flush st :=
    if reachable st
    then inr (mkMemStore (closed st) (reachable st) [] (written st ++ buffer st)
                         (results st))
    else inl (Exn "RequestTimedOutError" "Request timed out");
  collectRows st flux :=
    if reachable st then inr (lookup_result flux (results st))
    else inl (Exn "RequestTimedOutError" "Request timed out")
}.

Definition empty_store : MemStore := mkMemStore false true [] [] [].

End Ref.


(* ===================================================================== *)
(** * What is observed of a run                                           *)
(* ===================================================================== *)

Module Obs.
Import JS Influx Eff Server.

(** The envelope that the message handler broadcasts for a record. *)
Definition envelope (record : value) : value :=
  VObj [("type", VStr "telemetry"); ("data", record)].

(** A viewer that takes [frame]: its socket is open and [send] does not
    throw on it. *)
Definition deliverable (frame : string) (ws : Viewer) : bool :=
  (readyState ws =? 1) && bool_decide (send_result ws frame = None).

(** The sends of [frame] to the viewers of [cs] that take it, in the order
    of [cs]. *)
Definition deliveries (frame : string) (cs : list Viewer) : list Event :=
  List.map (fun ws => EvSend (vid ws) frame) (List.filter (deliverable frame) cs).

(** The frames sent to viewers in a trace, with the viewer of each. *)
Definition sends (tr : list Event) : list (nat * string) :=
  omap (fun ev => match ev with
                  | EvSend v f => Some (v, f)
                  | _ => None
                  end) tr.

(** The lines written to the store in a trace. *)
Definition writes (tr : list Event) : list Line :=
  omap (fun ev => match ev with
                  | EvWrite l => Some l
                  | _ => None
                  end) tr.

(** The responses given in a trace. *)
Definition responses (tr : list Event) : list (Z * Body) :=
  omap (fun ev => match ev with
                  | EvRespond st b => Some (st, b)
                  | _ => None
                  end) tr.

(** The float written for channel [k] of a point. *)
Definition float_field (p : Point) (k : string) : option number :=
  match p_fields p !! k with
  | Some (FloatField n) => Some n
  | _ => None
  end.

(** The line that [writePoint] makes of [p] at second precision. *)
Definition line_s (now : Z) (p : Point) : Line :=
  mkLine p (convertTime PrecS now (p_time p)).

(** The JSON bodies of the write route. *)
Definition ok_body : Body := BJson (VObj [("ok", VBool true)]).
Definition error_body (e : exn) : Body :=
  BJson (VObj [("error", VStr (exn_to_string e))]).

End Obs.

(** ** Concrete inputs *)

Module Examples.
Import JS Influx Eff Server Ref Obs.

Definition cfg_on : Config := mkConfig "m365" "true".
Definition cfg_off : Config := mkConfig "m365" "false".

(** Four viewers: open, closed, open with a failing [send], open. *)
Definition viewers : list Viewer :=
  [ mkViewer 1 1 (fun _ => None);
    mkViewer 2 3 (fun _ => None);
    mkViewer 3 1 (fun _ => Some (Error "socket hang up"));
    mkViewer 4 1 (fun _ => None) ].

(** A process at 2023-11-14T22:13:20.999Z. *)
Definition world0 : World MemStore := mkWorld viewers empty_store 1700000000999 [].

Definition not_json : string := "not json".

Definition q (s : string) : string := dq +:+ s +:+ dq.

(** [{"device_id":"m365-01","u_batt_v":39.5,"speed_kmh":12}] *)
Definition payload : string :=
  "{" +:+ q "device_id" +:+ ":" +:+ q "m365-01" +:+ ","
      +:+ q "u_batt_v" +:+ ":39.5," +:+ q "speed_kmh" +:+ ":12}".

Definition record : value :=
  VObj [("device_id", VStr "m365-01");
        ("u_batt_v", VNum (decimal 395 (-1)));
        ("speed_kmh", VNum (decimal 12 0))].

(** [{"ts":"garbage"}] *)
Definition bad_ts : value := VObj [("ts", VStr "garbage")].

(** The same as the text of a bus message. *)
Definition bad_ts_payload : string := "{" +:+ q "ts" +:+ ":" +:+ q "garbage" +:+ "}".

(** [{"ts":"2025-09-26T10:00:00.500Z"}] *)
Definition good_ts : value := VObj [("ts", VStr "2025-09-26T10:00:00.500Z")].

(** The same as the text of a bus message. *)
Definition good_ts_payload : string :=
  "{" +:+ q "ts" +:+ ":" +:+ q "2025-09-26T10:00:00.500Z" +:+ "}".

(** [{"toString":1}]: an object whose own property hides the method the
    conversions call. *)
Definition shadowed : value := VObj [("toString", VNum (decimal 1 0))].

(** [{"device_id":{"toString":1}}] and [{"ts":{"toString":1}}] *)
Definition shadowed_id : value := VObj [("device_id", shadowed)].
Definition shadowed_ts : value := VObj [("ts", shadowed)].

(** The second as the text of a bus message. *)
Definition shadowed_ts_payload : string :=
  "{" +:+ q "ts" +:+ ":{" +:+ q "toString" +:+ ":1}}".

(** The point that the current server builds from [record]. *)
Definition record_point : Point :=
  mkPoint "scooter" {[ "device_id" := VStr "m365-01" ]}
    (list_to_map
       [("u_batt_v", FloatField (decimal 395 (-1)));
        ("i_batt_a", FloatField pos_zero);
        ("t_batt_c", FloatField pos_zero);
        ("t_ctrl_c", FloatField pos_zero);
        ("speed_kmh", FloatField (decimal 12 0));
        ("ax_ms2", FloatField pos_zero);
        ("ay_ms2", FloatField pos_zero);
        ("az_ms2", FloatField pos_zero);
        ("fw_src", StringField "unknown")])
    None.

(** The float fields of a point built from a record without channels. *)
Definition zero_fields : gmap string field_value :=
  list_to_map
    [("u_batt_v", FloatField pos_zero); ("i_batt_a", FloatField pos_zero);
     ("t_batt_c", FloatField pos_zero); ("t_ctrl_c", FloatField pos_zero);
     ("speed_kmh", FloatField pos_zero); ("ax_ms2", FloatField pos_zero);
     ("ay_ms2", FloatField pos_zero); ("az_ms2", FloatField pos_zero);
     ("fw_src", StringField "unknown")].

(** The points that the current server builds from [good_ts] and from
    [bad_ts]: 2025-09-26T10:00:00.500Z is 1758880800500 ms. *)
Definition good_ts_point : Point :=
  mkPoint "scooter" {[ "device_id" := VStr "unknown" ]} zero_fields
    (Some (Some 1758880800500)).

Definition bad_ts_point : Point :=
  mkPoint "scooter" {[ "device_id" := VStr "unknown" ]} zero_fields (Some None).

(** The point of a manual write with the empty body [{}]. *)
Definition manual_default_point : Point :=
  mkPoint "scooter" {[ "device_id" := VStr "test" ]}
    (list_to_map
       [("u_batt_v", FloatField lit_40_1); ("i_batt_a", FloatField lit_1_1);
        ("t_batt_c", FloatField lit_25_0); ("t_ctrl_c", FloatField lit_27_0);
        ("speed_kmh", FloatField lit_18_0); ("ax_ms2", FloatField lit_0_1);
        ("ay_ms2", FloatField lit_0_0); ("az_ms2", FloatField lit_9_8);
        ("fw_src", StringField "api")])
    None.

(** The query text of [/api/latest/m365-01] with the default range. *)
Definition latest_text : string :=
  match latest_flux (R := runtime) cfg_on (VStr "2h") "m365-01" with
  | inr flux => flux
  | inl _ => ""
  end.

(** A store that answers the latest query for [m365-01] with [rows]. *)
Definition store_with (rows : list Row) : MemStore :=
  mkMemStore false true [] [] [(latest_text, rows)].

Definition latest_req : Request := mkRequest "m365-01" [] VUndefined.

Definition world_with (rows : list Row) : World MemStore :=
  mkWorld viewers (store_with rows) 1700000000999 [].

(** The same process in front of a store that cannot be reached, and with
    a write API that was closed. *)
Definition world_unreachable : World MemStore :=
  mkWorld viewers (mkMemStore false false [] [] []) 1700000000999 [].

Definition world_closed : World MemStore :=
  mkWorld viewers (mkMemStore true true [] [] []) 1700000000999 [].

(** [{"type":"telemetry","data":{"device_id":"m365-01","u_batt_v":39.5,
    "speed_kmh":12}}] *)
Definition payload_frame : string :=
  "{" +:+ q "type" +:+ ":" +:+ q "telemetry" +:+ "," +:+ q "data" +:+ ":"
      +:+ payload +:+ "}".

Definition two_rows : list Row :=
  [ mkRow "u_batt_v" (VNum (decimal 395 (-1))) (VStr "2025-09-26T10:00:00Z");
    mkRow "speed_kmh" (VNum (decimal 12 0)) (VStr "2025-09-26T10:00:05Z") ].

(** One row of a field that is itself named [ts]. *)
Definition ts_row : list Row :=
  [ mkRow "ts" (VStr "from the device") (VStr "2025-09-26T10:00:00Z") ].

(** One row of a field named [__proto__]. *)
Definition proto_row : list Row :=
  [ mkRow "__proto__" (VNum (decimal 1 0)) (VStr "2025-09-26T10:00:00Z") ].

End Examples.

(* ===================================================================== *)
(** * The rest of the server                                              *)
(* ===================================================================== *)

(** The handlers beside the ingestion and query paths: the greeting of a
    new viewer and the health route; and the vocabulary in which the
    behaviour of all handlers is stated. *)
Module More.
Import JS Influx Eff Server Obs.
Local Open Scope eff_scope.

(** ** ISO text of a time value *)

(** The day of the proleptic Gregorian calendar that is [z] days after
    1970-01-01: year, month, day. *)
Definition civil_from_days (z : Z) : Z * Z * Z :=
  let z' := z + 719468 in
  let era := z' / 146097 in
  let doe := z' - era * 146097 in
  let yoe := (doe - doe / 1460 + doe / 36524 - doe / 146096) / 365 in
  let doy := doe - (365 * yoe + yoe / 4 - yoe / 100) in
  let mp := (5 * doy + 2) / 153 in
  let d := doy - (153 * mp + 2) / 5 + 1 in
  let m := if mp <? 10 then mp + 3 else mp - 9 in
  let y := yoe + era * 400 in
  (if m <=? 2 then y + 1 else y, m, d).

(** [n] in decimal, padded with zeros to [width] digits. *)
Definition padded (width : nat) (n : Z) : string :=
  let ds := Ref.Z_digits n in
  Ref.zeros (width - String.length ds) +:+ ds.

(** [new Date(ms).toISOString()] for a valid time value:
    [YYYY-MM-DDTHH:mm:ss.sssZ], the year with a sign and six digits when
    it is not within 0..9999. *)
Definition toISOString_ref (ms : Z) : string :=
  let day := ms / 86400000 in
  let t := ms mod 86400000 in
  let '(y, m, d) := civil_from_days day in
  let year := if (0 <=? y) && (y <=? 9999) then padded 4 y
              else (if y <? 0 then "-" else "+") +:+ padded 6 (Z.abs y) in
  year +:+ "-" +:+ padded 2 m +:+ "-" +:+ padded 2 d
       +:+ "T" +:+ padded 2 (t / 3600000)
       +:+ ":" +:+ padded 2 (t / 60000 mod 60)
       +:+ ":" +:+ padded 2 (t / 1000 mod 60)
       +:+ "." +:+ padded 3 (t mod 1000) +:+ "Z".

Section Handlers.
Context {R : Runtime} {S : Type}.

(** [Date.prototype.toISOString], of the engine. *)
Variable toISOString : Z -> string.

(** [wss.on('connection', (ws) => { safeSend(ws, { type: 'hello',
    ts: new Date().toISOString() }); })] *)
Definition on_connection (ws : Viewer) : M S unit :=
  fun w =>
    safeSend ws (VObj [("type", VStr "hello");
                       ("ts", VStr (toISOString (now w)))]) w.

(** [app.get('/health', (_req, res) => { res.json({ ok: true,
    mqtt: mqttClient.connected, wsClients: wss.clients.size }); })];
    [connected] is the state of the bus client. *)
Definition health (connected : bool) : M S unit :=
  fun w =>
    res_json 200
      (BJson (VObj [("ok", VBool true);
                    ("mqtt", VBool connected);
                    ("wsClients", VNum (of_Z (Z.of_nat (length (clients w)))))])) w.

End Handlers.

(** ** Vocabulary *)

(** The effects an ingestion handler can have: a send to a viewer, a line
    written, a line on the console. *)
Definition ingest_event (ev : Event) : bool :=
  match ev with
  | EvSend _ _ | EvWrite _ | EvLog _ _ => true
  | _ => false
  end.

(** The property names that the message handler of the current server
    reads from a record. *)
Definition read_names : list string :=
  "device_id" :: channels ++ ["fw_src"; "ts"].

(** The point of a record that has none of these names. *)
Definition blank_point : Point :=
  mkPoint "scooter" {[ "device_id" := VStr "unknown" ]}
    (<["fw_src" := StringField "unknown"]>
     (<["az_ms2" := FloatField pos_zero]>
     (<["ay_ms2" := FloatField pos_zero]>
     (<["ax_ms2" := FloatField pos_zero]>
     (<["speed_kmh" := FloatField pos_zero]>
     (<["t_ctrl_c" := FloatField pos_zero]>
     (<["t_batt_c" := FloatField pos_zero]>
     (<["i_batt_a" := FloatField pos_zero]>
     (<["u_batt_v" := FloatField pos_zero]> ∅)))))))))
    None.

(** The float fields of a built point: the eight channels, in the order
    in which the chain of [floatField] calls sets them. *)
Definition channel_fields (u i tb tc sp ax ay az : number)
  : gmap string field_value :=
  <["az_ms2" := FloatField az]>
  (<["ay_ms2" := FloatField ay]>
  (<["ax_ms2" := FloatField ax]>
  (<["speed_kmh" := FloatField sp]>
  (<["t_ctrl_c" := FloatField tc]>
  (<["t_batt_c" := FloatField tb]>
  (<["i_batt_a" := FloatField i]>
  (<["u_batt_v" := FloatField u]> ∅))))))).

(** The channels of [POST /api/write] with the value each takes when the
    body does not give it. *)
Definition manual_defaults : list (string * number) :=
  [("u_batt_v", lit_40_1); ("i_batt_a", lit_1_1); ("t_batt_c", lit_25_0);
   ("t_ctrl_c", lit_27_0); ("speed_kmh", lit_18_0); ("ax_ms2", lit_0_1);
   ("ay_ms2", lit_0_0); ("az_ms2", lit_9_8)].

(** What [floatField] makes of a value before it tests it: a number as it
    is, anything else through [parseFloat]. *)
Definition float_of {R : Runtime} (v : value) : exn + number :=
  match v with
  | VNum n => inr n
  | _ => s <- ToString v ;; ret (parseFloat s)
  end.

(** Does the character occur in the string? *)
Fixpoint mem_char (c : ascii) (s : string) : bool :=
  match s with
  | EmptyString => false
  | String a rest => Ascii.eqb a c || mem_char c rest
  end.

(** A name as [/api/series] requests it: not empty, no white space at
    either end, no comma. *)
Definition clean_name (f : string) : Prop :=
  f <> "" /\ trim f = f /\ mem_char "," f = false.

(** The same letter, in either case. *)
Definition same_letter (c l : ascii) : Prop :=
  c = l \/ (nat_of_ascii c + 32 = nat_of_ascii l)%nat.

(** ** Concrete inputs *)

(** [{"device_id":"m365-01","u_batt_v":39.5,"i_batt_a":1.5, ...}], a
    record with every channel. *)
Definition full_record : value :=
  VObj [("device_id", VStr "m365-01");
        ("u_batt_v", VNum (decimal 395 (-1)));
        ("i_batt_a", VNum (decimal 15 (-1)));
        ("t_batt_c", VNum (decimal 25 0));
        ("t_ctrl_c", VNum (decimal 27 0));
        ("speed_kmh", VNum (decimal 12 0));
        ("ax_ms2", VNum (decimal 1 (-1)));
        ("ay_ms2", VNum pos_zero);
        ("az_ms2", VNum (decimal 98 (-1)))].

(** The no-break space U+00A0 and the ideographic space U+3000, in
    UTF-8. *)
Definition nbsp : string :=
  String (ascii_of_nat 194) (String (ascii_of_nat 160) "").
Definition ideographic_space : string :=
  String (ascii_of_nat 227) (String (ascii_of_nat 128) (String (ascii_of_nat 128) "")).

(** The parameter [fields= ,] followed by a no-break space. *)
Definition blank_fields : string := " ," +:+ nbsp.

(** The parameter [fields= u_batt_v, ,speed_kmh] with a no-break space
    after the first comma and an ideographic space at the end. *)
Definition nbsp_fields : value :=
  VStr (" u_batt_v," +:+ nbsp +:+ ",speed_kmh" +:+ ideographic_space).

(** A viewer with an open socket, and one whose socket is closing. *)
Definition open_viewer : Viewer := mkViewer 7 1 (fun _ => None).
Definition closing_viewer : Viewer := mkViewer 8 2 (fun _ => None).

(** Two rows of the same field, then one of another. *)
Definition repeated_rows : list Row :=
  [ mkRow "u_batt_v" (VNum (decimal 395 (-1))) (VStr "2025-09-26T10:00:00Z");
    mkRow "u_batt_v" (VNum (decimal 401 (-1))) (VStr "2025-09-26T10:00:05Z");
    mkRow "speed_kmh" (VNum (decimal 12 0)) (VStr "2025-09-26T10:00:03Z") ].

End More.

(* ===================================================================== *)
(** * Properties                                                          *)
(* ===================================================================== *)

Import JS Influx Eff Server Obs More.
Local Open Scope list_scope.

(** Unfolds the primitives of a handler down to the function on worlds. *)
Ltac run_eff :=
  unfold try_catch, lift, writePoint, await_flush, await_collectRows,
         res_json, console_error, console_log, tell;
  cbn [bind ret Monad_M].

(** Facts on what a trace shows, used by [autorewrite]. *)
Create Rewrite HintDb obs.

Section Fanout.
Context {R : Runtime} {S : Type} {C : Client S}.

Lemma deliveries_app frame (l1 l2 : list Viewer) :
  deliveries frame (l1 ++ l2) = deliveries frame l1 ++ deliveries frame l2.
Proof.
  unfold deliveries. now rewrite List.filter_app, List.map_app.
Qed.

(** One turn of the loop: an open socket whose [send] succeeds gets the
    frame, any other is passed over, and the turn never throws. *)
Lemma broadcast_turn frame (ws : Viewer) (w : World S) :
  try_catch (if readyState ws =? 1 then ws_send ws frame else ret tt)
            (fun _ => ret tt) w
  = (inr tt, mkWorld (clients w) (store w) (now w)
                     (trace w ++ deliveries frame [ws])).
Proof.
  unfold try_catch, ws_send, deliveries, deliverable; simpl.
  destruct (readyState ws =? 1); simpl.
  - destruct (send_result ws frame) as [e|] eqn:E; simpl.
    + rewrite app_nil_r. now destruct w.
    + reflexivity.
  - rewrite app_nil_r. now destruct w.
Qed.

Lemma broadcast_loop_run frame (cs : list Viewer) :
  forall w : World S,
    broadcast_loop frame cs w
    = (inr tt, mkWorld (clients w) (store w) (now w)
                       (trace w ++ deliveries frame cs)).
Proof.
  induction cs as [|ws cs IH]; intros w.
  - simpl. unfold deliveries; simpl. rewrite app_nil_r. now destruct w.
  - cbn [broadcast_loop bind Monad_M].
    rewrite broadcast_turn. rewrite IH. simpl.
    change (ws :: cs) with ([ws] ++ cs).
    now rewrite deliveries_app, app_assoc.
Qed.

Lemma broadcast_run (obj : value) (w : World S) :
  broadcast obj w
  = (inr tt, mkWorld (clients w) (store w) (now w)
                     (trace w ++ deliveries (JSON_stringify obj) (clients w))).
Proof. unfold broadcast. apply broadcast_loop_run. Qed.

End Fanout.

(** C5. For every decoded record and every list of connected viewers,
    [broadcast] of the envelope [{type: "telemetry", data: record}] never
    throws and sends one and the same serialized frame to exactly the
    viewers that are in the ready state and whose [send] does not throw,
    in order; such a viewer always receives it, every frame sent went to
    such a viewer, and a viewer that is not ready or whose [send] throws
    changes nothing for the others. *)
Theorem broadcast_fanout {R : Runtime} {S : Type} (record : value) (w : World S) :
  let frame := JSON_stringify (envelope record) in
  broadcast (envelope record) w
  = (inr tt, mkWorld (clients w) (store w) (now w)
                     (trace w ++ deliveries frame (clients w)))
  /\ (forall ws, In ws (clients w) ->
        readyState ws = 1 -> send_result ws frame = None ->
        In (EvSend (vid ws) frame) (deliveries frame (clients w)))
  /\ (forall ev, In ev (deliveries frame (clients w)) ->
        exists ws, In ws (clients w) /\ readyState ws = 1
                   /\ send_result ws frame = None /\ ev = EvSend (vid ws) frame)
  /\ (forall l1 ws l2,
        (readyState ws <> 1 \/ send_result ws frame <> None) ->
        deliveries frame (l1 ++ ws :: l2) = deliveries frame (l1 ++ l2)).
Proof.
  intros frame. split; [apply broadcast_run|].
  split; [|split].
  - intros ws Hin Hready Hsend. unfold deliveries.
    apply List.in_map_iff. exists ws. split; [reflexivity|].
    apply List.filter_In. split; [exact Hin|].
    unfold deliverable. rewrite Hready, Z.eqb_refl. simpl.
    now apply bool_decide_eq_true.
  - intros ev Hev. unfold deliveries in Hev.
    apply List.in_map_iff in Hev as (ws & <- & Hin).
    apply List.filter_In in Hin as [Hin Hd].
    unfold deliverable in Hd. apply andb_true_iff in Hd as [Hr Hs].
    exists ws. repeat split; trivial.
    + now apply Z.eqb_eq.
    + now apply bool_decide_eq_true in Hs.
  - intros l1 ws l2 Hbad.
    rewrite !deliveries_app. f_equal.
    change (ws :: l2) with ([ws] ++ l2). rewrite deliveries_app.
    assert (deliverable frame ws = false) as Hd.
    { unfold deliverable. destruct Hbad as [Hr|Hs].
      - apply Z.eqb_neq in Hr. now rewrite Hr.
      - apply andb_false_iff. right. now apply bool_decide_eq_false. }
    unfold deliveries at 1. simpl. now rewrite Hd.
Qed.

Lemma sends_app (t1 t2 : list Event) : sends (t1 ++ t2) = sends t1 ++ sends t2.
Proof. unfold sends. apply omap_app. Qed.

Lemma writes_app (t1 t2 : list Event) : writes (t1 ++ t2) = writes t1 ++ writes t2.
Proof. unfold writes. apply omap_app. Qed.

Lemma responses_app (t1 t2 : list Event) :
  responses (t1 ++ t2) = responses t1 ++ responses t2.
Proof. unfold responses. apply omap_app. Qed.

Lemma sends_deliveries frame (cs : list Viewer) :
  sends (deliveries frame cs)
  = List.map (fun ws => (vid ws, frame)) (List.filter (deliverable frame) cs).
Proof.
  unfold deliveries. induction (List.filter (deliverable frame) cs) as [|ws l IH].
  - reflexivity.
  - simpl. unfold sends in *. simpl. now rewrite IH.
Qed.

Lemma writes_deliveries frame (cs : list Viewer) : writes (deliveries frame cs) = [].
Proof.
  unfold deliveries. induction (List.filter (deliverable frame) cs) as [|ws l IH].
  - reflexivity.
  - simpl. unfold writes in *. simpl. exact IH.
Qed.

#[local] Hint Rewrite sends_app writes_app responses_app sends_deliveries
  writes_deliveries @app_nil_r : obs.

Section Ingestion.
Context {R : Runtime} {S : Type} {C : Client S}.


(** The [try { ... } catch] of the write branch: it never throws, and it
    leaves either one written line, made of the point of [ingest_point],
    or one line on the error console. *)
Lemma write_branch_run (obj : value) (w : World S) :
  let body : M S unit :=
    try_catch (bind (lift (ingest_point obj)) (fun p => writePoint PrecS p))
      (fun e => console_error [VStr "[Influx write error]"; VStr (e_message e)]) in
  (exists p s',
      ingest_point obj = inr p
      /\ writeLine (store w) (line_s (now w) p) = inr s'
      /\ body w = (inr tt, emit (EvWrite (line_s (now w) p)) (set_store s' w)))
  \/ (exists e,
      (ingest_point obj = inl e
       \/ exists p, ingest_point obj = inr p
                    /\ writeLine (store w) (line_s (now w) p) = inl e)
      /\ body w = (inr tt, emit (EvLog Stderr [VStr "[Influx write error]";
                                             VStr (e_message e)]) w)).
Proof.
  intros body. unfold body. run_eff. simpl.
  destruct (ingest_point obj) as [e|p] eqn:Hp; simpl.
  - right. exists e. split; [now left | reflexivity].
  - unfold line_s.
    destruct (writeLine (store w) _) as [e|s'] eqn:Hw.
    + right. exists e. split; [right; now exists p | reflexivity].
    + left. exists p, s'. repeat split; trivial.
Qed.

(** A message that decodes: the handler is the broadcast of its envelope,
    followed by the write branch when the toggle reads [true]. *)
Lemma on_message_decoded (cfg : Config) (message : string) (record : value)
      (w : World S) :
  JSON_parse message = inr record ->
  on_message cfg message w
  = let w1 := mkWorld (clients w) (store w) (now w)
                (trace w ++ deliveries (JSON_stringify (envelope record)) (clients w)) in
    if String.eqb (toLowerCase (WRITE_TO_INFLUX cfg)) "true"
    then try_catch (bind (lift (ingest_point record)) (fun p => writePoint PrecS p))
           (fun e => console_error [VStr "[Influx write error]"; VStr (e_message e)]) w1
    else (inr tt, w1).
Proof.
  intros Hparse. unfold on_message. rewrite Hparse.
  cbn [bind Monad_M]. fold (envelope record). rewrite broadcast_run.
  cbv zeta. destruct (String.eqb _ "true"); reflexivity.
Qed.

End Ingestion.

(** C2. A bus message whose payload fails JSON parsing leaves the process
    as it was: the handler of the current server returns at once, with no
    broadcast, no point and no other effect; the handler of the older
    server sends nothing to a viewer and writes nothing to the store (it
    prints the parser's message on the error console). *)
Theorem parse_failure_drops {R : Runtime} {S : Type} {C : Client S}
        (cfg : Config) (message : string) (e : exn) (w : World S) :
  JSON_parse message = inl e ->
  on_message cfg message w = (inr tt, w)
  /\ (let w' := snd (on_message_legacy message w) in
      sends (trace w') = sends (trace w)
      /\ writes (trace w') = writes (trace w)
      /\ store w' = store w
      /\ clients w' = clients w
      /\ trace w' = trace w ++ [EvLog Stderr [VStr "[MQTT ERROR]"; VStr (e_message e)]]).
Proof.
  intros Hparse. split.
  - unfold on_message. now rewrite Hparse.
  - unfold on_message_legacy. run_eff. rewrite Hparse.
    cbn [snd emit trace store clients].
    autorewrite with obs. cbn. autorewrite with obs. auto.
Qed.

(** C9. For a message that decodes to a record, the frames sent to the
    viewers are those of the broadcast of its envelope whatever the value
    of [WRITE_TO_INFLUX]; with the toggle off the handler is that broadcast
    and nothing more, so no line is written and the store is untouched. *)
Theorem fanout_independent_of_toggle {R : Runtime} {S : Type} {C : Client S}
        (message : string) (record : value) (w : World S) :
  JSON_parse message = inr record ->
  let frame := JSON_stringify (envelope record) in
  (forall cfg,
      fst (on_message cfg message w) = inr tt
      /\ clients (snd (on_message cfg message w)) = clients w
      /\ sends (trace (snd (on_message cfg message w)))
         = sends (trace w)
           ++ List.map (fun ws => (vid ws, frame))
                       (List.filter (deliverable frame) (clients w)))
  /\ (forall cfg1 cfg2,
      sends (trace (snd (on_message cfg1 message w)))
      = sends (trace (snd (on_message cfg2 message w))))
  /\ (forall cfg,
      String.eqb (toLowerCase (WRITE_TO_INFLUX cfg)) "true" = false ->
      on_message cfg message w = broadcast (envelope record) w
      /\ writes (trace (snd (on_message cfg message w))) = writes (trace w)
      /\ store (snd (on_message cfg message w)) = store w).
Proof.
  intros Hparse frame.
  assert (forall cfg,
      fst (on_message cfg message w) = inr tt
      /\ clients (snd (on_message cfg message w)) = clients w
      /\ sends (trace (snd (on_message cfg message w)))
         = sends (trace w)
           ++ List.map (fun ws => (vid ws, frame))
                       (List.filter (deliverable frame) (clients w))) as Hall.
  { intros cfg. rewrite (on_message_decoded cfg message record w Hparse). cbv zeta.
    fold frame. set (w1 := mkWorld _ _ _ _).
    assert (sends (trace w1)
            = sends (trace w)
              ++ List.map (fun ws => (vid ws, frame))
                          (List.filter (deliverable frame) (clients w))) as Hw1.
    { unfold w1. cbn [trace]. now autorewrite with obs. }
    destruct (String.eqb _ "true").
    - destruct (write_branch_run record w1) as [(p & s' & _ & _ & ->)|(e & _ & ->)];
        cbn [fst snd emit set_store clients trace store now];
        rewrite sends_app; cbn; rewrite app_nil_r; auto.
    - cbn [fst snd]. auto. }
  split; [exact Hall|]. split.
  - intros cfg1 cfg2.
    destruct (Hall cfg1) as (_ & _ & ->). destruct (Hall cfg2) as (_ & _ & ->).
    reflexivity.
  - intros cfg Hoff.
    rewrite (on_message_decoded cfg message record w Hparse). cbv zeta.
    rewrite Hoff, broadcast_run. fold frame. cbn [snd trace store].
    autorewrite with obs. auto.
Qed.

Section PointBuilder.
Context {R : Runtime}.

(** ** The conversions *)

Lemma ToString_inr (v : value) (s : string) :
  ToString v = inr s -> converts v = true /\ s = string_of v.
Proof.
  unfold ToString. destruct (converts v); [intros [= <-]; auto | discriminate].
Qed.

Lemma ToString_inl (v : value) (e : exn) :
  ToString v = inl e -> converts v = false /\ e = not_primitive.
Proof.
  unfold ToString. destruct (converts v); [discriminate | intros [= <-]; auto].
Qed.

Lemma ToString_converts (v : value) :
  converts v = true -> ToString v = inr (string_of v).
Proof. intros H. unfold ToString. now rewrite H. Qed.

Lemma ToNumber_inr (v : value) (n : number) :
  ToNumber v = inr n -> converts v = true /\ n = number_of v.
Proof.
  unfold ToNumber. destruct (converts v); [intros [= <-]; auto | discriminate].
Qed.


Lemma new_Date_inr (v : value) (t : Date) :
  new_Date v = inr t -> converts v = true /\ t = date_of v.
Proof.
  unfold new_Date. destruct (converts v); [intros [= <-]; auto | discriminate].
Qed.


Lemma new_Date_converts (v : value) :
  converts v = true -> new_Date v = inr (date_of v).
Proof. intros H. unfold new_Date. now rewrite H. Qed.

(** A string, a number, a boolean, [null] and [undefined] always convert;
    so does the sentinel put in place of an absent value. *)
Lemma converts_nullish (v d : value) :
  converts v = true -> converts d = true -> converts (nullish v d) = true.
Proof. intros Hv Hd. destruct v; assumption. Qed.

(** ** [toNum] *)

Lemma toNum_finite (v : value) (n : number) :
  toNum v = inr n -> isFinite n = true.
Proof.
  unfold toNum. destruct (ToNumber v) as [e|m]; cbn [bind ret Monad_result];
    [discriminate|].
  intros [= <-]. destruct (isFinite m) eqn:E; [exact E | reflexivity].
Qed.

Lemma toNum_not_finite (v : value) (m : number) :
  ToNumber v = inr m -> isFinite m = false -> toNum v = inr pos_zero.
Proof. intros Hm E. unfold toNum. rewrite Hm. cbn [bind ret Monad_result]. now rewrite E. Qed.

Lemma toNum_undefined : toNum VUndefined = inr pos_zero.
Proof. reflexivity. Qed.


Lemma toNum_converts (v : value) :
  converts v = true -> exists n, toNum v = inr n.
Proof.
  intros H. unfold toNum, ToNumber. rewrite H. cbn [bind ret Monad_result]. eauto.
Qed.

(** A finite number passes through [toNum] unchanged. *)
Lemma toNum_finite_number (n : number) :
  isFinite n = true -> toNum (VNum n) = inr n.
Proof.
  intros H. unfold toNum, ToNumber. cbn [converts number_of bind ret Monad_result].
  now rewrite H.
Qed.

(** [floatField] never refuses a finite number. *)
Lemma floatField_finite (k : string) (n : number) (p : Point) :
  isFinite n = true ->
  floatField k (VNum n) p
  = inr (mkPoint (p_name p) (p_tags p)
                 (<[k := FloatField n]> (p_fields p)) (p_time p)).
Proof. intros H. unfold floatField. now rewrite H. Qed.

(** A read that does not throw on one name throws on none. *)
Lemma get_total (o : value) (k : string) (v : value) :
  get o k = inr v -> forall k', exists v', get o k' = inr v'.
Proof. destruct o; simpl; intros H k'; try discriminate; eauto. Qed.

Lemma get_or_else_object (body : value) (k : string) :
  exists v, get (or_else body (VObj [])) k = inr v.
Proof.
  unfold or_else. destruct (truthy body) eqn:E; [|simpl; eauto].
  destruct body; simpl in *; try discriminate; eauto.
Qed.

(** ** The links of the chains *)

Lemma ingest_field_inv (obj : value) (k : string) (p q : Point) :
  ingest_field obj k p = inr q ->
  exists v n,
    get obj k = inr v /\ toNum v = inr n
    /\ q = mkPoint (p_name p) (p_tags p)
             (<[k := FloatField n]> (p_fields p)) (p_time p).
Proof.
  unfold ingest_field.
  destruct (get obj k) as [e|v]; cbn [bind Monad_result]; [discriminate|].
  destruct (toNum v) as [e|n] eqn:Hn; cbn [bind Monad_result]; [discriminate|].
  rewrite (floatField_finite _ _ _ (toNum_finite _ _ Hn)).
  intros [= <-]. eauto.
Qed.

Lemma ingest_field_run (obj : value) (k : string) (p : Point) (v : value)
      (n : number) :
  get obj k = inr v -> toNum v = inr n ->
  ingest_field obj k p
  = inr (mkPoint (p_name p) (p_tags p)
           (<[k := FloatField n]> (p_fields p)) (p_time p)).
Proof.
  intros Hv Hn. unfold ingest_field. rewrite Hv. cbn [bind Monad_result].
  rewrite Hn. cbn [bind Monad_result].
  apply floatField_finite, (toNum_finite _ _ Hn).
Qed.

Lemma manual_field_inv (d : value) (k : string) (dflt : number) (p q : Point) :
  manual_field d k dflt p = inr q ->
  exists v n,
    get d k = inr v /\ toNum (nullish v (VNum dflt)) = inr n
    /\ q = mkPoint (p_name p) (p_tags p)
             (<[k := FloatField n]> (p_fields p)) (p_time p).
Proof.
  unfold manual_field.
  destruct (get d k) as [e|v]; cbn [bind Monad_result]; [discriminate|].
  destruct (toNum _) as [e|n] eqn:Hn; cbn [bind Monad_result]; [discriminate|].
  rewrite (floatField_finite _ _ _ (toNum_finite _ _ Hn)).
  intros [= <-]. eauto.
Qed.

Lemma manual_field_run (d : value) (k : string) (dflt : number) (p : Point)
      (v : value) (n : number) :
  get d k = inr v -> toNum (nullish v (VNum dflt)) = inr n ->
  manual_field d k dflt p
  = inr (mkPoint (p_name p) (p_tags p)
           (<[k := FloatField n]> (p_fields p)) (p_time p)).
Proof.
  intros Hv Hn. unfold manual_field. rewrite Hv. cbn [bind Monad_result].
  rewrite Hn. cbn [bind Monad_result].
  apply floatField_finite, (toNum_finite _ _ Hn).
Qed.


(** One step of the inversion of a chain: the link that was run is named
    and replaced by what it built. *)
Ltac chain_step H link_inv :=
  match type of H with
  | match ?x with inl _ => _ | inr _ => _ end = inr _ =>
      let F := fresh "F" in
      destruct x as [?|?] eqn:F; [discriminate H|];
      apply link_inv in F as (? & ? & ? & ? & ->);
      cbn [p_name p_tags p_fields p_time] in H
  end.

(** The point of the current server's handler, when it is built: every
    read and every conversion has succeeded, in the order of the chain. *)
Lemma ingest_point_inv (obj : value) (p : Point) :
  ingest_point obj = inr p ->
  exists d u i tb tc sp ax ay az f ts id nu ni ntb ntc nsp nax nay naz fw,
    get obj "device_id" = inr d /\ get obj "u_batt_v" = inr u
    /\ get obj "i_batt_a" = inr i /\ get obj "t_batt_c" = inr tb
    /\ get obj "t_ctrl_c" = inr tc /\ get obj "speed_kmh" = inr sp
    /\ get obj "ax_ms2" = inr ax /\ get obj "ay_ms2" = inr ay
    /\ get obj "az_ms2" = inr az /\ get obj "fw_src" = inr f
    /\ get obj "ts" = inr ts
    /\ ToString (nullish d (VStr "unknown")) = inr id
    /\ toNum u = inr nu /\ toNum i = inr ni /\ toNum tb = inr ntb
    /\ toNum tc = inr ntc /\ toNum sp = inr nsp /\ toNum ax = inr nax
    /\ toNum ay = inr nay /\ toNum az = inr naz
    /\ ToString (nullish f (VStr "unknown")) = inr fw
    /\ (if truthy ts
        then exists t, new_Date ts = inr t /\ p_time p = Some t
        else p_time p = None)
    /\ p_name p = "scooter"
    /\ p_tags p = {[ "device_id" := VStr id ]}
    /\ p_fields p
       = <["fw_src" := StringField fw]>
           (channel_fields nu ni ntb ntc nsp nax nay naz).
Proof.
  intros H. unfold ingest_point in H. cbn [bind ret Monad_result] in H.
  destruct (get obj "device_id") as [e|d] eqn:Hd; [discriminate H|].
  destruct (ToString (nullish d (VStr "unknown"))) as [e|id] eqn:Hid;
    [discriminate H|].
  cbn [tag new_Point p_name p_tags p_fields p_time] in H.
  do 8 chain_step H ingest_field_inv.
  destruct (get obj "fw_src") as [e|f] eqn:Hf; [discriminate H|].
  destruct (ToString (nullish f (VStr "unknown"))) as [e|fw] eqn:Hfw;
    [discriminate H|].
  destruct (get obj "ts") as [e|ts] eqn:Hts; [discriminate H|].
  cbn [stringField p_name p_tags p_fields p_time] in H.
  do 21 eexists.
  repeat (split; [eassumption || reflexivity|]).
  destruct (truthy ts).
  - destruct (new_Date ts) as [e|t] eqn:Ht; [discriminate H|].
    injection H as <-. cbn [timestamp p_name p_tags p_fields p_time].
    split; [eauto|]. split; [reflexivity|]. split; reflexivity.
  - injection H as <-. cbn [p_name p_tags p_fields p_time].
    split; [reflexivity|]. split; [reflexivity|]. split; reflexivity.
Qed.

(** The point of the manual write, when it is built. *)
Lemma manual_point_inv (body : value) (p : Point) :
  manual_point body = inr p ->
  let d := or_else body (VObj []) in
  exists i u c tb tc sp ax ay az f ts id nu ni ntb ntc nsp nax nay naz fw,
    get d "device_id" = inr i /\ get d "u_batt_v" = inr u
    /\ get d "i_batt_a" = inr c /\ get d "t_batt_c" = inr tb
    /\ get d "t_ctrl_c" = inr tc /\ get d "speed_kmh" = inr sp
    /\ get d "ax_ms2" = inr ax /\ get d "ay_ms2" = inr ay
    /\ get d "az_ms2" = inr az /\ get d "fw_src" = inr f
    /\ get d "ts" = inr ts
    /\ ToString (nullish i (VStr "test")) = inr id
    /\ toNum (nullish u (VNum lit_40_1)) = inr nu
    /\ toNum (nullish c (VNum lit_1_1)) = inr ni
    /\ toNum (nullish tb (VNum lit_25_0)) = inr ntb
    /\ toNum (nullish tc (VNum lit_27_0)) = inr ntc
    /\ toNum (nullish sp (VNum lit_18_0)) = inr nsp
    /\ toNum (nullish ax (VNum lit_0_1)) = inr nax
    /\ toNum (nullish ay (VNum lit_0_0)) = inr nay
    /\ toNum (nullish az (VNum lit_9_8)) = inr naz
    /\ ToString (nullish f (VStr "api")) = inr fw
    /\ (if truthy ts
        then exists t, new_Date ts = inr t /\ p_time p = Some t
        else p_time p = None)
    /\ p_name p = "scooter"
    /\ p_tags p = {[ "device_id" := VStr id ]}
    /\ p_fields p
       = <["fw_src" := StringField fw]>
           (channel_fields nu ni ntb ntc nsp nax nay naz).
Proof.
  intros H d. unfold manual_point in H. fold d in H.
  cbn [bind ret Monad_result] in H.
  destruct (get d "device_id") as [e|i] eqn:Hi; [discriminate H|].
  destruct (ToString (nullish i (VStr "test"))) as [e|id] eqn:Hid;
    [discriminate H|].
  cbn [tag new_Point p_name p_tags p_fields p_time] in H.
  do 8 chain_step H manual_field_inv.
  destruct (get d "fw_src") as [e|f] eqn:Hf; [discriminate H|].
  destruct (ToString (nullish f (VStr "api"))) as [e|fw] eqn:Hfw;
    [discriminate H|].
  destruct (get d "ts") as [e|ts] eqn:Hts; [discriminate H|].
  cbn [stringField p_name p_tags p_fields p_time] in H.
  do 21 eexists.
  repeat (split; [eassumption || reflexivity|]).
  destruct (truthy ts).
  - destruct (new_Date ts) as [e|t] eqn:Ht; [discriminate H|].
    injection H as <-. cbn [timestamp p_name p_tags p_fields p_time].
    split; [eauto|]. split; [reflexivity|]. split; reflexivity.
  - injection H as <-. cbn [p_name p_tags p_fields p_time].
    split; [reflexivity|]. split; [reflexivity|]. split; reflexivity.
Qed.

End PointBuilder.

Section PointProperties.
Context {R : Runtime}.

Lemma channel_fields_float (u i tb tc sp ax ay az : number) (fw : string)
      (k : string) (n : number) :
  (<["fw_src" := StringField fw]> (channel_fields u i tb tc sp ax ay az)) !! k
  = Some (FloatField n) ->
  In n [u; i; tb; tc; sp; ax; ay; az].
Proof.
  unfold channel_fields. intros Hk.
  repeat (rewrite lookup_insert in Hk; case_decide;
          [ first [ discriminate Hk | injection Hk as <-; cbn; tauto ] | ]).
  now rewrite lookup_empty in Hk.
Qed.

(** The float fields of a point built by the current server's handler:
    each channel holds [toNum] of what was read for it, which is [0] when
    the value is absent or does not coerce to a finite number, and no
    float field holds NaN or an infinity. *)
Lemma ingest_point_coerces (obj : value) (p : Point) :
  ingest_point obj = inr p ->
  (forall c v, In c channels -> get obj c = inr v ->
     exists n,
       toNum v = inr n
       /\ float_field p c = Some n
       /\ (v = VUndefined \/ (exists m, ToNumber v = inr m /\ isFinite m = false) ->
           float_field p c = Some pos_zero))
  /\ (forall k n, p_fields p !! k = Some (FloatField n) -> isFinite n = true).
Proof.
  intros H.
  destruct (ingest_point_inv obj p H)
    as (d & u & i & tb & tc & sp & ax & ay & az & f & ts & id
        & nu & ni & ntb & ntc & nsp & nax & nay & naz & fw
        & Hd & Hu & Hi & Htb & Htc & Hsp & Hax & Hay & Haz & Hf & Hts & Hid
        & Hnu & Hni & Hntb & Hntc & Hnsp & Hnax & Hnay & Hnaz & Hfw
        & _ & _ & _ & Hfields).
  split.
  - intros c v Hc Hv.
    assert (exists n, toNum v = inr n /\ float_field p c = Some n) as (n & Hn & Hfield).
    { unfold float_field. rewrite Hfields.
      unfold channels in Hc. cbn [In] in Hc. unfold channel_fields.
      repeat (destruct Hc as [<-|Hc];
              [ eexists; split; [|simplify_map_eq; reflexivity]; congruence | ]).
      contradiction. }
    exists n. split; [exact Hn|]. split; [exact Hfield|].
    intros [Habsent|(m & Hm & Hnf)]; rewrite Hfield; f_equal.
    + rewrite Habsent in Hn. rewrite toNum_undefined in Hn. congruence.
    + rewrite (toNum_not_finite _ _ Hm Hnf) in Hn. congruence.
  - intros k n Hk. rewrite Hfields in Hk.
    apply channel_fields_float in Hk. cbn [In] in Hk.
    repeat (destruct Hk as [<-|Hk]; [eapply toNum_finite; eassumption|]).
    contradiction.
Qed.

(** The timestamp of a built point, by the [ts] that was read. *)
Lemma ingest_point_time (obj : value) (p : Point) (ts : value) :
  ingest_point obj = inr p -> get obj "ts" = inr ts ->
  if truthy ts
  then exists t, new_Date ts = inr t /\ p_time p = Some t
  else p_time p = None.
Proof.
  intros H Hts.
  destruct (ingest_point_inv obj p H)
    as (d & u & i & tb & tc & sp & ax & ay & az & f & ts' & id
        & nu & ni & ntb & ntc & nsp & nax & nay & naz & fw
        & _ & _ & _ & _ & _ & _ & _ & _ & _ & _ & Hts' & _
        & _ & _ & _ & _ & _ & _ & _ & _ & _ & Htime & _).
  rewrite Hts in Hts'. injection Hts' as <-. exact Htime.
Qed.

Lemma manual_point_time (body : value) (p : Point) (ts : value) :
  manual_point body = inr p -> get (or_else body (VObj [])) "ts" = inr ts ->
  if truthy ts
  then exists t, new_Date ts = inr t /\ p_time p = Some t
  else p_time p = None.
Proof.
  intros H Hts.
  destruct (manual_point_inv body p H)
    as (d & u & i & tb & tc & sp & ax & ay & az & f & ts' & id
        & nu & ni & ntb & ntc & nsp & nax & nay & naz & fw
        & _ & _ & _ & _ & _ & _ & _ & _ & _ & _ & Hts' & _
        & _ & _ & _ & _ & _ & _ & _ & _ & _ & Htime & _).
  rewrite Hts in Hts'. injection Hts' as <-. exact Htime.
Qed.

(** The timestamp column of the line of a point, at second precision. *)
Lemma line_s_time (now : Z) (p : Point) :
  l_time (line_s now p)
  = match p_time p with
    | None => Stamp (now / 1000)
    | Some (Some ms) => Stamp (ms / 1000)
    | Some None => StampNaN
    end.
Proof. unfold line_s. cbn [l_time convertTime]. now destruct (p_time p) as [[?|]|]. Qed.

End PointProperties.

Section ManualAndLegacy.
Context {R : Runtime}.


(** It builds its point whenever the values it reads convert. *)
Lemma manual_point_builds (body : value) :
  (forall k v, In k read_names -> get (or_else body (VObj [])) k = inr v ->
               converts v = true) ->
  exists p, manual_point body = inr p.
Proof.
  intros Hconv. unfold manual_point. set (d := or_else body (VObj [])).
  fold d in Hconv.
  assert (forall k dflt, In k read_names ->
            forall q, exists q', manual_field d k dflt q = inr q') as Hlink.
  { intros k dflt Hk q. destruct (get_or_else_object body k) as [v Hv]. fold d in Hv.
    destruct (toNum_converts (nullish v (VNum dflt))) as [n Hn].
    { apply converts_nullish; [now apply (Hconv k)|reflexivity]. }
    eexists. now apply (manual_field_run d k dflt q v n). }
  destruct (get_or_else_object body "device_id") as [i Hi].
  destruct (get_or_else_object body "fw_src") as [f Hf].
  destruct (get_or_else_object body "ts") as [ts Hts].
  fold d in Hi, Hf, Hts. rewrite Hi. cbn [bind ret Monad_result].
  rewrite ToString_converts
    by (apply converts_nullish; [apply (Hconv "device_id"); [cbn; tauto|exact Hi]
                                |reflexivity]).
  repeat match goal with
         | |- context [manual_field d ?k ?dflt ?q] =>
             let F := fresh "F" in
             destruct (Hlink k dflt ltac:(cbn; tauto) q) as [? F]; rewrite F; clear F
         end.
  rewrite Hf.
  rewrite ToString_converts
    by (apply converts_nullish; [apply (Hconv "fw_src"); [cbn; tauto|exact Hf]
                                |reflexivity]).
  rewrite Hts. destruct (truthy ts); [|eauto].
  rewrite new_Date_converts by (apply (Hconv "ts"); [cbn; tauto|exact Hts]).
  cbn [bind ret Monad_result]. eauto.
Qed.

Lemma floatField_tags (k : string) (v : value) (p p' : Point) :
  floatField k v p = inr p' -> p_tags p' = p_tags p /\ p_time p' = p_time p.
Proof.
  unfold floatField.
  destruct (match v with VNum n => _ | _ => _ end) as [e|val]; [discriminate|].
  destruct (isFinite val); [|discriminate].
  intros [= <-]. auto.
Qed.

Lemma legacy_field_tags (data : value) (k : string) (p p' : Point) :
  legacy_field data k p = inr p' -> p_tags p' = p_tags p /\ p_time p' = p_time p.
Proof.
  unfold legacy_field. destruct (get data k) as [e|v]; [discriminate|].
  cbn [bind Monad_result]. apply floatField_tags.
Qed.

(** The older server's point carries [data.device_id] as its tag, as it
    was read, and no timestamp. *)
Lemma legacy_point_tags (data : value) (p : Point) :
  legacy_point data = inr p ->
  exists d, get data "device_id" = inr d
            /\ p_tags p = {[ "device_id" := d ]} /\ p_time p = None.
Proof.
  unfold legacy_point. destruct (get data "device_id") as [e|d]; [discriminate|].
  cbn [bind Monad_result]. intros H. exists d. split; [reflexivity|].
  repeat match type of H with
         | context [legacy_field ?x ?k ?q] =>
             let E := fresh "E" in
             destruct (legacy_field x k q) as [?|?] eqn:E; [discriminate H|];
             apply legacy_field_tags in E as [? ?]
         end.
  injection H as <-.
  split.
  - repeat match goal with
           | Ht : p_tags _ = _ |- _ => rewrite Ht; clear Ht
           end.
    reflexivity.
  - repeat match goal with
           | Ht : p_time _ = _ |- _ => rewrite Ht; clear Ht
           end.
    reflexivity.
Qed.

End ManualAndLegacy.

(** C1. Every line that the current server's message handler writes
    carries a point built from the decoded record in which, for each of
    the eight channels, the float written is [toNum] of the record's value:
    exactly [0] when the value is absent or does not coerce to a finite
    number.  No float field of such a point is NaN or an infinity. *)
Theorem ingested_fields_are_finite {R : Runtime} {S : Type} {C : Client S}
        (cfg : Config) (message : string) (w : World S) (l : Line) :
  In l (writes (trace (snd (on_message cfg message w)))) ->
  In l (writes (trace w))
  \/ exists record,
       JSON_parse message = inr record
       /\ ingest_point record = inr (l_point l)
       /\ (forall c v, In c channels -> get record c = inr v ->
             exists n,
               toNum v = inr n
               /\ float_field (l_point l) c = Some n
               /\ (v = VUndefined
                   \/ (exists m, ToNumber v = inr m /\ isFinite m = false) ->
                   float_field (l_point l) c = Some pos_zero))
       /\ (forall k n, p_fields (l_point l) !! k = Some (FloatField n) ->
             isFinite n = true).
Proof.
  intros Hl.
  destruct (JSON_parse message) as [e|record] eqn:Hparse.
  - left. unfold on_message in Hl. now rewrite Hparse in Hl.
  - rewrite (on_message_decoded cfg message record w Hparse) in Hl. cbv zeta in Hl.
    set (w1 := mkWorld _ _ _ _) in Hl.
    assert (writes (trace w1) = writes (trace w)) as Hw1.
    { unfold w1. cbn [trace]. now autorewrite with obs. }
    destruct (String.eqb _ "true").
    + destruct (write_branch_run record w1) as [(p & s' & Hp & _ & Hrun)|(e & _ & Hrun)];
        rewrite Hrun in Hl; cbn [snd emit set_store trace] in Hl;
        rewrite writes_app, Hw1 in Hl; cbn in Hl.
      * apply in_app_or in Hl as [Hl|[<-|[]]]; [now left|].
        right. exists record. cbn [line_s l_point].
        destruct (ingest_point_coerces record p Hp) as [Hch Hfin]. auto.
      * rewrite app_nil_r in Hl. now left.
    + cbn [snd] in Hl. rewrite Hw1 in Hl. now left.
Qed.

(** The handler run on [{"device_id":"m365-01","u_batt_v":39.5,
    "speed_kmh":12}] with the toggle on: the line written holds 39.5, 12
    and six zeros. *)
Lemma ingested_fields_are_finite_witness :
  let l := line_s 1700000000999 Examples.record_point in
  In l (writes (trace (snd (on_message Examples.cfg_on Examples.payload
                                       Examples.world0))))
  /\ (In l (writes (trace Examples.world0))
      \/ exists record,
           JSON_parse Examples.payload = inr record
           /\ ingest_point record = inr (l_point l)
           /\ (forall c v, In c channels -> get record c = inr v ->
                 exists n,
                   toNum v = inr n
                   /\ float_field (l_point l) c = Some n
                   /\ (v = VUndefined
                       \/ (exists m, ToNumber v = inr m /\ isFinite m = false) ->
                       float_field (l_point l) c = Some pos_zero))
           /\ (forall k n, p_fields (l_point l) !! k = Some (FloatField n) ->
                 isFinite n = true)).
Proof.
  assert (In (line_s 1700000000999 Examples.record_point)
             (writes (trace (snd (on_message Examples.cfg_on Examples.payload
                                             Examples.world0))))) as Hin.
  { vm_compute. left. reflexivity. }
  split; [exact Hin|].
  exact (ingested_fields_are_finite Examples.cfg_on Examples.payload
           Examples.world0 _ Hin).
Defined.

Section ManualWrite.
Context {R : Runtime} {S : Type} {C : Client S}.

(** [POST /api/write], case by case: the point is not built; the write is
    refused; the flush rejects; all three succeed. *)
Lemma api_write_run (req : Request) (w : World S) :
  api_write req w
  = match manual_point (req_body req) with
    | inl e => (inr tt, emit (EvRespond 500 (error_body e)) w)
    | inr p =>
        let l := line_s (now w) p in
        match writeLine (store w) l with
        | inl e => (inr tt, emit (EvRespond 500 (error_body e)) w)
        | inr s1 =>
            let w1 := emit (EvWrite l) (set_store s1 w) in
            match flush s1 with
            | inl e => (inr tt, emit (EvRespond 500 (error_body e)) w1)
            | inr s2 =>
                (inr tt, emit (EvRespond 200 ok_body)
                           (emit EvFlush (set_store s2 w1)))
            end
        end
    end.
Proof.
  unfold api_write. run_eff.
  destruct (manual_point (req_body req)) as [e|p]; [reflexivity|].
  cbv zeta. fold (line_s (now w) p).
  destruct (writeLine (store w) (line_s (now w) p)) as [e|s1]; [reflexivity|].
  cbn [store emit set_store].
  destruct (flush s1) as [e|s2]; reflexivity.
Qed.


End ManualWrite.

(** [POST /api/write] with the body [{"device_id":{"toString":1}}]:
    [String(d.device_id ?? 'test')] throws, nothing reaches the store, and
    the response is 500 with the text of the TypeError. *)
Example api_write_refuses_shadowed_id :
  manual_point Examples.shadowed_id = inl not_primitive
  /\ api_write (mkRequest "" [] Examples.shadowed_id) Examples.world0
     = (inr tt,
        emit (EvRespond 500
                (BJson (VObj [("error",
                               VStr "TypeError: Cannot convert object to primitive value")])))
             Examples.world0).
Proof. split; vm_compute; reflexivity. Qed.

Section Timestamps.
Context {R : Runtime} {S : Type} {C : Client S}.

(** The lines of a run of the message handler: those that were there, and
    at most one more, the line at second precision of the point built from
    the decoded record, made at the clock's reading. *)
Lemma on_message_writes (cfg : Config) (message : string) (w : World S) (l : Line) :
  In l (writes (trace (snd (on_message cfg message w)))) ->
  In l (writes (trace w))
  \/ exists record p,
       JSON_parse message = inr record
       /\ ingest_point record = inr p
       /\ l = line_s (now w) p.
Proof.
  intros Hl.
  destruct (JSON_parse message) as [e|record] eqn:Hparse.
  - left. unfold on_message in Hl. now rewrite Hparse in Hl.
  - rewrite (on_message_decoded cfg message record w Hparse) in Hl. cbv zeta in Hl.
    set (w1 := mkWorld _ _ _ _) in Hl.
    assert (writes (trace w1) = writes (trace w)) as Hw1.
    { unfold w1. cbn [trace]. now autorewrite with obs. }
    destruct (String.eqb _ "true").
    + destruct (write_branch_run record w1) as [(p & s' & Hp & _ & Hrun)|(e & _ & Hrun)];
        rewrite Hrun in Hl; cbn [snd emit set_store trace] in Hl;
        rewrite writes_app, Hw1 in Hl; cbn in Hl.
      * apply in_app_or in Hl as [Hl|[<-|[]]]; [now left|].
        right. exists record, p. auto.
      * rewrite app_nil_r in Hl. now left.
    + cbn [snd] in Hl. rewrite Hw1 in Hl. now left.
Qed.

(** The same for the manual write. *)
Lemma api_write_writes (req : Request) (w : World S) (l : Line) :
  In l (writes (trace (snd (api_write req w)))) ->
  In l (writes (trace w))
  \/ exists p, manual_point (req_body req) = inr p /\ l = line_s (now w) p.
Proof.
  rewrite api_write_run.
  destruct (manual_point (req_body req)) as [e|p].
  { cbn [snd emit trace]. rewrite writes_app. cbn. rewrite app_nil_r. now left. }
  cbv zeta.
  destruct (writeLine (store w) (line_s (now w) p)) as [e|s1].
  { cbn [snd emit trace]. rewrite writes_app. cbn. rewrite app_nil_r. now left. }
  assert (forall t : list Event,
             In l (writes ((trace w ++ [EvWrite (line_s (now w) p)]) ++ t)) ->
             writes t = [] ->
             In l (writes (trace w)) \/ l = line_s (now w) p) as Hcase.
  { intros t Hin Ht. rewrite !writes_app, Ht, app_nil_r in Hin.
    apply in_app_or in Hin as [Hin|[<-|[]]]; [now left|now right]. }
  destruct (flush s1) as [e|s2]; cbn [snd emit set_store trace]; intros Hin.
  - destruct (Hcase [EvRespond 500 (error_body e)] Hin eq_refl) as [Hold| ->];
      [now left|right; now exists p].
  - rewrite <- app_assoc in Hin.
    destruct (Hcase [EvFlush; EvRespond 200 ok_body] Hin eq_refl) as [Hold| ->];
      [now left|right; now exists p].
Qed.

End Timestamps.

(** C3 (amended).  Every line written by the current server's message
    handler or by [POST /api/write] is stamped by this rule, where [ts] is
    what the record (the body) holds under that name:
    - when [ts] is truthy, [new Date(ts)] did not throw, its date is the
      point's timestamp, and the line carries it in whole seconds,
      [floor (ms / 1000)], or the text [NaN] when the date is invalid (a
      [ts] that cannot be parsed);
    - when [ts] is absent or otherwise falsy, the point has no timestamp
      and the line carries the clock's reading at the call, in whole
      seconds.
    A truthy [ts] whose conversion throws builds no point: the message
    handler writes nothing, [POST /api/write] writes nothing and answers
    500. *)
Theorem point_timestamp_rule {R : Runtime} {S : Type} {C : Client S} :
  (forall (cfg : Config) (message : string) (w : World S) (l : Line),
      In l (writes (trace (snd (on_message cfg message w)))) ->
      In l (writes (trace w))
      \/ exists record ts,
           JSON_parse message = inr record
           /\ get record "ts" = inr ts
           /\ (truthy ts = true ->
                 exists t,
                   new_Date ts = inr t
                   /\ p_time (l_point l) = Some t
                   /\ l_time l = match t with
                                 | Some ms => Stamp (ms / 1000)
                                 | None => StampNaN
                                 end)
           /\ (truthy ts = false ->
                 p_time (l_point l) = None
                 /\ l_time l = Stamp (now w / 1000)))
  /\ (forall (req : Request) (w : World S) (l : Line),
      In l (writes (trace (snd (api_write req w)))) ->
      In l (writes (trace w))
      \/ exists ts,
           get (or_else (req_body req) (VObj [])) "ts" = inr ts
           /\ (truthy ts = true ->
                 exists t,
                   new_Date ts = inr t
                   /\ p_time (l_point l) = Some t
                   /\ l_time l = match t with
                                 | Some ms => Stamp (ms / 1000)
                                 | None => StampNaN
                                 end)
           /\ (truthy ts = false ->
                 p_time (l_point l) = None
                 /\ l_time l = Stamp (now w / 1000)))
  /\ (forall (cfg : Config) (message : string) (w : World S)
             (record ts : value) (e : exn),
      JSON_parse message = inr record -> get record "ts" = inr ts ->
      truthy ts = true -> new_Date ts = inl e ->
      writes (trace (snd (on_message cfg message w))) = writes (trace w))
  /\ (forall (req : Request) (w : World S) (ts : value) (e : exn),
      get (or_else (req_body req) (VObj [])) "ts" = inr ts ->
      truthy ts = true -> new_Date ts = inl e ->
      exists e',
        api_write req w = (inr tt, emit (EvRespond 500 (error_body e')) w)).
Proof.
  assert (forall (p : Point) (ts : value) (now : Z),
             (if truthy ts
              then exists t, new_Date ts = inr t /\ p_time p = Some t
              else p_time p = None) ->
             (truthy ts = true ->
                exists t,
                  new_Date ts = inr t
                  /\ p_time (l_point (line_s now p)) = Some t
                  /\ l_time (line_s now p) = match t with
                                             | Some ms => Stamp (ms / 1000)
                                             | None => StampNaN
                                             end)
             /\ (truthy ts = false ->
                   p_time (l_point (line_s now p)) = None
                   /\ l_time (line_s now p) = Stamp (now / 1000))) as Hrule.
  { intros p ts now Htime. rewrite line_s_time. cbn [line_s l_point].
    split; intros Hts; rewrite Hts in Htime.
    - destruct Htime as (t & Ht & Hp). exists t. rewrite Hp.
      split; [exact Ht|]. split; [reflexivity|]. now destruct t.
    - rewrite Htime. auto. }
  split; [|split; [|split]].
  - intros cfg message w l Hl.
    destruct (on_message_writes cfg message w l Hl)
      as [Hold|(record & p & Hparse & Hp & ->)]; [now left|].
    right.
    destruct (ingest_point_inv record p Hp)
      as (d & u & i & tb & tc & sp & ax & ay & az & f & ts & _
          & _ & _ & _ & _ & _ & _ & _ & _ & _
          & _ & _ & _ & _ & _ & _ & _ & _ & _ & _ & Hts & _).
    exists record, ts. split; [exact Hparse|]. split; [exact Hts|].
    apply Hrule. exact (ingest_point_time record p ts Hp Hts).
  - intros req w l Hl.
    destruct (api_write_writes req w l Hl) as [Hold|(p & Hp & ->)]; [now left|].
    right.
    destruct (get_or_else_object (req_body req) "ts") as [ts Hts].
    exists ts. split; [exact Hts|].
    apply Hrule. exact (manual_point_time (req_body req) p ts Hp Hts).
  - intros cfg message w record ts e Hparse Hts Htruthy Hthrows.
    rewrite (on_message_decoded cfg message record w Hparse). cbv zeta.
    set (w1 := mkWorld _ _ _ _).
    assert (writes (trace w1) = writes (trace w)) as Hw1.
    { unfold w1. cbn [trace]. now autorewrite with obs. }
    destruct (String.eqb _ "true"); [|exact Hw1].
    destruct (write_branch_run record w1) as [(p & s' & Hp & _ & _)|(e' & _ & ->)].
    + pose proof (ingest_point_time record p ts Hp Hts) as Htime.
      rewrite Htruthy in Htime. destruct Htime as (t & Ht & _). congruence.
    + cbn [snd emit trace]. rewrite writes_app, Hw1. cbn. apply app_nil_r.
  - intros req w ts e Hts Htruthy Hthrows.
    rewrite api_write_run.
    destruct (manual_point (req_body req)) as [e'|p] eqn:Hp; [now exists e'|].
    pose proof (manual_point_time (req_body req) p ts Hp Hts) as Htime.
    rewrite Htruthy in Htime. destruct Htime as (t & Ht & _). congruence.
Qed.

(** The rule on the bus message [{"ts":"2025-09-26T10:00:00.500Z"}]: the
    line written is stamped 1758880800, the second that holds the
    record's own time, not the clock's 1700000000. *)
Lemma point_timestamp_rule_witness :
  let l := mkLine Examples.good_ts_point (Stamp 1758880800) in
  In l (writes (trace (snd (on_message Examples.cfg_on Examples.good_ts_payload
                                       Examples.world0))))
  /\ (In l (writes (trace Examples.world0))
      \/ exists record ts,
           JSON_parse Examples.good_ts_payload = inr record
           /\ get record "ts" = inr ts
           /\ (truthy ts = true ->
                 exists t,
                   new_Date ts = inr t
                   /\ p_time (l_point l) = Some t
                   /\ l_time l = match t with
                                 | Some ms => Stamp (ms / 1000)
                                 | None => StampNaN
                                 end)
           /\ (truthy ts = false ->
                 p_time (l_point l) = None
                 /\ l_time l = Stamp (now Examples.world0 / 1000))).
Proof.
  assert (In (mkLine Examples.good_ts_point (Stamp 1758880800))
             (writes (trace (snd (on_message Examples.cfg_on
                                    Examples.good_ts_payload Examples.world0)))))
    as Hin.
  { vm_compute. left. reflexivity. }
  split; [exact Hin|].
  exact (proj1 point_timestamp_rule Examples.cfg_on Examples.good_ts_payload
           Examples.world0 _ Hin).
Defined.

(** The rule on [{"ts":{"toString":1}}]: [new Date(obj.ts)] throws, and
    neither path writes a line; the message handler prints the error, the
    manual write answers 500. *)
Example shadowed_ts_is_not_written :
  JSON_parse Examples.shadowed_ts_payload = inr Examples.shadowed_ts
  /\ new_Date Examples.shadowed = inl not_primitive
  /\ trace (snd (on_message Examples.cfg_on Examples.shadowed_ts_payload
                   (mkWorld [] Ref.empty_store 1700000000999 [])))
     = [EvLog Stderr [VStr "[Influx write error]";
                      VStr "Cannot convert object to primitive value"]]
  /\ trace (snd (api_write (mkRequest "" [] Examples.shadowed_ts)
                   (mkWorld [] Ref.empty_store 1700000000999 [])))
     = [EvRespond 500 (error_body not_primitive)].
Proof. repeat split; vm_compute; reflexivity. Qed.

(** C3, as stated, fails on [{"ts":"garbage"}]: the text does not parse
    as a date, yet the point carries the Invalid Date as its timestamp
    and the line is written with [NaN], not with the time of ingestion. *)
Lemma unparsable_ts_is_written_as_NaN :
  JSON_parse Examples.bad_ts_payload = inr Examples.bad_ts
  /\ Date_parse "garbage" = None
  /\ ingest_point Examples.bad_ts = inr Examples.bad_ts_point
  /\ writes (trace (snd (on_message Examples.cfg_on Examples.bad_ts_payload
                                    Examples.world0)))
     = [mkLine Examples.bad_ts_point StampNaN]
  /\ StampNaN <> Stamp (now Examples.world0 / 1000).
Proof.
  repeat split; try (vm_compute; reflexivity). discriminate.
Qed.

(** C4 (amended). The [device_id] tag of a built point is
    [String(device_id ?? sentinel)], and the sentinel depends on the path:
    ["unknown"] in the message handler of the current server, ["test"] in
    [POST /api/write]; the message handler of the older server has no
    sentinel and tags the point with [data.device_id] as it was read. *)
Theorem device_id_tag_defaults {R : Runtime} (p : Point) :
  (forall obj d,
      ingest_point obj = inr p -> get obj "device_id" = inr d ->
      (exists s, ToString (nullish d (VStr "unknown")) = inr s
                 /\ p_tags p !! "device_id" = Some (VStr s))
      /\ (d = VUndefined \/ d = VNull ->
          p_tags p !! "device_id" = Some (VStr "unknown")))
  /\ (forall body d,
      manual_point body = inr p ->
      get (or_else body (VObj [])) "device_id" = inr d ->
      (exists s, ToString (nullish d (VStr "test")) = inr s
                 /\ p_tags p !! "device_id" = Some (VStr s))
      /\ (d = VUndefined \/ d = VNull ->
          p_tags p !! "device_id" = Some (VStr "test")))
  /\ (forall data d,
      legacy_point data = inr p -> get data "device_id" = inr d ->
      p_tags p !! "device_id" = Some d).
Proof.
  split; [|split].
  - intros obj d Hp Hd.
    destruct (ingest_point_inv obj p Hp)
      as (d' & u & i & tb & tc & sp & ax & ay & az & f & ts & id
          & nu & ni & ntb & ntc & nsp & nax & nay & naz & fw
          & Hd' & _ & _ & _ & _ & _ & _ & _ & _ & _ & _ & Hid
          & _ & _ & _ & _ & _ & _ & _ & _ & _ & _ & _ & Htags & _).
    rewrite Hd in Hd'. injection Hd' as <-. rewrite Htags.
    rewrite lookup_singleton_eq. split; [eauto|].
    intros [->| ->]; cbn in Hid; congruence.
  - intros body d Hp Hd.
    destruct (manual_point_inv body p Hp)
      as (d' & u & i & tb & tc & sp & ax & ay & az & f & ts & id
          & nu & ni & ntb & ntc & nsp & nax & nay & naz & fw
          & Hd' & _ & _ & _ & _ & _ & _ & _ & _ & _ & _ & Hid
          & _ & _ & _ & _ & _ & _ & _ & _ & _ & _ & _ & Htags & _).
    rewrite Hd in Hd'. injection Hd' as <-. rewrite Htags.
    rewrite lookup_singleton_eq. split; [eauto|].
    intros [->| ->]; cbn in Hid; congruence.
  - intros data d Hp Hd.
    destruct (legacy_point_tags data p Hp) as (d' & Hd' & -> & _).
    rewrite Hd in Hd'. injection Hd' as <-. apply lookup_singleton_eq.
Qed.

(** The three paths on a record without [device_id]. *)
Lemma device_id_tag_defaults_witness :
  p_tags Examples.bad_ts_point !! "device_id" = Some (VStr "unknown")
  /\ p_tags Examples.manual_default_point !! "device_id" = Some (VStr "test").
Proof.
  split.
  - refine (proj2 (proj1 (device_id_tag_defaults Examples.bad_ts_point)
                     Examples.bad_ts VUndefined _ _) _);
      [vm_compute; reflexivity | reflexivity | now left].
  - refine (proj2 (proj1 (proj2 (device_id_tag_defaults
                                   Examples.manual_default_point))
                     (VObj []) VUndefined _ _) _);
      [vm_compute; reflexivity | reflexivity | now left].
Defined.

(** C4, as stated, fails on the manual-write endpoint: the empty body
    [{}] carries no [device_id], and the point written is tagged ["test"],
    not ["unknown"]. *)
Lemma manual_write_device_id_is_test :
  get (or_else (VObj []) (VObj [])) "device_id" = inr VUndefined
  /\ manual_point (VObj []) = inr Examples.manual_default_point
  /\ writes (trace (snd (api_write (mkRequest "" [] (VObj [])) Examples.world0)))
     = [line_s (now Examples.world0) Examples.manual_default_point]
  /\ p_tags Examples.manual_default_point !! "device_id" = Some (VStr "test")
  /\ p_tags Examples.manual_default_point !! "device_id" <> Some (VStr "unknown").
Proof.
  repeat split; try (vm_compute; reflexivity).
  vm_compute. discriminate.
Qed.

Section Latest.
Context {R : Runtime} {S : Type} {C : Client S}.

Lemma obj_assign_lookup (k : string) (v : value) (o : gmap string value) :
  k <> "__proto__" -> obj_assign k v o = <[k := v]> o.
Proof. intros Hk. unfold obj_assign. apply String.eqb_neq in Hk. now rewrite Hk. Qed.

Lemma obj_assign_other (k k' : string) (v : value) (o : gmap string value) :
  k <> k' -> obj_assign k v o !! k' = o !! k'.
Proof.
  intros Hk. unfold obj_assign. destruct (String.eqb k "__proto__"); [reflexivity|].
  now apply lookup_insert_ne.
Qed.

(** [ts] holds the time of the last row of the loop. *)
Lemma latest_loop_ts (rows : list Row) :
  forall o : gmap string value,
    latest_loop rows o !! "ts"
    = match last rows with
      | Some r => Some (r_time r)
      | None => o !! "ts"
      end.
Proof.
  induction rows as [|r rows IH]; intros o; [reflexivity|].
  cbn [latest_loop]. rewrite IH.
  destruct rows as [|r' rows].
  - cbn. apply lookup_insert_eq.
  - rewrite last_cons_cons.
    destruct (last (r' :: rows)) eqn:E; [reflexivity|].
    apply last_None in E. discriminate.
Qed.

(** A key that is neither [ts] nor the field of a row is left alone. *)
Lemma latest_loop_other (rows : list Row) (k : string) :
  k <> "ts" -> (forall r, In r rows -> r_field r <> k) ->
  forall o : gmap string value, latest_loop rows o !! k = o !! k.
Proof.
  intros Hts. induction rows as [|r rows IH]; intros Hrows o; [reflexivity|].
  cbn [latest_loop]. rewrite IH by (intros r' Hr'; apply Hrows; now right).
  rewrite lookup_insert_ne by congruence.
  apply obj_assign_other. apply Hrows. now left.
Qed.

(** With one row per field, each field holds the value of its row. *)
Lemma latest_loop_field (rows : list Row) :
  NoDup (List.map r_field rows) ->
  (forall r, In r rows -> r_field r <> "ts" /\ r_field r <> "__proto__") ->
  forall (o : gmap string value) r,
    In r rows -> latest_loop rows o !! r_field r = Some (r_value r).
Proof.
  induction rows as [|r0 rows IH]; intros Hnd Hok o r Hr; [destruct Hr|].
  cbn [List.map] in Hnd. apply NoDup_cons in Hnd as [Hnotin Hnd].
  cbn [latest_loop]. destruct Hr as [->|Hr].
  - destruct (Hok r (or_introl eq_refl)) as [Hts Hproto].
    rewrite latest_loop_other.
    + rewrite lookup_insert_ne by congruence.
      rewrite obj_assign_lookup by exact Hproto. apply lookup_insert_eq.
    + exact Hts.
    + intros r' Hr' Heq. apply Hnotin. rewrite <- Heq.
      apply list_elem_of_In. now apply List.in_map.
  - apply IH; trivial. intros r' Hr'. apply Hok. now right.
Qed.

Lemma latest_loop_dom (rows : list Row) :
  (forall r, In r rows -> r_field r <> "__proto__") ->
  forall o : gmap string value,
    dom (latest_loop rows o)
    = dom o ∪ list_to_set (List.map r_field rows)
      ∪ (match rows with [] => ∅ | _ => {["ts"]} end).
Proof.
  induction rows as [|r rows IH]; intros Hok o.
  - cbn. set_solver.
  - cbn [latest_loop List.map]. rewrite IH by (intros r' Hr'; apply Hok; now right).
    rewrite dom_insert_L, obj_assign_lookup by (apply Hok; now left).
    rewrite dom_insert_L, list_to_set_cons.
    destruct rows; set_solver.
Qed.

(** The run of [/api/latest] when the store answers with [rows]. *)
Lemma api_latest_run (cfg : Config) (req : Request) (w : World S)
      (flux : string) (rows : list Row) :
  latest_flux cfg (or_else (query req "range") (VStr "2h")) (req_deviceId req)
  = inr flux ->
  collectRows (store w) flux = inr rows ->
  api_latest cfg req w
  = (inr tt,
     emit (EvRespond 200
             (BObject (latest_loop rows {[ "device_id" := VStr (req_deviceId req) ]})))
          (emit (EvQuery flux) w)).
Proof.
  intros Hflux Hrows.
  unfold api_latest. rewrite Hflux. run_eff. now rewrite Hrows.
Qed.

(** When the conversion of [range] throws, the handler throws before its
    [try]: it has queried nothing and responded nothing. *)
Lemma api_latest_throws (cfg : Config) (req : Request) (w : World S) (e : exn) :
  latest_flux cfg (or_else (query req "range") (VStr "2h")) (req_deviceId req)
  = inl e ->
  api_latest cfg req w = (inl e, w).
Proof. intros Hflux. unfold api_latest. rewrite Hflux. reflexivity. Qed.

(** The query text exists exactly when [range] converts to a string; a
    string, as the query-string parser gives for [?range=2h], always
    does. *)
Lemma latest_flux_converts (cfg : Config) (range : value) (deviceId : string) :
  converts range = true <-> exists flux, latest_flux cfg range deviceId = inr flux.
Proof.
  unfold latest_flux, ToString. split.
  - intros ->. cbn [bind ret Monad_result]. eauto.
  - destruct (converts range); [reflexivity|]. now intros [flux Hflux].
Qed.

Lemma latest_default_range (cfg : Config) (req : Request) :
  truthy (query req "range") = false ->
  latest_flux cfg (or_else (query req "range") (VStr "2h")) (req_deviceId req)
  = latest_flux cfg (VStr "2h") (req_deviceId req).
Proof. intros H. unfold or_else. now rewrite H. Qed.

(** C7 (amended). When the store answers [/api/latest/:deviceId] with one
    row per distinct field, and no field is itself named [ts] (or
    [__proto__]), the response is 200 with one flat object that holds,
    under each row's field name, that row's value, and under [ts] the time
    of the last row iterated; its keys are [device_id], the field names,
    and [ts] when there is a row.  The query runs over the window of the
    [range] parameter, [2h] when the request gives none; [flux] is its
    text. *)
Theorem latest_merges_rows (cfg : Config) (req : Request) (w : World S)
        (flux : string) (rows : list Row) :
  latest_flux cfg (or_else (query req "range") (VStr "2h")) (req_deviceId req)
  = inr flux ->
  collectRows (store w) flux = inr rows ->
  NoDup (List.map r_field rows) ->
  (forall r, In r rows -> r_field r <> "ts" /\ r_field r <> "__proto__") ->
  exists o : gmap string value,
    api_latest cfg req w
    = (inr tt, emit (EvRespond 200 (BObject o)) (emit (EvQuery flux) w))
    /\ (forall r, In r rows -> o !! r_field r = Some (r_value r))
    /\ o !! "ts" = r_time <$> last rows
    /\ ((forall r, In r rows -> r_field r <> "device_id") ->
        o !! "device_id" = Some (VStr (req_deviceId req)))
    /\ dom o = {["device_id"]} ∪ list_to_set (List.map r_field rows)
               ∪ (match rows with [] => ∅ | _ => {["ts"]} end)
    /\ (truthy (query req "range") = false ->
        latest_flux cfg (VStr "2h") (req_deviceId req) = inr flux).
Proof.
  intros Hflux Hrows Hnd Hok.
  exists (latest_loop rows {[ "device_id" := VStr (req_deviceId req) ]}).
  split; [now apply api_latest_run|].
  split; [intros r Hr; now apply latest_loop_field|].
  split.
  { rewrite latest_loop_ts. destruct (last rows); [reflexivity|].
    cbn. now apply lookup_singleton_ne. }
  split.
  { intros Hdev. rewrite latest_loop_other; [apply lookup_singleton_eq|congruence|].
    exact Hdev. }
  split.
  { rewrite latest_loop_dom by (intros r Hr; now apply Hok).
    now rewrite dom_singleton_L. }
  intros Hrange. now rewrite <- latest_default_range.
Qed.

(** C10. When the store answers [/api/latest/:deviceId] with no row, the
    response is 200 and its body is the object whose one key is
    [device_id], with the identifier of the request: no [ts], no field.
    [flux] is the text of the query. *)
Theorem latest_without_rows (cfg : Config) (req : Request) (w : World S)
        (flux : string) :
  latest_flux cfg (or_else (query req "range") (VStr "2h")) (req_deviceId req)
  = inr flux ->
  collectRows (store w) flux = inr [] ->
  let o : gmap string value := {[ "device_id" := VStr (req_deviceId req) ]} in
  api_latest cfg req w
  = (inr tt, emit (EvRespond 200 (BObject o)) (emit (EvQuery flux) w))
  /\ responses (trace (snd (api_latest cfg req w)))
     = responses (trace w) ++ [(200, BObject o)]
  /\ dom o = {["device_id"]}
  /\ size o = 1%nat
  /\ o !! "ts" = None.
Proof.
  intros Hflux Hrows o.
  rewrite (api_latest_run cfg req w flux [] Hflux Hrows). cbn [latest_loop]. fold o.
  split; [reflexivity|]. split.
  { cbn [snd emit trace]. autorewrite with obs. cbn. now autorewrite with obs. }
  split; [apply dom_singleton_L|]. split; [apply map_size_singleton|].
  now apply lookup_singleton_ne.
Qed.

End Latest.

(** The merge on two rows, [u_batt_v] and then [speed_kmh]: both values
    are in the object and [ts] is the time of the second row. *)
Lemma latest_merges_rows_witness :
  latest_flux Examples.cfg_on
    (or_else (query Examples.latest_req "range") (VStr "2h")) "m365-01"
  = inr Examples.latest_text
  /\ collectRows (store (Examples.world_with Examples.two_rows))
       Examples.latest_text
     = inr Examples.two_rows
  /\ NoDup (List.map r_field Examples.two_rows)
  /\ (forall r, In r Examples.two_rows ->
        r_field r <> "ts" /\ r_field r <> "__proto__")
  /\ exists o : gmap string value,
       responses (trace (snd (api_latest Examples.cfg_on Examples.latest_req
                                (Examples.world_with Examples.two_rows))))
       = [(200, BObject o)]
       /\ o !! "u_batt_v" = Some (VNum (decimal 395 (-1)))
       /\ o !! "speed_kmh" = Some (VNum (decimal 12 0))
       /\ o !! "ts" = Some (VStr "2025-09-26T10:00:05Z").
Proof.
  assert (latest_flux Examples.cfg_on
            (or_else (query Examples.latest_req "range") (VStr "2h")) "m365-01"
          = inr Examples.latest_text) as Hflux by (vm_compute; reflexivity).
  assert (collectRows (store (Examples.world_with Examples.two_rows))
            Examples.latest_text
          = inr Examples.two_rows) as Hrows by (vm_compute; reflexivity).
  assert (NoDup (List.map r_field Examples.two_rows)) as Hnd.
  { cbn. repeat (apply NoDup_cons; split; [set_solver|]). apply NoDup_nil_2. }
  assert (forall r, In r Examples.two_rows ->
            r_field r <> "ts" /\ r_field r <> "__proto__") as Hok.
  { intros r [<-|[<-|[]]]; split; discriminate. }
  repeat (split; [assumption|]).
  destruct (latest_merges_rows Examples.cfg_on Examples.latest_req
              (Examples.world_with Examples.two_rows) Examples.latest_text
              Examples.two_rows Hflux Hrows Hnd Hok)
    as (o & Hrun & Hfield & Hts & _).
  exists o. rewrite Hrun. split; [reflexivity|].
  split; [|split].
  - apply (Hfield (mkRow "u_batt_v" (VNum (decimal 395 (-1)))
                          (VStr "2025-09-26T10:00:00Z"))). now left.
  - apply (Hfield (mkRow "speed_kmh" (VNum (decimal 12 0))
                          (VStr "2025-09-26T10:00:05Z"))). right. now left.
  - exact Hts.
Defined.

(** C7, as stated, fails on a row whose field is itself named [ts]: the
    rows are one per distinct field, yet the object of the response does
    not hold the row's value under the field's name; the assignment of the
    row's time has replaced it.  (A field named [__proto__] leaves no key
    at all in the object.) *)
Lemma field_named_ts_is_overwritten :
  latest_flux Examples.cfg_on
    (or_else (query Examples.latest_req "range") (VStr "2h")) "m365-01"
  = inr Examples.latest_text
  /\ collectRows (store (Examples.world_with Examples.ts_row))
       Examples.latest_text
     = inr Examples.ts_row
  /\ NoDup (List.map r_field Examples.ts_row)
  /\ exists o : gmap string value,
       responses (trace (snd (api_latest Examples.cfg_on Examples.latest_req
                                (Examples.world_with Examples.ts_row))))
       = [(200, BObject o)]
       /\ o !! "ts" = Some (VStr "2025-09-26T10:00:00Z")
       /\ o !! "ts" <> Some (VStr "from the device")
       /\ latest_loop Examples.proto_row {[ "device_id" := VStr "m365-01" ]}
            !! "__proto__" = None.
Proof.
  assert (latest_flux Examples.cfg_on
            (or_else (query Examples.latest_req "range") (VStr "2h")) "m365-01"
          = inr Examples.latest_text) as Hflux by (vm_compute; reflexivity).
  assert (collectRows (store (Examples.world_with Examples.ts_row))
            Examples.latest_text
          = inr Examples.ts_row) as Hrows by (vm_compute; reflexivity).
  split; [exact Hflux|]. split; [exact Hrows|]. split.
  { cbn. apply NoDup_singleton. }
  rewrite (api_latest_run Examples.cfg_on Examples.latest_req _ _ _ Hflux Hrows).
  eexists. split; [reflexivity|]. split; [|split].
  - vm_compute. reflexivity.
  - vm_compute. discriminate.
  - vm_compute. reflexivity.
Qed.

(** The empty answer of the store in memory. *)
Lemma latest_without_rows_witness :
  latest_flux Examples.cfg_on
    (or_else (query Examples.latest_req "range") (VStr "2h")) "m365-01"
  = inr Examples.latest_text
  /\ collectRows (store Examples.world0) Examples.latest_text = inr []
  /\ responses (trace (snd (api_latest Examples.cfg_on Examples.latest_req
                              Examples.world0)))
     = [(200, BObject {[ "device_id" := VStr "m365-01" ]})].
Proof.
  assert (latest_flux Examples.cfg_on
            (or_else (query Examples.latest_req "range") (VStr "2h")) "m365-01"
          = inr Examples.latest_text) as Hflux by (vm_compute; reflexivity).
  assert (collectRows (store Examples.world0) Examples.latest_text = inr [])
    as Hrows by reflexivity.
  split; [exact Hflux|]. split; [exact Hrows|].
  exact (proj1 (proj2 (latest_without_rows Examples.cfg_on Examples.latest_req
                         Examples.world0 _ Hflux Hrows))).
Defined.

(** The payload [not json] on both handlers. *)
Lemma parse_failure_drops_witness :
  JSON_parse Examples.not_json = inl (Exn "SyntaxError" "Unexpected token in JSON")
  /\ on_message Examples.cfg_on Examples.not_json Examples.world0
     = (inr tt, Examples.world0)
  /\ writes (trace (snd (on_message_legacy Examples.not_json Examples.world0))) = []
  /\ sends (trace (snd (on_message_legacy Examples.not_json Examples.world0))) = [].
Proof.
  assert (JSON_parse Examples.not_json
          = inl (Exn "SyntaxError" "Unexpected token in JSON")) as Hparse
      by (vm_compute; reflexivity).
  split; [exact Hparse|].
  destruct (parse_failure_drops Examples.cfg_on Examples.not_json _
              Examples.world0 Hparse) as (Hnew & Hsends & Hwrites & _).
  split; [exact Hnew|]. split; [exact Hwrites | exact Hsends].
Defined.

(** The record of [m365-01] with the toggle on and off: viewers 1 and 4
    receive the frame either way. *)
Lemma fanout_independent_of_toggle_witness :
  JSON_parse Examples.payload = inr Examples.record
  /\ sends (trace (snd (on_message Examples.cfg_on Examples.payload Examples.world0)))
     = sends (trace (snd (on_message Examples.cfg_off Examples.payload Examples.world0)))
  /\ sends (trace (snd (on_message Examples.cfg_off Examples.payload Examples.world0)))
     = [(1%nat, Examples.payload_frame); (4%nat, Examples.payload_frame)]
  /\ writes (trace (snd (on_message Examples.cfg_off Examples.payload Examples.world0)))
     = [].
Proof.
  assert (JSON_parse Examples.payload = inr Examples.record) as Hparse
      by (vm_compute; reflexivity).
  split; [exact Hparse|].
  destruct (fanout_independent_of_toggle Examples.payload Examples.record
              Examples.world0 Hparse) as (Hall & Hsame & Hoff).
  split; [apply Hsame|]. split.
  - destruct (Hall Examples.cfg_off) as (_ & _ & ->). vm_compute. reflexivity.
  - destruct (Hoff Examples.cfg_off eq_refl) as (_ & -> & _). reflexivity.
Defined.

(** [broadcast] among four viewers, of which one is closed and one has a
    failing [send]: the other two receive the same frame, in order. *)
Example broadcast_among_four :
  broadcast (envelope Examples.record) Examples.world0
  = (inr tt,
     mkWorld Examples.viewers Ref.empty_store 1700000000999
       [EvSend 1 Examples.payload_frame; EvSend 4 Examples.payload_frame]).
Proof. vm_compute. reflexivity. Qed.

(** [POST /api/write] with the body [{}]: 200 after the flush on a store
    that can be reached; 500 after the write when the flush is rejected;
    500 with nothing written when the write API is closed. *)
Example api_write_accepted :
  trace (snd (api_write (mkRequest "" [] (VObj [])) Examples.world0))
  = [EvWrite (line_s 1700000000999 Examples.manual_default_point);
     EvFlush;
     EvRespond 200 ok_body]
  /\ Ref.written (store (snd (api_write (mkRequest "" [] (VObj [])) Examples.world0)))
     = [line_s 1700000000999 Examples.manual_default_point].
Proof. split; vm_compute; reflexivity. Qed.

Example api_write_flush_rejected :
  trace (snd (api_write (mkRequest "" [] (VObj [])) Examples.world_unreachable))
  = [EvWrite (line_s 1700000000999 Examples.manual_default_point);
     EvRespond 500 (BJson (VObj [("error",
                                  VStr "RequestTimedOutError: Request timed out")]))].
Proof. vm_compute. reflexivity. Qed.

Example api_write_closed :
  trace (snd (api_write (mkRequest "" [] (VObj [])) Examples.world_closed))
  = [EvRespond 500 (BJson (VObj [("error",
                                  VStr "Error: writeApi: already closed!")]))].
Proof. vm_compute. reflexivity. Qed.

Section Series.
Context {R : Runtime} {S : Type} {C : Client S}.

(** [/api/series]: without a [fields] parameter the three default names
    are requested. *)
Lemma series_fields_default (req : Request) :
  truthy (query req "fields") = false ->
  series_fields req = inr ["u_batt_v"; "i_batt_a"; "speed_kmh"].
Proof.
  intros H. unfold series_fields, or_else. rewrite H. reflexivity.
Qed.

(** The list of names, when [String(..)] does not throw: the pieces of the
    text between commas, trimmed, without the empty ones. *)
Lemma series_fields_inv (req : Request) (fields : list string) :
  series_fields req = inr fields ->
  exists text,
    ToString (or_else (query req "fields") (VStr "u_batt_v,i_batt_a,speed_kmh"))
    = inr text
    /\ fields = List.filter (fun s => truthy (VStr s))
                  (List.map trim (split ","%char text)).
Proof.
  unfold series_fields. destruct (ToString _) as [e|text]; cbn [bind ret Monad_result];
    [discriminate|].
  intros [= <-]. eauto.
Qed.

(** No requested name is empty. *)
Lemma series_fields_nonempty (req : Request) (fields : list string) (f : string) :
  series_fields req = inr fields -> In f fields -> f <> "".
Proof.
  intros Hfields Hf.
  apply series_fields_inv in Hfields as (text & _ & ->).
  apply List.filter_In in Hf as [_ Hf].
  cbn in Hf. intros ->. discriminate.
Qed.

(** [/api/series] asks the store once, over the window of [range] ([60m]
    when absent) and for the names of [series_fields], and forwards the
    rows of the answer as they come; a failure of the store is a 500. *)
Lemma api_series_run (cfg : Config) (req : Request) (w : World S)
      (fields : list string) (flux : string) :
  series_fields req = inr fields ->
  series_flux cfg (or_else (query req "range") (VStr "60m"))
    (req_deviceId req) fields = inr flux ->
  api_series cfg req w
  = (inr tt,
     emit (EvRespond (match collectRows (store w) flux with
                      | inr _ => 200
                      | inl _ => 500
                      end)
                     (match collectRows (store w) flux with
                      | inr rows => BRows rows
                      | inl e => error_body e
                      end))
          (emit (EvQuery flux) w)).
Proof.
  intros Hfields Hflux. unfold api_series. rewrite Hfields.
  cbn [bind Monad_M lift]. rewrite Hflux. run_eff.
  destruct (collectRows (store w) flux); reflexivity.
Qed.

(** When [String(req.query.fields || ...)] or the conversion of [range]
    throws, the handler throws before its [try]: it has queried nothing
    and responded nothing. *)
Lemma api_series_throws (cfg : Config) (req : Request) (w : World S) (e : exn) :
  series_fields req = inl e
  \/ (exists fields,
        series_fields req = inr fields
        /\ series_flux cfg (or_else (query req "range") (VStr "60m"))
             (req_deviceId req) fields = inl e) ->
  api_series cfg req w = (inl e, w).
Proof.
  intros [Hfields|(fields & Hfields & Hflux)]; unfold api_series; rewrite Hfields;
    cbn [bind Monad_M lift]; [reflexivity|].
  now rewrite Hflux.
Qed.

(** The list of fields and the query text exist exactly when the two
    parameters convert to strings. *)
Lemma series_query_converts (cfg : Config) (req : Request) :
  converts (or_else (query req "fields") (VStr "u_batt_v,i_batt_a,speed_kmh")) = true
  /\ converts (or_else (query req "range") (VStr "60m")) = true
  <-> exists fields flux,
        series_fields req = inr fields
        /\ series_flux cfg (or_else (query req "range") (VStr "60m"))
             (req_deviceId req) fields = inr flux.
Proof.
  unfold series_fields, series_flux, ToString. split.
  - intros [-> ->]. cbn [bind ret Monad_result]. eauto.
  - intros (fields & flux & Hfields & Hflux).
    destruct (converts (or_else (query req "fields") _)); [|discriminate Hfields].
    destruct (converts (or_else (query req "range") _)); [|discriminate Hflux].
    auto.
Qed.

End Series.

(** The Flux text of [/api/series/m365-01?fields=u_batt_v,speed_kmh]. *)
Example series_flux_two_fields :
  series_fields (R := Ref.runtime)
    (mkRequest "m365-01" [("fields", VStr "u_batt_v, speed_kmh")] VUndefined)
  = inr ["u_batt_v"; "speed_kmh"]
  /\ fieldFilter ["u_batt_v"; "speed_kmh"]
     = "r._field == " +:+ dq +:+ "u_batt_v" +:+ dq +:+ " or r._field == "
       +:+ dq +:+ "speed_kmh" +:+ dq.
Proof. split; vm_compute; reflexivity. Qed.

(** [?range[toString]=1], where the query-string parser makes an object
    of it: the template literal throws, and [/api/latest] throws with
    it. *)
Example api_latest_shadowed_range :
  api_latest Examples.cfg_on
    (mkRequest "m365-01" [("range", Examples.shadowed)] VUndefined)
    Examples.world0
  = (inl not_primitive, Examples.world0).
Proof. vm_compute. reflexivity. Qed.

(* ===================================================================== *)
(** * Further properties of the handlers                                  *)
(* ===================================================================== *)

Section IngestionFrame.
Context {R : Runtime} {S : Type} {C : Client S}.

(** X1. Whatever the message, the configuration and the store, the
    message handler of the current server returns normally; it leaves the
    viewers and the clock as they were, only adds sends, written lines and
    console lines to the trace, writes at most one line, and changes the
    store only when it wrote one. *)
Theorem on_message_keeps_to_ingestion (cfg : Config) (message : string)
        (w : World S) :
  exists (w' : World S) (t : list Event),
    on_message cfg message w = (inr tt, w')
    /\ clients w' = clients w
    /\ now w' = now w
    /\ trace w' = trace w ++ t
    /\ forallb ingest_event t = true
    /\ (length (writes t) <= 1)%nat
    /\ (writes t = [] -> store w' = store w).
Proof.
  destruct (JSON_parse message) as [e|record] eqn:Hparse.
  - exists w, []. unfold on_message. rewrite Hparse, app_nil_r. cbn. auto 10.
  - rewrite (on_message_decoded cfg message record w Hparse). cbv zeta.
    set (frame := JSON_stringify (envelope record)).
    assert (forallb ingest_event (deliveries frame (clients w)) = true) as Hsend.
    { unfold deliveries. induction (List.filter _ _) as [|ws l IH]; [reflexivity|].
      exact IH. }
    destruct (String.eqb _ "true").
    + destruct (write_branch_run record
                  (mkWorld (clients w) (store w) (now w)
                           (trace w ++ deliveries frame (clients w))))
        as [(p & s' & _ & _ & ->)|(e & _ & ->)];
        cbn [emit set_store clients store now trace].
      * eexists _, (deliveries frame (clients w) ++ [EvWrite _]).
        split; [reflexivity|]. cbn [clients now trace store emit set_store].
        rewrite <- app_assoc. repeat split; try reflexivity.
        -- rewrite forallb_app, Hsend. reflexivity.
        -- autorewrite with obs. cbn. lia.
        -- autorewrite with obs. cbn. discriminate.
      * eexists _, (deliveries frame (clients w) ++ [EvLog Stderr _]).
        split; [reflexivity|]. cbn [clients now trace store emit set_store].
        rewrite <- app_assoc. repeat split; try reflexivity.
        -- rewrite forallb_app, Hsend. reflexivity.
        -- autorewrite with obs. cbn. lia.
    + eexists _, (deliveries frame (clients w)).
      split; [reflexivity|]. cbn [clients now trace store emit set_store].
      repeat split; try reflexivity; trivial.
      autorewrite with obs. cbn. lia.
Qed.

(** X2. On the live path a failure of the write is swallowed.  When the
    record decodes and the toggle is on, but the point cannot be built
    (the record is [null], or a conversion throws) or [writePoint] throws,
    the handler still
    returns normally: the broadcast has been made, one line naming the
    error is on the error console, nothing is written and the store is
    untouched. *)
Theorem write_failure_is_swallowed (cfg : Config) (message : string)
        (record : value) (e : exn) (w : World S) :
  JSON_parse message = inr record ->
  String.eqb (toLowerCase (WRITE_TO_INFLUX cfg)) "true" = true ->
  (ingest_point record = inl e
   \/ exists p, ingest_point record = inr p
                /\ writeLine (store w) (line_s (now w) p) = inl e) ->
  on_message cfg message w
  = (inr tt,
     mkWorld (clients w) (store w) (now w)
       (trace w ++ deliveries (JSON_stringify (envelope record)) (clients w)
                ++ [EvLog Stderr [VStr "[Influx write error]";
                                  VStr (e_message e)]])).
Proof.
  intros Hparse Hon Hfail.
  rewrite (on_message_decoded cfg message record w Hparse). cbv zeta. rewrite Hon.
  run_eff. cbn [store now emit clients trace].
  destruct Hfail as [Hp|(p & Hp & Hw)]; rewrite Hp.
  - cbn [emit clients store now trace]. now rewrite app_assoc.
  - fold (line_s (now w) p). rewrite Hw. cbn [emit clients store now trace].
    now rewrite app_assoc.
Qed.

End IngestionFrame.

(** A write API that was closed: the record of [m365-01] is broadcast to
    viewers 1 and 4 and the refusal is logged. *)
Lemma write_failure_is_swallowed_witness :
  JSON_parse Examples.payload = inr Examples.record
  /\ trace (snd (on_message Examples.cfg_on Examples.payload Examples.world_closed))
     = [EvSend 1 Examples.payload_frame; EvSend 4 Examples.payload_frame;
        EvLog Stderr [VStr "[Influx write error]";
                      VStr "writeApi: already closed!"]].
Proof.
  assert (JSON_parse Examples.payload = inr Examples.record) as Hparse
      by (vm_compute; reflexivity).
  split; [exact Hparse|].
  rewrite (write_failure_is_swallowed Examples.cfg_on Examples.payload
             Examples.record (Error "writeApi: already closed!")
             Examples.world_closed Hparse eq_refl).
  - vm_compute. reflexivity.
  - right. exists Examples.record_point. split; vm_compute; reflexivity.
Defined.

Section BlankRecord.
Context {R : Runtime} {S : Type} {C : Client S}.

(** The point built from a record that has none of the names. *)
Lemma ingest_point_blank (obj : value) :
  (forall k, In k read_names -> get obj k = inr VUndefined) ->
  ingest_point obj = inr blank_point.
Proof.
  intros Hnone. unfold ingest_point, ingest_field.
  repeat (rewrite Hnone by (cbn; tauto); cbn [bind ret Monad_result]).
  reflexivity.
Qed.

(** X3. A record that has none of the names the handler reads — an empty
    object, or a JSON value that is not an object: a number, a string, an
    array — is still written by the message handler, as a point of device
    ["unknown"], firmware ["unknown"], every channel [0], on a line
    stamped with the clock's reading at ingestion, in whole seconds. *)
Theorem record_without_known_names (cfg : Config) (message : string)
        (obj : value) (w : World S) (s' : S) :
  JSON_parse message = inr obj ->
  String.eqb (toLowerCase (WRITE_TO_INFLUX cfg)) "true" = true ->
  (forall k, In k read_names -> get obj k = inr VUndefined) ->
  writeLine (store w) (mkLine blank_point (Stamp (now w / 1000))) = inr s' ->
  ingest_point obj = inr blank_point
  /\ on_message cfg message w
     = (inr tt,
        mkWorld (clients w) s' (now w)
          (trace w ++ deliveries (JSON_stringify (envelope obj)) (clients w)
                   ++ [EvWrite (mkLine blank_point (Stamp (now w / 1000)))])).
Proof.
  intros Hparse Hon Hnone Hw.
  pose proof (ingest_point_blank obj Hnone) as Hp.
  split; [exact Hp|].
  rewrite (on_message_decoded cfg message obj w Hparse). cbv zeta. rewrite Hon.
  run_eff. cbn [store now emit clients trace]. rewrite Hp.
  change (convertTime PrecS (now w) (p_time blank_point)) with (Stamp (now w / 1000)).
  rewrite Hw. unfold emit, set_store. cbn [clients store now trace].
  now rewrite app_assoc.
Qed.

End BlankRecord.

(** The payload [[]] with no viewer connected: one line, of the blank
    point, stamped 1700000000 by a clock at 1700000000999 ms. *)
Lemma record_without_known_names_witness :
  JSON_parse "[]" = inr (VArr [])
  /\ on_message Examples.cfg_on "[]" (mkWorld [] Ref.empty_store 1700000000999 [])
     = (inr tt,
        mkWorld [] (Ref.mkMemStore false true
                      [mkLine blank_point (Stamp 1700000000)] [] [])
          1700000000999
          [EvWrite (mkLine blank_point (Stamp 1700000000))]).
Proof.
  assert (JSON_parse "[]" = inr (VArr [])) as Hparse by (vm_compute; reflexivity).
  split; [exact Hparse|].
  refine (proj2 (record_without_known_names Examples.cfg_on "[]" (VArr [])
                   (mkWorld [] Ref.empty_store 1700000000999 [])
                   (Ref.mkMemStore false true
                      [mkLine blank_point (Stamp 1700000000)] [] [])
                   Hparse eq_refl _ _)).
  - intros k _. reflexivity.
  - vm_compute. reflexivity.
Defined.

Lemma lower_ascii_letter (c l : ascii) :
  In l ["t"; "r"; "u"; "e"]%char -> (lower_ascii c = l <-> same_letter c l).
Proof.
  unfold same_letter.
  intros [<-|[<-|[<-|[<-|[]]]]];
    destruct c as [[] [] [] [] [] [] [] []]; vm_compute;
    (split;
     [ intros H; first [ discriminate H | left; reflexivity | right; reflexivity ]
     | intros [H|H]; first [ discriminate H | reflexivity ] ]).
Qed.

(** X4. The toggle [WRITE_TO_INFLUX] is read without regard to case: the
    write branch is taken exactly when the value is the four letters of
    [true], each in either case.  Values such as [1], [yes] or [on] do not
    enable it. *)
Theorem toggle_is_read_without_case (s : string) :
  String.eqb (toLowerCase s) "true" = true
  <-> exists a b c d,
        s = String a (String b (String c (String d "")))
        /\ same_letter a "t" /\ same_letter b "r"
        /\ same_letter c "u" /\ same_letter d "e".
Proof.
  rewrite String.eqb_eq. split.
  - destruct s as [|a [|b [|c [|d [|x s]]]]]; cbn [toLowerCase]; try discriminate.
    intros [= Ha Hb Hc Hd]. exists a, b, c, d. split; [reflexivity|].
    repeat split; apply lower_ascii_letter; cbn; auto.
  - intros (a & b & c & d & -> & Ha & Hb & Hc & Hd). cbn [toLowerCase].
    apply lower_ascii_letter in Ha, Hb, Hc, Hd; cbn; auto 6.
    now rewrite Ha, Hb, Hc, Hd.
Qed.

Section Legacy.
Context {R : Runtime} {S : Type} {C : Client S}.

Lemma legacy_field_run (data : value) (k : string) (v : value) (p : Point) :
  get data k = inr v ->
  legacy_field data k p
  = match float_of v with
    | inl e => inl e
    | inr val =>
        if isFinite val
        then inr (mkPoint (p_name p) (p_tags p)
                    (<[k := FloatField val]> (p_fields p)) (p_time p))
        else inl (Error ("invalid float value for field '" +:+ k +:+ "': '"
                         +:+ string_of v +:+ "'!"))
    end.
Proof.
  intros Hv. unfold legacy_field. rewrite Hv. cbn [bind Monad_result].
  unfold floatField, float_of. destruct v; try reflexivity;
    cbn [bind ret Monad_result]; now destruct (ToString _).
Qed.

Lemma legacy_field_inv (data : value) (k : string) (p q : Point) :
  legacy_field data k p = inr q ->
  exists v n,
    get data k = inr v /\ (float_of v = inr n /\ isFinite n = true)
    /\ q = mkPoint (p_name p) (p_tags p)
             (<[k := FloatField n]> (p_fields p)) (p_time p).
Proof.
  intros H. destruct (get data k) as [e|v] eqn:Hv.
  { unfold legacy_field in H. rewrite Hv in H. discriminate. }
  rewrite (legacy_field_run _ _ _ _ Hv) in H.
  destruct (float_of v) as [e|n] eqn:Hn; [discriminate|].
  destruct (isFinite n) eqn:Fn; [|discriminate].
  injection H as <-. exists v, n. auto.
Qed.

(** The point of the older server, when it is built: every link of the
    chain found a finite float. *)
Lemma legacy_point_inv (data : value) (p : Point) :
  legacy_point data = inr p ->
  exists d u i tb tc sp ax ay az nu ni ntb ntc nsp nax nay naz,
    get data "device_id" = inr d
    /\ get data "u_batt_v" = inr u /\ (float_of u = inr nu /\ isFinite nu = true)
    /\ get data "i_batt_a" = inr i /\ (float_of i = inr ni /\ isFinite ni = true)
    /\ get data "t_batt_c" = inr tb /\ (float_of tb = inr ntb /\ isFinite ntb = true)
    /\ get data "t_ctrl_c" = inr tc /\ (float_of tc = inr ntc /\ isFinite ntc = true)
    /\ get data "speed_kmh" = inr sp /\ (float_of sp = inr nsp /\ isFinite nsp = true)
    /\ get data "ax_ms2" = inr ax /\ (float_of ax = inr nax /\ isFinite nax = true)
    /\ get data "ay_ms2" = inr ay /\ (float_of ay = inr nay /\ isFinite nay = true)
    /\ get data "az_ms2" = inr az /\ (float_of az = inr naz /\ isFinite naz = true)
    /\ p = mkPoint "scooter" {[ "device_id" := d ]}
             (channel_fields nu ni ntb ntc nsp nax nay naz) None.
Proof.
  intros H. unfold legacy_point in H. cbn [bind ret Monad_result] in H.
  destruct (get data "device_id") as [e|d] eqn:Hd; [discriminate H|].
  cbn [tag new_Point p_name p_tags p_fields p_time] in H.
  do 7 match type of H with
       | match ?x with inl _ => _ | inr _ => _ end = inr _ =>
           let F := fresh "F" in
           destruct x as [?|?] eqn:F; [discriminate H|];
           apply legacy_field_inv in F as (? & ? & ? & ? & ->);
           cbn [p_name p_tags p_fields p_time] in H
       end.
  apply legacy_field_inv in H as (? & ? & ? & ? & ->).
  cbn [p_name p_tags p_fields p_time].
  do 17 eexists.
  repeat (split; [eassumption || reflexivity|]).
  reflexivity.
Qed.

(** The run of the older handler, by what the parser and the point
    builder give. *)
Lemma on_message_legacy_run (message : string) (w : World S) :
  on_message_legacy message w
  = match JSON_parse message with
    | inl e => (inr tt, emit (EvLog Stderr [VStr "[MQTT ERROR]"; VStr (e_message e)]) w)
    | inr data =>
        let w1 := emit (EvLog Stdout [VStr "[MQTT] Message:"; data]) w in
        match legacy_point data with
        | inl e => (inr tt, emit (EvLog Stderr [VStr "[MQTT ERROR]";
                                               VStr (e_message e)]) w1)
        | inr p =>
            let l := mkLine p (convertTime PrecNS (now w) (p_time p)) in
            match writeLine (store w) l with
            | inl e => (inr tt, emit (EvLog Stderr [VStr "[MQTT ERROR]";
                                                   VStr (e_message e)]) w1)
            | inr s' => (inr tt, emit (EvWrite l) (set_store s' w1))
            end
        end
    end.
Proof.
  unfold on_message_legacy. run_eff.
  destruct (JSON_parse message) as [e|data]; [reflexivity|].
  cbn [emit store now clients trace].
  destruct (legacy_point data) as [e|p]; [reflexivity|].
  cbv zeta. cbn [emit store now clients trace].
  destruct (writeLine (store w) _); reflexivity.
Qed.

(** X5. The message handler of the older server never sends anything to
    a viewer (that server has no live fan-out) and never throws: on every
    message it returns normally, leaves the viewers and the clock as they
    were, writes at most one line, and changes the store only when it
    wrote one. *)
Theorem on_message_legacy_never_sends (message : string) (w : World S) :
  exists (w' : World S) (t : list Event),
    on_message_legacy message w = (inr tt, w')
    /\ clients w' = clients w
    /\ now w' = now w
    /\ trace w' = trace w ++ t
    /\ sends t = []
    /\ (length (writes t) <= 1)%nat
    /\ (writes t = [] -> store w' = store w).
Proof.
  rewrite on_message_legacy_run.
  destruct (JSON_parse message) as [e|data].
  - eexists _, [_]. split; [reflexivity|]. cbn. auto 10.
  - cbv zeta. destruct (legacy_point data) as [e|p].
    + eexists _, [_; _]. split; [reflexivity|].
      cbn [emit clients now trace store]. rewrite <- app_assoc. cbn. auto 10.
    + destruct (writeLine (store w) _) as [e|s'].
      * eexists _, [_; _]. split; [reflexivity|].
        cbn [emit clients now trace store]. rewrite <- app_assoc. cbn. auto 10.
      * eexists _, [_; _]. split; [reflexivity|].
        cbn [emit set_store clients now trace store]. rewrite <- app_assoc. cbn.
        repeat split; auto. discriminate.
Qed.

(** X6. The older server writes complete records only.  When the value of
    a channel is neither a finite number nor a text that [parseFloat]
    reads as one — the channel is absent, say, or its conversion to text
    throws — [floatField] refuses it: the handler prints the record and
    the error, sends nothing, writes nothing and leaves the store
    untouched.  (The current server writes [0] for an absent channel.) *)
Theorem legacy_drops_incomplete_records (message : string) (data : value)
        (c : string) (v : value) (w : World S) :
  JSON_parse message = inr data ->
  In c channels ->
  get data c = inr v ->
  (forall n, float_of v = inr n -> isFinite n = false) ->
  exists e,
    legacy_point data = inl e
    /\ on_message_legacy message w
       = (inr tt,
          mkWorld (clients w) (store w) (now w)
            (trace w ++ [EvLog Stdout [VStr "[MQTT] Message:"; data];
                         EvLog Stderr [VStr "[MQTT ERROR]"; VStr (e_message e)]])).
Proof.
  intros Hparse Hc Hv Hnf.
  destruct (legacy_point data) as [e|p] eqn:Hp.
  - exists e. split; [reflexivity|].
    rewrite on_message_legacy_run, Hparse. cbv zeta. rewrite Hp.
    unfold emit. cbn [clients store now trace]. now rewrite <- app_assoc.
  - exfalso.
    destruct (legacy_point_inv data p Hp)
      as (d & u & i & tb & tc & sp & ax & ay & az
          & nu & ni & ntb & ntc & nsp & nax & nay & naz & _
          & Hu & [Nu Fu] & Hi & [Ni Fi] & Htb & [Ntb Ftb] & Htc & [Ntc Ftc]
          & Hsp & [Nsp Fsp] & Hax & [Nax Fax] & Hay & [Nay Fay]
          & Haz & [Naz Faz] & _).
    unfold channels in Hc. cbn in Hc.
    repeat (destruct Hc as [<-|Hc];
            [ match goal with
              | Hget : get data ?k = inr ?x, Hn : float_of ?x = inr ?m |- _ =>
                  rewrite Hv in Hget; injection Hget as <-;
                  specialize (Hnf _ Hn); congruence
              end | ]).
    contradiction.
Qed.

End Legacy.

(** The record of [m365-01] has no [i_batt_a]: the older handler logs it
    and the refusal of the field, and writes nothing. *)
Lemma legacy_drops_incomplete_records_witness :
  JSON_parse Examples.payload = inr Examples.record
  /\ In "i_batt_a" channels
  /\ get Examples.record "i_batt_a" = inr VUndefined
  /\ (forall n, float_of VUndefined = inr n -> isFinite n = false)
  /\ writes (trace (snd (on_message_legacy Examples.payload Examples.world0))) = []
  /\ Ref.buffer (store (snd (on_message_legacy Examples.payload Examples.world0))) = [].
Proof.
  assert (JSON_parse Examples.payload = inr Examples.record) as Hparse
      by (vm_compute; reflexivity).
  assert (In "i_batt_a" channels) as Hc by (cbn; tauto).
  assert (get Examples.record "i_batt_a" = inr VUndefined) as Hv by reflexivity.
  assert (forall n, float_of VUndefined = inr n -> isFinite n = false) as Hnf.
  { intros n Hn. vm_compute in Hn. injection Hn as <-. reflexivity. }
  repeat (split; [assumption|]).
  destruct (legacy_drops_incomplete_records Examples.payload Examples.record
              "i_batt_a" VUndefined Examples.world0 Hparse Hc Hv Hnf)
    as (e & _ & ->).
  split; reflexivity.
Defined.

Section TwoServers.
Context {R : Runtime}.

(** X7. On a record that gives [device_id] as a string and every channel
    as a finite number, the older server always builds its point, and the
    current server builds one exactly when [fw_src] and a truthy [ts]
    convert (to a string, to a date).  The two points then agree up to
    what the current server adds: the same measurement, the same
    [device_id] tag and the same eight floats; the current server adds the
    string field [fw_src] (and the timestamp of [ts]), the older one sets
    no timestamp. *)
Theorem servers_agree_on_full_records (data : value) (id : string) :
  get data "device_id" = inr (VStr id) ->
  (forall c, In c channels ->
     exists n, get data c = inr (VNum n) /\ isFinite n = true) ->
  exists (p : Point) (f ts : value),
    legacy_point data = inr p
    /\ get data "fw_src" = inr f
    /\ get data "ts" = inr ts
    /\ p_time p = None
    /\ (forall p',
          ingest_point data = inr p' ->
          p_name p' = p_name p
          /\ p_tags p' = p_tags p
          /\ (exists fw,
                ToString (nullish f (VStr "unknown")) = inr fw
                /\ p_fields p' = <["fw_src" := StringField fw]> (p_fields p))
          /\ (forall c, In c channels -> float_field p' c = float_field p c))
    /\ ((exists p', ingest_point data = inr p')
        <-> converts (nullish f (VStr "unknown")) = true
            /\ (truthy ts = true -> converts ts = true)).
Proof.
  intros Hd Hch.
  destruct (Hch "u_batt_v") as (nu & Hu & Fu); [cbn; tauto|].
  destruct (Hch "i_batt_a") as (ni & Hi & Fi); [cbn; tauto|].
  destruct (Hch "t_batt_c") as (ntb & Htb & Ftb); [cbn; tauto|].
  destruct (Hch "t_ctrl_c") as (ntc & Htc & Ftc); [cbn; tauto|].
  destruct (Hch "speed_kmh") as (nsp & Hsp & Fsp); [cbn; tauto|].
  destruct (Hch "ax_ms2") as (nax & Hax & Fax); [cbn; tauto|].
  destruct (Hch "ay_ms2") as (nay & Hay & Fay); [cbn; tauto|].
  destruct (Hch "az_ms2") as (naz & Haz & Faz); [cbn; tauto|].
  destruct (get_total _ _ _ Hd "fw_src") as [f Hf].
  destruct (get_total _ _ _ Hd "ts") as [ts Hts].
  exists (mkPoint "scooter" {[ "device_id" := VStr id ]}
            (channel_fields nu ni ntb ntc nsp nax nay naz) None), f, ts.
  split.
  { unfold legacy_point. rewrite Hd. cbn [bind ret Monad_result tag new_Point].
    rewrite (legacy_field_run _ _ _ _ Hu); cbn [float_of]; rewrite Fu;
      cbn [bind Monad_result p_name p_tags p_fields p_time].
    rewrite (legacy_field_run _ _ _ _ Hi); cbn [float_of]; rewrite Fi;
      cbn [bind Monad_result p_name p_tags p_fields p_time].
    rewrite (legacy_field_run _ _ _ _ Htb); cbn [float_of]; rewrite Ftb;
      cbn [bind Monad_result p_name p_tags p_fields p_time].
    rewrite (legacy_field_run _ _ _ _ Htc); cbn [float_of]; rewrite Ftc;
      cbn [bind Monad_result p_name p_tags p_fields p_time].
    rewrite (legacy_field_run _ _ _ _ Hsp); cbn [float_of]; rewrite Fsp;
      cbn [bind Monad_result p_name p_tags p_fields p_time].
    rewrite (legacy_field_run _ _ _ _ Hax); cbn [float_of]; rewrite Fax;
      cbn [bind Monad_result p_name p_tags p_fields p_time].
    rewrite (legacy_field_run _ _ _ _ Hay); cbn [float_of]; rewrite Fay;
      cbn [bind Monad_result p_name p_tags p_fields p_time].
    rewrite (legacy_field_run _ _ _ _ Haz); cbn [float_of]; rewrite Faz.
    reflexivity. }
  split; [exact Hf|]. split; [exact Hts|]. split; [reflexivity|].
  split.
  - intros p' Hp'.
    destruct (ingest_point_inv data p' Hp')
      as (d' & u & i & tb & tc & sp & ax & ay & az & f' & ts' & id'
          & mu & mi & mtb & mtc & msp & max & may & maz & fw
          & Hd' & Hu' & Hi' & Htb' & Htc' & Hsp' & Hax' & Hay' & Haz' & Hf' & _
          & Hid & Mu & Mi & Mtb & Mtc & Msp & Max & May & Maz & Hfw
          & _ & Hname & Htags & Hfields).
    rewrite Hd in Hd'. injection Hd' as <-. rewrite Hf in Hf'. injection Hf' as <-.
    rewrite Hu in Hu'. injection Hu' as <-. rewrite Hi in Hi'. injection Hi' as <-.
    rewrite Htb in Htb'. injection Htb' as <-. rewrite Htc in Htc'. injection Htc' as <-.
    rewrite Hsp in Hsp'. injection Hsp' as <-. rewrite Hax in Hax'. injection Hax' as <-.
    rewrite Hay in Hay'. injection Hay' as <-. rewrite Haz in Haz'. injection Haz' as <-.
    rewrite toNum_finite_number in Mu, Mi, Mtb, Mtc, Msp, Max, May, Maz by assumption.
    injection Mu as <-. injection Mi as <-. injection Mtb as <-. injection Mtc as <-.
    injection Msp as <-. injection Max as <-. injection May as <-. injection Maz as <-.
    cbn in Hid. injection Hid as <-.
    cbn [p_name p_tags p_fields].
    split; [exact Hname|]. split; [exact Htags|].
    split; [exists fw; auto|].
    intros c Hc. unfold float_field. rewrite Hfields. cbn [p_fields].
    rewrite lookup_insert_ne; [reflexivity|].
    unfold channels in Hc. cbn in Hc. intuition (subst; discriminate).
  - split.
    + intros [p' Hp'].
      destruct (ingest_point_inv data p' Hp')
        as (d' & u & i & tb & tc & sp & ax & ay & az & f' & ts' & id'
            & mu & mi & mtb & mtc & msp & max & may & maz & fw
            & _ & _ & _ & _ & _ & _ & _ & _ & _ & Hf' & Hts'
            & _ & _ & _ & _ & _ & _ & _ & _ & _ & Hfw & Htime & _).
      rewrite Hf in Hf'. injection Hf' as <-. rewrite Hts in Hts'. injection Hts' as <-.
      split; [exact (proj1 (ToString_inr _ _ Hfw))|].
      intros Htruthy. rewrite Htruthy in Htime. destruct Htime as (t & Ht & _).
      exact (proj1 (new_Date_inr _ _ Ht)).
    + intros [Hfw Hdate]. unfold ingest_point. rewrite Hd.
      cbn [bind ret Monad_result nullish]. change (ToString (VStr id)) with (@inr exn _ id).
      cbn [bind ret Monad_result tag new_Point].
      rewrite (ingest_field_run _ _ _ _ _ Hu (toNum_finite_number _ Fu));
        cbn [bind Monad_result p_name p_tags p_fields p_time].
      rewrite (ingest_field_run _ _ _ _ _ Hi (toNum_finite_number _ Fi));
        cbn [bind Monad_result p_name p_tags p_fields p_time].
      rewrite (ingest_field_run _ _ _ _ _ Htb (toNum_finite_number _ Ftb));
        cbn [bind Monad_result p_name p_tags p_fields p_time].
      rewrite (ingest_field_run _ _ _ _ _ Htc (toNum_finite_number _ Ftc));
        cbn [bind Monad_result p_name p_tags p_fields p_time].
      rewrite (ingest_field_run _ _ _ _ _ Hsp (toNum_finite_number _ Fsp));
        cbn [bind Monad_result p_name p_tags p_fields p_time].
      rewrite (ingest_field_run _ _ _ _ _ Hax (toNum_finite_number _ Fax));
        cbn [bind Monad_result p_name p_tags p_fields p_time].
      rewrite (ingest_field_run _ _ _ _ _ Hay (toNum_finite_number _ Fay));
        cbn [bind Monad_result p_name p_tags p_fields p_time].
      rewrite (ingest_field_run _ _ _ _ _ Haz (toNum_finite_number _ Faz));
        cbn [bind Monad_result p_name p_tags p_fields p_time].
      rewrite Hf, (ToString_converts _ Hfw), Hts. cbn [bind ret Monad_result].
      destruct (truthy ts); [|eauto].
      rewrite (new_Date_converts _ (Hdate eq_refl)). cbn [bind ret Monad_result]. eauto.
Qed.

End TwoServers.

(** A record of [m365-01] with its eight channels and neither [fw_src]
    nor [ts]: both servers build their point. *)
Lemma servers_agree_on_full_records_witness :
  get full_record "device_id" = inr (VStr "m365-01")
  /\ (forall c, In c channels ->
        exists n, get full_record c = inr (VNum n) /\ isFinite n = true)
  /\ exists p p',
       legacy_point full_record = inr p
       /\ ingest_point full_record = inr p'
       /\ p_tags p' = p_tags p
       /\ float_field p' "u_batt_v" = float_field p "u_batt_v".
Proof.
  assert (forall c, In c channels ->
            exists n, get full_record c = inr (VNum n) /\ isFinite n = true) as Hch.
  { intros c Hc. unfold channels in Hc. cbn in Hc.
    repeat (destruct Hc as [<-|Hc]; [eexists; split; reflexivity|]).
    contradiction. }
  split; [reflexivity|]. split; [exact Hch|].
  destruct (servers_agree_on_full_records full_record "m365-01" eq_refl Hch)
    as (p & f & ts & Hp & Hf & Hts & _ & Hagree & Hbuilt).
  destruct (proj2 Hbuilt) as [p' Hp'].
  { cbn in Hf, Hts. injection Hf as <-. injection Hts as <-. split; [reflexivity|].
    discriminate. }
  destruct (Hagree p' Hp') as (_ & Htags & _ & Hfloat).
  exists p, p'. repeat split; trivial. apply Hfloat. cbn. tauto.
Defined.

Section Greeting.
Context {R : Runtime} {S : Type}.

(** [safeSend] sends the JSON of [obj] to [ws] when its socket is open
    and the send does not throw, and is silent otherwise. *)
Lemma safeSend_run (ws : Viewer) (obj : value) (w : World S) :
  safeSend ws obj w
  = (inr tt, mkWorld (clients w) (store w) (now w)
               (trace w ++ deliveries (JSON_stringify obj) [ws])).
Proof.
  unfold safeSend, try_catch, ws_send, deliveries, deliverable, tell, lift.
  cbn [List.filter List.map].
  destruct (readyState ws =? 1); cbn.
  - destruct (send_result ws (JSON_stringify obj)) eqn:E; cbn.
    + rewrite app_nil_r. now destruct w.
    + reflexivity.
  - rewrite app_nil_r. now destruct w.
Qed.

(** X8. The greeting of a new viewer never throws and touches no other
    viewer: the trace gains one send to the new socket, of the JSON of
    [{type: "hello", ts: <ISO text of the clock>}], when that socket is
    open and its [send] succeeds, and gains nothing otherwise; the store,
    the clock and the set of viewers are as before. *)
Theorem greeting_reaches_only_the_new_viewer (toISOString : Z -> string)
        (ws : Viewer) (w : World S) :
  let frame := JSON_stringify (VObj [("type", VStr "hello");
                                     ("ts", VStr (toISOString (now w)))]) in
  exists t : list Event,
    on_connection toISOString ws w
    = (inr tt, mkWorld (clients w) (store w) (now w) (trace w ++ t))
    /\ (readyState ws = 1 -> send_result ws frame = None ->
        t = [EvSend (vid ws) frame])
    /\ (readyState ws <> 1 \/ send_result ws frame <> None -> t = [])
    /\ (forall v f, In (EvSend v f) t -> v = vid ws /\ f = frame).
Proof.
  intros frame. exists (deliveries frame [ws]).
  split; [unfold on_connection; apply safeSend_run|].
  unfold deliveries, deliverable. cbn [List.filter List.map].
  split; [|split].
  - intros -> ->. reflexivity.
  - intros [Hr|Hs].
    + apply Z.eqb_neq in Hr. now rewrite Hr.
    + destruct (readyState ws =? 1); [|reflexivity].
      cbn. now rewrite bool_decide_eq_false_2.
  - intros v f Hin.
    destruct ((readyState ws =? 1) && bool_decide (send_result ws frame = None));
      cbn in Hin; [|contradiction].
    destruct Hin as [[= <- <-]|[]]. auto.
Qed.

(** [/health] answers 200 with the number of sockets in [wss.clients],
    open or not; no broadcast reaches more viewers than that. *)
Lemma health_run (connected : bool) (w : World S) (frame : string) :
  health connected w
  = (inr tt,
     emit (EvRespond 200
             (BJson (VObj [("ok", VBool true); ("mqtt", VBool connected);
                           ("wsClients",
                            VNum (of_Z (Z.of_nat (length (clients w)))))]))) w)
  /\ (length (deliveries frame (clients w)) <= length (clients w))%nat.
Proof.
  split; [reflexivity|].
  unfold deliveries. rewrite length_map. apply List.filter_length_le.
Qed.

End Greeting.

(** The greeting at 2023-11-14T22:13:20.999Z, to an open socket and to a
    closing one. *)
Example greeting_of_two_viewers :
  trace (snd (on_connection toISOString_ref open_viewer Examples.world0))
  = [EvSend 7 ("{" +:+ Examples.q "type" +:+ ":" +:+ Examples.q "hello" +:+ ","
                   +:+ Examples.q "ts" +:+ ":"
                   +:+ Examples.q "2023-11-14T22:13:20.999Z" +:+ "}")]
  /\ trace (snd (on_connection toISOString_ref closing_viewer Examples.world0)) = [].
Proof. split; vm_compute; reflexivity. Qed.

(** ** The list of requested fields *)

(** No piece of [split] holds the separator. *)
Lemma split_pieces_free (c : ascii) (s : string) :
  forall x, In x (split c s) -> mem_char c x = false.
Proof.
  induction s as [|a s IH]; intros x Hx.
  - destruct Hx as [<-|[]]. reflexivity.
  - cbn [split] in Hx. destruct (Ascii.eqb a c) eqn:E.
    + destruct Hx as [<-|Hx]; [reflexivity | now apply IH].
    + destruct (split c s) as [|y ys] eqn:Es.
      * destruct Hx as [<-|[]]. cbn. now rewrite E.
      * destruct Hx as [<-|Hx].
        -- cbn. rewrite E. apply IH. now left.
        -- apply IH. now right.
Qed.

(** A string without the separator is its own single piece. *)
Lemma split_free (c : ascii) (s : string) :
  mem_char c s = false -> split c s = [s].
Proof.
  induction s as [|a s IH]; [reflexivity|].
  cbn. intros H. apply orb_false_iff in H as [Ha Hs].
  now rewrite Ha, IH.
Qed.

(** [split] undoes one step of [join]. *)
Lemma split_cons (c : ascii) (x s : string) :
  mem_char c x = false -> split c (x +:+ String c s) = x :: split c s.
Proof.
  induction x as [|a x IH]; intros H.
  - change ("" +:+ String c s) with (String c s).
    cbn [split]. now rewrite Ascii.eqb_refl.
  - cbn [mem_char] in H. apply orb_false_iff in H as [Ha Hx].
    change (String a x +:+ String c s) with (String a (x +:+ String c s)).
    cbn [split]. rewrite Ha, IH by exact Hx. reflexivity.
Qed.

Lemma split_join (c : ascii) (names : list string) :
  names <> [] ->
  Forall (fun n => mem_char c n = false) names ->
  split c (join (String c "") names) = names.
Proof.
  induction names as [|x [|y rest] IH]; intros Hne Hall; [contradiction| |].
  - cbn. apply split_free. now inversion Hall.
  - inversion Hall as [|? ? Hx Hrest]; subst.
    change (join (String c "") (x :: y :: rest))
      with (x +:+ String c (join (String c "") (y :: rest))).
    rewrite split_cons by exact Hx. f_equal. now apply IH.
Qed.

(** *** [trim] *)

Lemma append_cons (a : ascii) (s x : string) :
  String a s +:+ x = String a (s +:+ x).
Proof. reflexivity. Qed.

Lemma append_nil (x : string) : "" +:+ x = x.
Proof. reflexivity. Qed.

(** [trimStart] drops one white space code point and goes on, or
    stops. *)
Lemma trimStart_unfold (s : string) :
  trimStart s = match space_head s with
                | Some r => trimStart r
                | None => s
                end.
Proof.
  destruct s as [|a r1]; [reflexivity|].
  cbn [trimStart space_head]. destruct (is_space a); [reflexivity|].
  destruct r1 as [|b r2]; [reflexivity|].
  destruct (is_space2 a b); [reflexivity|].
  destruct r2 as [|c r3]; [reflexivity|].
  destruct (is_space3 a b c); reflexivity.
Qed.

(** A white space code point at the head is one to three bytes, and is
    recognised from these bytes alone. *)
Lemma space_head_inv (s r : string) :
  space_head s = Some r ->
  (exists a, s = String a r)
  \/ (exists a b, s = String a (String b r))
  \/ (exists a b c, s = String a (String b (String c r))).
Proof.
  destruct s as [|a r1]; [discriminate|].
  cbn [space_head]. destruct (is_space a); [intros [= <-]; eauto|].
  destruct r1 as [|b r2]; [discriminate|].
  destruct (is_space2 a b); [intros [= <-]; eauto|].
  destruct r2 as [|c r3]; [discriminate|].
  destruct (is_space3 a b c); [intros [= <-]; eauto 6|discriminate].
Qed.

Lemma space_head_length (s r : string) :
  space_head s = Some r -> (String.length r < String.length s)%nat.
Proof.
  intros H.
  destruct (space_head_inv s r H) as [(a & ->)|[(a & b & ->)|(a & b & c & ->)]];
    cbn; lia.
Qed.

Lemma space_head_app (s r x : string) :
  space_head s = Some r -> space_head (s +:+ x) = Some (r +:+ x).
Proof.
  destruct s as [|a r1]; [discriminate|].
  rewrite append_cons. cbn [space_head].
  destruct (is_space a); [intros [= <-]; reflexivity|].
  destruct r1 as [|b r2]; [discriminate|].
  rewrite append_cons. destruct (is_space2 a b); [intros [= <-]; reflexivity|].
  destruct r2 as [|c r3]; [discriminate|].
  rewrite append_cons. destruct (is_space3 a b c); [intros [= <-]; reflexivity|].
  discriminate.
Qed.

Lemma space_head_mem (c : ascii) (s r : string) :
  space_head s = Some r -> mem_char c s = false -> mem_char c r = false.
Proof.
  intros H.
  destruct (space_head_inv s r H) as [(a & ->)|[(a & b & ->)|(a & b & d & ->)]];
    cbn [mem_char]; intros Hm;
    repeat (apply orb_false_iff in Hm as [_ Hm]); exact Hm.
Qed.

(** Induction along the white space that [trimStart] drops. *)
Lemma trimStart_ind (P : string -> Prop) :
  (forall s, space_head s = None -> P s) ->
  (forall s r, space_head s = Some r -> P r -> P s) ->
  forall s, P s.
Proof.
  intros Hstop Hstep s.
  remember (String.length s) as n eqn:Hn.
  revert s Hn. induction n as [n IH] using lt_wf_ind. intros s ->.
  destruct (space_head s) as [r|] eqn:E; [|now apply Hstop].
  apply (Hstep s r E). apply (IH (String.length r)); [|reflexivity].
  now apply space_head_length.
Qed.

(** What [trimStart] returns has no white space at its head. *)
Lemma trimStart_head (s : string) : space_head (trimStart s) = None.
Proof.
  induction s as [s E|s r E IH] using trimStart_ind;
    rewrite trimStart_unfold, E; assumption.
Qed.

Lemma trimStart_fixed (s : string) : trimStart s = s <-> space_head s = None.
Proof.
  split.
  - intros H. rewrite <- H. apply trimStart_head.
  - intros E. now rewrite trimStart_unfold, E.
Qed.

Lemma trimStart_idem (s : string) : trimStart (trimStart s) = trimStart s.
Proof. apply trimStart_fixed, trimStart_head. Qed.

Lemma mem_char_trimStart (c : ascii) (s : string) :
  mem_char c s = false -> mem_char c (trimStart s) = false.
Proof.
  induction s as [s E|s r E IH] using trimStart_ind;
    rewrite trimStart_unfold, E; [trivial|].
  intros H. apply IH. exact (space_head_mem c s r E H).
Qed.

(** White space in front of a string does not change what [trimStart]
    gives. *)
Lemma trimStart_app_blank (a b : string) :
  trimStart a = "" -> trimStart (a +:+ b) = trimStart b.
Proof.
  induction a as [a E|a r E IH] using trimStart_ind.
  - rewrite trimStart_unfold, E. intros ->. reflexivity.
  - rewrite trimStart_unfold, E. intros Hr.
    rewrite (trimStart_unfold (a +:+ b)), (space_head_app a r b E).
    now apply IH.
Qed.

Lemma trimEnd_cons (c : ascii) (rest : string) :
  trimEnd (String c rest)
  = if String.eqb (trimStart (String c rest)) "" then ""
    else String c (trimEnd rest).
Proof. reflexivity. Qed.

(** [trimEnd] cuts a tail of white space off. *)
Lemma trimEnd_split (s : string) :
  exists tail, s = trimEnd s +:+ tail /\ trimStart tail = "".
Proof.
  induction s as [|c rest (tail & Hrest & Htail)]; [now exists ""|].
  rewrite trimEnd_cons.
  destruct (String.eqb (trimStart (String c rest)) "") eqn:E.
  - exists (String c rest). split; [reflexivity|]. now apply String.eqb_eq.
  - exists tail. split; [|exact Htail].
    rewrite append_cons. now rewrite <- Hrest.
Qed.

(** What is kept of a string that is not all white space is not all
    white space. *)
Lemma trimEnd_not_blank (s : string) :
  trimStart s <> "" -> trimStart (trimEnd s) <> "".
Proof.
  intros Hs Hblank. apply Hs.
  destruct (trimEnd_split s) as (tail & Hsplit & Htail).
  rewrite Hsplit. now rewrite trimStart_app_blank.
Qed.

Lemma trimEnd_idem (s : string) : trimEnd (trimEnd s) = trimEnd s.
Proof.
  induction s as [|c rest IH]; [reflexivity|].
  rewrite trimEnd_cons.
  destruct (String.eqb (trimStart (String c rest)) "") eqn:E; [reflexivity|].
  assert (trimStart (String c (trimEnd rest)) <> "") as Hkept.
  { pose proof E as E0. apply String.eqb_neq in E0.
    apply trimEnd_not_blank in E0. rewrite trimEnd_cons, E in E0. exact E0. }
  rewrite trimEnd_cons. apply String.eqb_neq in Hkept. rewrite Hkept.
  now rewrite IH.
Qed.

(** [trimEnd] leaves the head of the string as it is. *)
Lemma trimStart_trimEnd (s : string) :
  trimStart s = s -> trimStart (trimEnd s) = trimEnd s.
Proof.
  intros H. apply trimStart_fixed in H. apply trimStart_fixed.
  destruct (space_head (trimEnd s)) as [r|] eqn:E; [|reflexivity].
  destruct (trimEnd_split s) as (tail & Hsplit & _).
  apply (space_head_app _ _ tail) in E. rewrite <- Hsplit in E. congruence.
Qed.

Lemma mem_char_trimEnd (c : ascii) (s : string) :
  mem_char c s = false -> mem_char c (trimEnd s) = false.
Proof.
  induction s as [|a s IH]; [reflexivity|].
  intros H. rewrite trimEnd_cons.
  destruct (String.eqb (trimStart (String a s)) ""); [reflexivity|].
  cbn [mem_char] in *. apply orb_false_iff in H as [Ha Hs].
  now rewrite Ha, IH.
Qed.

Lemma trim_idem (s : string) : trim (trim s) = trim s.
Proof.
  unfold trim. rewrite (trimStart_trimEnd (trimStart s)) by apply trimStart_idem.
  apply trimEnd_idem.
Qed.

Lemma join_cons_nonempty (sep x : string) (rest : list string) :
  x <> "" -> join sep (x :: rest) <> "".
Proof.
  intros Hx. destruct rest; cbn [join]; [exact Hx|].
  destruct x; [contradiction|]. discriminate.
Qed.

Section Fields.
Context {R : Runtime}.

(** X9. Every name that [/api/series] requests is clean: it is not
    empty, has no white space at either end (the white space of the
    language: that of ASCII, the no-break space, the Unicode spaces, the
    line and paragraph separators and the byte order mark) and holds no
    comma, whatever the text of the [fields] parameter was. *)
Theorem series_fields_are_clean (req : Request) (fields : list string)
        (f : string) :
  series_fields req = inr fields -> In f fields -> clean_name f.
Proof.
  intros Hfields Hf.
  apply series_fields_inv in Hfields as (text & _ & ->).
  apply List.filter_In in Hf as [Hf Hne].
  apply List.in_map_iff in Hf as (x & <- & Hx).
  repeat split.
  - cbn in Hne. intros E. rewrite E in Hne. discriminate.
  - apply trim_idem.
  - unfold trim. apply mem_char_trimEnd, mem_char_trimStart.
    now apply (split_pieces_free _ _ x Hx).
Qed.

(** X10. Round trip of the [fields] parameter: a non-empty list of clean
    names, joined with commas, is requested back exactly, in order and
    with repetitions. *)
Theorem series_fields_of_joined_names (req : Request) (names : list string) :
  names <> [] ->
  Forall clean_name names ->
  query req "fields" = VStr (join "," names) ->
  series_fields req = inr names.
Proof.
  intros Hne Hclean Hq. unfold series_fields, or_else. rewrite Hq.
  assert (truthy (VStr (join "," names)) = true) as Ht.
  { destruct names as [|x rest]; [contradiction|].
    inversion Hclean as [|? ? [Hx _] _]; subst.
    cbn [truthy]. apply negb_true_iff, String.eqb_neq.
    now apply join_cons_nonempty. }
  rewrite Ht. change (ToString (VStr (join "," names))) with (@inr exn _ (join "," names)).
  cbn [bind ret Monad_result]. f_equal.
  rewrite split_join; trivial.
  2:{ eapply Forall_impl; [exact Hclean|]. now intros n (_ & _ & Hn). }
  clear Hq Ht Hne. induction Hclean as [|n rest (Hn & Htrim & _) _ IH]; [reflexivity|].
  cbn [List.map List.filter]. rewrite Htrim.
  replace (truthy (VStr n)) with true; [now rewrite IH|].
  cbn [truthy]. apply String.eqb_neq in Hn. now rewrite Hn.
Qed.

(** X11. A [fields] parameter that is given but holds only commas and
    white space requests no field at all: the list is empty and so is the
    disjunction that the route puts between the parentheses of its
    filter.  The default names are not used in its place. *)
Theorem blank_fields_request_nothing (req : Request) (s : string) :
  query req "fields" = VStr s ->
  s <> "" ->
  (forall x, In x (split "," s) -> trim x = "") ->
  series_fields req = inr []
  /\ forall fields, series_fields req = inr fields -> fieldFilter fields = "".
Proof.
  intros Hq Hs Hblank.
  assert (series_fields req = inr []) as Hnil.
  { unfold series_fields, or_else. rewrite Hq. cbn [truthy].
    apply String.eqb_neq in Hs. rewrite Hs. cbn [negb].
    change (ToString (VStr s)) with (@inr exn _ s).
    cbn [bind ret Monad_result]. f_equal.
    induction (split "," s) as [|x xs IH]; [reflexivity|].
    cbn [List.map List.filter]. rewrite (Hblank x) by now left.
    change (truthy (VStr "")) with false. cbv iota.
    apply IH. intros y Hy. apply Hblank. now right. }
  split; [exact Hnil|]. intros fields Hfields.
  rewrite Hnil in Hfields. now injection Hfields as <-.
Qed.

End Fields.

(** The parameter [fields= u_batt_v, ,speed_kmh ], where the piece
    between the commas is a no-break space (U+00A0) and the last name is
    followed by an ideographic space (U+3000). *)
Lemma series_fields_are_clean_witness :
  series_fields (mkRequest "m365-01" [("fields", nbsp_fields)] VUndefined)
  = inr ["u_batt_v"; "speed_kmh"]
  /\ In "speed_kmh" ["u_batt_v"; "speed_kmh"]
  /\ clean_name "speed_kmh".
Proof.
  assert (series_fields (mkRequest "m365-01" [("fields", nbsp_fields)] VUndefined)
          = inr ["u_batt_v"; "speed_kmh"]) as Hfields by (vm_compute; reflexivity).
  assert (In "speed_kmh" ["u_batt_v"; "speed_kmh"]) as Hin by (right; now left).
  split; [exact Hfields|]. split; [exact Hin|].
  exact (series_fields_are_clean _ _ _ Hfields Hin).
Defined.

(** The parameter [fields=u_batt_v,speed_kmh,u_batt_v]. *)
Lemma series_fields_of_joined_names_witness :
  ["u_batt_v"; "speed_kmh"; "u_batt_v"] <> []
  /\ Forall clean_name ["u_batt_v"; "speed_kmh"; "u_batt_v"]
  /\ series_fields
       (mkRequest "m365-01" [("fields", VStr "u_batt_v,speed_kmh,u_batt_v")]
                  VUndefined)
     = inr ["u_batt_v"; "speed_kmh"; "u_batt_v"].
Proof.
  assert (Forall clean_name ["u_batt_v"; "speed_kmh"; "u_batt_v"]) as Hclean.
  { repeat constructor; discriminate. }
  split; [discriminate|]. split; [exact Hclean|].
  apply (series_fields_of_joined_names
           (mkRequest "m365-01" [("fields", VStr "u_batt_v,speed_kmh,u_batt_v")]
                      VUndefined)
           ["u_batt_v"; "speed_kmh"; "u_batt_v"]);
    [discriminate | exact Hclean | reflexivity].
Defined.

(** The parameter [fields= , ], where the piece after the comma is a
    no-break space (U+00A0). *)
Lemma blank_fields_request_nothing_witness :
  series_fields (mkRequest "m365-01" [("fields", VStr blank_fields)] VUndefined)
  = inr []
  /\ forall fields,
       series_fields (mkRequest "m365-01" [("fields", VStr blank_fields)] VUndefined)
       = inr fields ->
       fieldFilter fields = "".
Proof.
  apply (blank_fields_request_nothing
           (mkRequest "m365-01" [("fields", VStr blank_fields)] VUndefined)
           blank_fields);
    [reflexivity | discriminate |].
  intros x [<-|[<-|[]]]; reflexivity.
Defined.

Section QueryRoutes.
Context {R : Runtime} {S : Type} {C : Client S}.

(** X12. [/api/series] does no filtering, sorting or reshaping of its
    own.  Once its query text is made it asks the store once and answers
    once: with status 200 and exactly the rows the store returned, in the
    store's order, or with status 500 and [{error: String(err)}] when the
    query fails; it then does not throw and leaves the store, the viewers
    and the clock as they were.  The text is made whenever [fields] and
    [range] convert to strings, as text parameters do; where a conversion
    throws, the handler throws before its [try], with nothing queried and
    no response. *)
Theorem series_forwards_the_rows (cfg : Config) (req : Request) (w : World S) :
  (forall fields flux,
      series_fields req = inr fields ->
      series_flux cfg (or_else (query req "range") (VStr "60m"))
        (req_deviceId req) fields = inr flux ->
      exists (status : Z) (body : Body),
        api_series cfg req w
        = (inr tt, mkWorld (clients w) (store w) (now w)
                     (trace w ++ [EvQuery flux; EvRespond status body]))
        /\ (forall rows, collectRows (store w) flux = inr rows ->
              status = 200 /\ body = BRows rows)
        /\ (forall e, collectRows (store w) flux = inl e ->
              status = 500 /\ body = error_body e))
  /\ (forall e,
        series_fields req = inl e
        \/ (exists fields,
              series_fields req = inr fields
              /\ series_flux cfg (or_else (query req "range") (VStr "60m"))
                   (req_deviceId req) fields = inl e) ->
        api_series cfg req w = (inl e, w))
  /\ (converts (or_else (query req "fields") (VStr "u_batt_v,i_batt_a,speed_kmh"))
      = true
      /\ converts (or_else (query req "range") (VStr "60m")) = true
      <-> exists fields flux,
            series_fields req = inr fields
            /\ series_flux cfg (or_else (query req "range") (VStr "60m"))
                 (req_deviceId req) fields = inr flux).
Proof.
  split; [|split].
  - intros fields flux Hfields Hflux.
    rewrite (api_series_run cfg req w fields flux Hfields Hflux). unfold emit.
    cbn [clients store now trace]. rewrite <- app_assoc. cbn [app].
    eexists _, _. split; [reflexivity|].
    destruct (collectRows (store w) flux) as [e|rows]; split; intros x [= <-]; auto.
  - intros e. apply api_series_throws.
  - apply series_query_converts.
Qed.

(** X13. When the query of [/api/latest] fails, the route answers once,
    with status 500 and [{error: String(err)}]: no object is sent, the
    handler does not throw, and the store, the viewers and the clock are
    as before. *)
Theorem latest_reports_store_failure (cfg : Config) (req : Request)
        (w : World S) (flux : string) (e : exn) :
  latest_flux cfg (or_else (query req "range") (VStr "2h")) (req_deviceId req)
  = inr flux ->
  collectRows (store w) flux = inl e ->
  api_latest cfg req w
  = (inr tt, mkWorld (clients w) (store w) (now w)
               (trace w ++ [EvQuery flux; EvRespond 500 (error_body e)]))
  /\ responses (trace (snd (api_latest cfg req w)))
     = responses (trace w) ++ [(500, error_body e)].
Proof.
  intros Hflux He.
  assert (api_latest cfg req w
          = (inr tt, mkWorld (clients w) (store w) (now w)
                       (trace w ++ [EvQuery flux; EvRespond 500 (error_body e)])))
    as Hrun.
  { unfold api_latest. rewrite Hflux. run_eff. rewrite He. unfold emit.
    cbn [clients store now trace]. now rewrite <- app_assoc. }
  split; [exact Hrun|]. rewrite Hrun. cbn [snd trace].
  autorewrite with obs. reflexivity.
Qed.

(** X14. Last write wins, row by row.  Whatever rows the store returns,
    with fields repeated or not, the object of [/api/latest] holds under a
    field name (other than [ts] and [__proto__]) the value of the last row
    that has this field; this includes a field named [device_id], which
    replaces the identifier of the request. *)
Theorem latest_last_row_wins (cfg : Config) (req : Request) (w : World S)
        (flux : string) (before after : list Row) (r : Row) :
  latest_flux cfg (or_else (query req "range") (VStr "2h")) (req_deviceId req)
  = inr flux ->
  collectRows (store w) flux = inr (before ++ r :: after) ->
  (forall r', In r' after -> r_field r' <> r_field r) ->
  r_field r <> "ts" ->
  r_field r <> "__proto__" ->
  exists o : gmap string value,
    api_latest cfg req w
    = (inr tt, emit (EvRespond 200 (BObject o)) (emit (EvQuery flux) w))
    /\ o !! r_field r = Some (r_value r).
Proof.
  intros Hflux Hrows Hafter Hts Hproto.
  eexists. split; [exact (api_latest_run cfg req w flux _ Hflux Hrows)|].
  clear Hrows.
  generalize ({[ "device_id" := VStr (req_deviceId req) ]} : gmap string value).
  induction before as [|b before IH]; intros o.
  - cbn [app latest_loop]. rewrite latest_loop_other by auto.
    rewrite lookup_insert_ne by congruence.
    rewrite obj_assign_lookup by exact Hproto. apply lookup_insert_eq.
  - cbn [app latest_loop]. apply IH.
Qed.

(** X17. [/api/latest] makes its query text before its [try].  Where
    the conversion of [range] to a string throws (the parameter was parsed
    into an object with a key [toString], or into an array holding one),
    the handler throws that TypeError itself: the store is not queried and
    no response is sent.  This happens for no other request: a [range]
    that is absent or is a text always gives a query. *)
Theorem latest_throws_before_the_try (cfg : Config) (req : Request) (w : World S) :
  let range := or_else (query req "range") (VStr "2h") in
  (forall e,
      latest_flux cfg range (req_deviceId req) = inl e ->
      e = not_primitive /\ api_latest cfg req w = (inl e, w))
  /\ (converts range = true
      <-> exists flux, latest_flux cfg range (req_deviceId req) = inr flux)
  /\ (query req "range" = VUndefined \/ (exists s, query req "range" = VStr s) ->
      converts range = true).
Proof.
  intros range. split; [|split].
  - intros e He. split; [|now apply api_latest_throws].
    unfold latest_flux in He.
    destruct (ToString range) as [e'|r] eqn:E; cbn [bind ret Monad_result] in He;
      [|discriminate He].
    injection He as <-. now apply ToString_inl in E.
  - apply latest_flux_converts.
  - unfold range, or_else. intros [->|(s & ->)]; [reflexivity|].
    now destruct (truthy (VStr s)).
Qed.

End QueryRoutes.

(** A store that cannot be reached. *)
Lemma latest_reports_store_failure_witness :
  latest_flux Examples.cfg_on
    (or_else (query Examples.latest_req "range") (VStr "2h")) "m365-01"
  = inr Examples.latest_text
  /\ collectRows (store Examples.world_unreachable) Examples.latest_text
     = inl (Exn "RequestTimedOutError" "Request timed out")
  /\ responses (trace (snd (api_latest Examples.cfg_on Examples.latest_req
                              Examples.world_unreachable)))
     = [(500, BJson (VObj [("error",
                            VStr "RequestTimedOutError: Request timed out")]))].
Proof.
  assert (latest_flux Examples.cfg_on
            (or_else (query Examples.latest_req "range") (VStr "2h")) "m365-01"
          = inr Examples.latest_text) as Hflux by (vm_compute; reflexivity).
  split; [exact Hflux|]. split; [reflexivity|].
  exact (proj2 (latest_reports_store_failure Examples.cfg_on Examples.latest_req
                  Examples.world_unreachable _ _ Hflux eq_refl)).
Defined.

(** Two rows of [u_batt_v], 39.5 and then 40.1, followed by a row of
    another field: 40.1 is answered. *)
Lemma latest_last_row_wins_witness :
  latest_flux Examples.cfg_on
    (or_else (query Examples.latest_req "range") (VStr "2h")) "m365-01"
  = inr Examples.latest_text
  /\ collectRows (store (Examples.world_with repeated_rows)) Examples.latest_text
     = inr repeated_rows
  /\ exists o : gmap string value,
       responses (trace (snd (api_latest Examples.cfg_on Examples.latest_req
                                (Examples.world_with repeated_rows))))
       = [(200, BObject o)]
       /\ o !! "u_batt_v" = Some (VNum (decimal 401 (-1))).
Proof.
  assert (latest_flux Examples.cfg_on
            (or_else (query Examples.latest_req "range") (VStr "2h")) "m365-01"
          = inr Examples.latest_text) as Hflux by (vm_compute; reflexivity).
  assert (collectRows (store (Examples.world_with repeated_rows))
            Examples.latest_text
          = inr repeated_rows) as Hrows by (vm_compute; reflexivity).
  split; [exact Hflux|]. split; [exact Hrows|].
  destruct (latest_last_row_wins Examples.cfg_on Examples.latest_req
              (Examples.world_with repeated_rows) Examples.latest_text
              [mkRow "u_batt_v" (VNum (decimal 395 (-1))) (VStr "2025-09-26T10:00:00Z")]
              [mkRow "speed_kmh" (VNum (decimal 12 0)) (VStr "2025-09-26T10:00:03Z")]
              (mkRow "u_batt_v" (VNum (decimal 401 (-1))) (VStr "2025-09-26T10:00:05Z"))
              Hflux Hrows) as (o & Hrun & Ho).
  - intros r' [<-|[]]. discriminate.
  - discriminate.
  - discriminate.
  - exists o. rewrite Hrun. split; [reflexivity | exact Ho].
Defined.

Section ManualDefaults.
Context {R : Runtime}.

Lemma manual_defaults_finite (c : string) (dflt : number) :
  In (c, dflt) manual_defaults -> toNum (VNum dflt) = inr dflt.
Proof.
  unfold manual_defaults. cbn [In].
  intros H. repeat (destruct H as [[= <- <-]|H]; [reflexivity|]). contradiction.
Qed.

(** X15. The defaults of [POST /api/write] stand in for missing values
    only.  A channel that the body leaves out, or gives as [null], is
    written with its default (40.1 for [u_batt_v], ...); a channel that is
    given is written as [toNum] of its value, so a value that is present
    but not numeric is written as [0], not as the default.  Every float
    of the point is finite. *)
Theorem manual_defaults_fill_missing_only (body : value) (p : Point)
        (c : string) (dflt : number) (v : value) :
  manual_point body = inr p ->
  In (c, dflt) manual_defaults ->
  get (or_else body (VObj [])) c = inr v ->
  (exists n, toNum (nullish v (VNum dflt)) = inr n /\ float_field p c = Some n)
  /\ (v = VUndefined \/ v = VNull -> float_field p c = Some dflt)
  /\ (v <> VUndefined -> v <> VNull ->
      exists n, toNum v = inr n /\ float_field p c = Some n)
  /\ (v <> VUndefined -> v <> VNull ->
      (exists m, ToNumber v = inr m /\ isFinite m = false) ->
      float_field p c = Some pos_zero)
  /\ (forall k n, p_fields p !! k = Some (FloatField n) -> isFinite n = true).
Proof.
  intros Hp Hc Hv.
  destruct (manual_point_inv body p Hp)
    as (i & u & c' & tb & tc & sp & ax & ay & az & f & ts & id
        & nu & ni & ntb & ntc & nsp & nax & nay & naz & fw
        & Hi & Hu & Hc' & Htb & Htc & Hsp & Hax & Hay & Haz & Hf & Hts & Hid
        & Hnu & Hni & Hntb & Hntc & Hnsp & Hnax & Hnay & Hnaz & Hfw
        & _ & _ & _ & Hfields).
  assert (exists n, toNum (nullish v (VNum dflt)) = inr n /\ float_field p c = Some n)
    as (n & Hn & Hfield).
  { unfold manual_defaults in Hc. cbn [In] in Hc.
    unfold float_field. rewrite Hfields. unfold channel_fields.
    repeat (destruct Hc as [[= <- <-]|Hc];
            [ eexists; split; [|simplify_map_eq; reflexivity]; congruence | ]).
    contradiction. }
  split; [eauto|]. split; [|split; [|split]].
  - intros Hmissing. rewrite Hfield. f_equal.
    assert (nullish v (VNum dflt) = VNum dflt) as Hdflt
        by (destruct Hmissing as [->| ->]; reflexivity).
    rewrite Hdflt, (manual_defaults_finite c dflt Hc) in Hn. congruence.
  - intros H1 H2. exists n. split; [|exact Hfield].
    replace (nullish v (VNum dflt)) with v in Hn
      by (destruct v; cbn [nullish]; congruence).
    exact Hn.
  - intros H1 H2 (m & Hm & Hnf). rewrite Hfield. f_equal.
    replace (nullish v (VNum dflt)) with v in Hn
      by (destruct v; cbn [nullish]; congruence).
    rewrite (toNum_not_finite _ _ Hm Hnf) in Hn. congruence.
  - intros k n' Hk. rewrite Hfields in Hk.
    apply channel_fields_float in Hk. cbn [In] in Hk.
    repeat (destruct Hk as [<-|Hk]; [eapply toNum_finite; eassumption|]).
    contradiction.
Qed.

End ManualDefaults.

(** The body [{"u_batt_v": "n/a"}]: [u_batt_v] is written as 0, and
    [i_batt_a], which is missing, as 1.1. *)
Lemma manual_defaults_fill_missing_only_witness :
  exists p,
    manual_point (VObj [("u_batt_v", VStr "n/a")]) = inr p
    /\ float_field p "u_batt_v" = Some pos_zero
    /\ float_field p "i_batt_a" = Some lit_1_1.
Proof.
  destruct (manual_point (R := Ref.runtime) (VObj [("u_batt_v", VStr "n/a")]))
    as [e|p] eqn:Hp; [vm_compute in Hp; discriminate Hp|].
  exists p. split; [reflexivity|]. split.
  - refine (proj1 (proj2 (proj2 (proj2
              (manual_defaults_fill_missing_only
                 (VObj [("u_batt_v", VStr "n/a")]) p "u_batt_v" lit_40_1
                 (VStr "n/a") Hp _ _)))) _ _ _);
      [cbn; tauto | reflexivity | discriminate | discriminate
       | eexists; split; vm_compute; reflexivity].
  - refine (proj1 (proj2
              (manual_defaults_fill_missing_only
                 (VObj [("u_batt_v", VStr "n/a")]) p "i_batt_a" lit_1_1
                 VUndefined Hp _ _)) _);
      [cbn; tauto | reflexivity | now left].
Defined.

(** X16. The HTTP routes never send anything to a live viewer: a point
    written through [POST /api/write] is not broadcast, and the two query
    routes neither send nor write.  Each route leaves the viewers and the
    clock as they were; [/api/write] always returns normally and writes at
    most one line; a query route returns normally whenever its parameters
    convert to strings, as text parameters do. *)
Theorem routes_never_broadcast {R : Runtime} {S : Type} {C : Client S}
        (cfg : Config) (req : Request) (w : World S) :
  (let w' := snd (api_write req w) in
   fst (api_write req w) = inr tt
   /\ clients w' = clients w /\ now w' = now w
   /\ sends (trace w') = sends (trace w)
   /\ (length (writes (trace w')) <= length (writes (trace w)) + 1)%nat)
  /\ (let w' := snd (api_latest cfg req w) in
      (converts (or_else (query req "range") (VStr "2h")) = true ->
       fst (api_latest cfg req w) = inr tt)
      /\ clients w' = clients w /\ now w' = now w /\ store w' = store w
      /\ sends (trace w') = sends (trace w)
      /\ writes (trace w') = writes (trace w))
  /\ (let w' := snd (api_series cfg req w) in
      (converts (or_else (query req "fields")
                         (VStr "u_batt_v,i_batt_a,speed_kmh")) = true ->
       converts (or_else (query req "range") (VStr "60m")) = true ->
       fst (api_series cfg req w) = inr tt)
      /\ clients w' = clients w /\ now w' = now w /\ store w' = store w
      /\ sends (trace w') = sends (trace w)
      /\ writes (trace w') = writes (trace w)).
Proof.
  split; [|split].
  - cbv zeta. unfold api_write. run_eff.
    destruct (manual_point (req_body req)) as [e|p].
    + cbn [fst snd emit clients now trace]. autorewrite with obs. cbn.
      autorewrite with obs. repeat split; trivial. lia.
    + destruct (writeLine (store w) _) as [e|s1].
      * cbn [fst snd emit clients now trace]. autorewrite with obs. cbn.
        autorewrite with obs. repeat split; trivial. lia.
      * cbn [store emit set_store clients now trace].
        destruct (flush s1) as [e|s2];
          cbn [fst snd emit set_store clients now trace store];
          autorewrite with obs; cbn; autorewrite with obs;
          repeat split; trivial; rewrite ?length_app; cbn; lia.
  - cbv zeta. unfold api_latest, latest_flux, ToString.
    destruct (converts (or_else (query req "range") (VStr "2h")));
      cbn [bind ret Monad_result Monad_M lift]; [|repeat split; discriminate].
    run_eff.
    destruct (collectRows (store w) _) as [e|rows];
      cbn [fst snd emit clients now trace store];
      autorewrite with obs; cbn; autorewrite with obs; repeat split; trivial.
  - cbv zeta. unfold api_series, series_fields, series_flux, ToString.
    destruct (converts (or_else (query req "fields") _));
      cbn [bind ret Monad_result Monad_M lift]; [|repeat split; discriminate].
    destruct (converts (or_else (query req "range") (VStr "60m")));
      cbn [bind ret Monad_result Monad_M lift]; [|repeat split; discriminate].
    run_eff.
    destruct (collectRows (store w) _) as [e|rows];
      cbn [fst snd emit clients now trace store];
      autorewrite with obs; cbn; autorewrite with obs; repeat split; trivial.
Qed.
